(** * Thrifter: the deal discovery pipeline

    A shallow embedding of the aggregator ([ebay_service.search_all]), the
    pricing and deal-scoring engine ([pricing.py]), the per-query scan
    ([deal_scanner._scan_one_query]), the opportunity table
    ([inventory.add_opportunity]) and the scanner's start/stop controls;
    and around them the scan cycle over the watch table, status changes
    and deletions in the tables, the dashboard figures, the saved settings
    and the price parser of the scraper.

    Numbers.  Python [int]s are [Z].  Python [float]s are read as exact
    rationals [Q]: every arithmetic expression of the source is kept as it
    is written, evaluated without rounding error; [round(x, n)] and
    [round(x)] round half to even, as Python does.  The square root used by
    [statistics.stdev] is not rational; it is a parameter [sqrtQ] of the
    pricing section, and nothing proved below depends on what it returns. *)

From Stdlib Require Import ZArith QArith Qround Lqa Lia List Ascii String Bool.
Import ListNotations.
Open Scope string_scope.
Open Scope list_scope.
Open Scope Q_scope.

(** ** Numeric helpers *)

Definition Qltb (a b : Q) : bool := negb (Qle_bool b a).
Definition Qgeb (a b : Q) : bool := Qle_bool b a.
Definition Qgtb (a b : Q) : bool := negb (Qle_bool a b).
Definition Qmax (a b : Q) : Q := if Qle_bool a b then b else a.
Definition Qmin (a b : Q) : Q := if Qle_bool a b then a else b.

(** Python's [round(x)]: to the nearest integer, ties to the even one. *)
Definition round_half_even (x : Q) : Z :=
  let f := Qfloor x in
  match Qcompare (x - inject_Z f) (1 # 2) with
  | Lt => f
  | Gt => (f + 1)%Z
  | Eq => if Z.even f then f else (f + 1)%Z
  end.

(** Python's [round(x, 1)] and [round(x, 2)]. *)
Definition round1 (x : Q) : Q := inject_Z (round_half_even (x * 10)) / 10.
Definition round2 (x : Q) : Q := inject_Z (round_half_even (x * 100)) / 100.

(** ** Exceptions

    The two run-time errors the modelled arithmetic can raise. *)

Inductive exn := ZeroDivisionError | TypeError.

Inductive result (A : Type) : Type :=
| Ok (a : A)
| Raise (e : exn).
Arguments Ok {A} a.
Arguments Raise {A} e.

Definition bind {A B} (m : result A) (k : A -> result B) : result B :=
  match m with
  | Ok a => k a
  | Raise e => Raise e
  end.

Notation "x <- m ;; k" := (bind m (fun x => k))
  (at level 61, m at next level, right associativity).
Notation "' p <- m ;; k" := (bind m (fun x => match x with p => k end))
  (at level 61, p pattern, m at next level, right associativity).

(** Float division: raises on a zero divisor. *)
Definition truediv (a b : Q) : result Q :=
  if Qeq_bool b 0 then Raise ZeroDivisionError else Ok (a / b).

(** ** The normalized listing (the dict every adapter produces) *)

Record listing := mkListing {
  title : string;
  price : option Q;
  condition : string;
  image_url : string;
  item_url : string;
  seller : string;
  sold_date : string
}.

(** Truth value of a Python number: non-zero. *)
Definition truthy (v : Q) : bool := negb (Qeq_bool v 0).

(** [[i["price"] for i in listings if i.get("price") and i["price"] > 0]] *)
Fixpoint prices_of (l : list listing) : list Q :=
  match l with
  | [] => []
  | i :: tl =>
      match price i with
      | Some v => if truthy v && Qgtb v 0 then v :: prices_of tl
                  else prices_of tl
      | None => prices_of tl
      end
  end.

(** ** The [statistics] module *)

Module statistics.

Definition fsum (l : list Q) : Q := fold_right Qplus 0 l.

Definition len (l : list Q) : Z := Z.of_nat (List.length l).

(** Callers guard against the empty list. *)
Definition mean (l : list Q) : Q := fsum l / inject_Z (len l).

Fixpoint insert (x : Q) (l : list Q) : list Q :=
  match l with
  | [] => [x]
  | y :: tl => if Qle_bool x y then x :: l else y :: insert x tl
  end.

Definition sorted (l : list Q) : list Q := fold_right insert [] l.

Definition median (l : list Q) : Q :=
  let data := sorted l in
  let n := List.length data in
  if Nat.odd n then nth (n / 2) data 0
  else let i := (n / 2)%nat in
       (nth (i - 1) data 0 + nth i data 0) / 2.

(** Sample variance, [sum((x - mean)^2) / (n - 1)]. *)
Definition variance (l : list Q) : Q :=
  let c := mean l in
  fsum (map (fun x => (x - c) * (x - c)) l) / inject_Z (len l - 1).

Definition minimum (l : list Q) : Q :=
  match l with
  | [] => 0
  | x :: tl => fold_left Qmin tl x
  end.

Definition maximum (l : list Q) : Q :=
  match l with
  | [] => 0
  | x :: tl => fold_left Qmax tl x
  end.

End statistics.

(** ** pricing.py *)

Module pricing.

Record SellThrough := mkSellThrough {
  sell_through_pct : option Q;
  avg_days_to_sell : option Q;
  liquidity : string;
  total_sold_recently : Z;
  total_completed_recently : Z;
  total_active_supply : Z;
  supply_demand_note : option string
}.

(** The recommendation dict; a key the dict lacks reads as [None], as
    [dict.get] does.  [assumptions] is (fee percent, shipping, target ROI
    percent). *)
Record Recommendation := mkRecommendation {
  max_buy_price : option Q;
  estimated_sell_price : option Q;
  net_after_fees : option Q;
  estimated_profit : option Q;
  roi_percent : option Q;
  confidence : string;
  note : option string;
  spread_warning : option string;
  liquidity_warning : option string;
  assumptions : option (Q * Q * Q)
}.

(** [breakdown] is (profit, demand, confidence, risk). *)
Record DealScore := mkDealScore {
  score : Z;
  verdict : string;
  color : string;
  summary : string;
  breakdown : option (Z * Z * Z * Z)
}.

Record PriceStats := mkPriceStats {
  average : option Q;
  median : option Q;
  low : option Q;
  high : option Q
}.

Record MarketSummary := mkMarketSummary {
  active_listings_count : Z;
  sold_listings_count : Z;
  total_active_on_market : Z;
  asking_price : PriceStats;
  sold_price : PriceStats;
  sell_through : SellThrough;
  recommendation : Recommendation;
  deal_score : DealScore
}.

(** Truth value of an optional string / optional number. *)
Definition truthy_str (o : option string) : bool :=
  match o with
  | Some s => negb (String.eqb s "")
  | None => false
  end.

Definition truthy_opt (o : option Q) : bool :=
  match o with
  | Some v => truthy v
  | None => false
  end.

(** [round(x, 2) if x else None] *)
Definition round2_if (o : option Q) : option Q :=
  match o with
  | Some v => if truthy v then Some (round2 v) else None
  | None => None
  end.

Section Engine.

(** [math.sqrt], as [statistics.stdev] uses it. *)
Variable sqrtQ : Q -> Q.

(** The age in days of a [sold_date] string at the time of the call:
    [(now - datetime.fromisoformat(sd.replace("Z", "+00:00"))).days],
    [None] when that raises [ValueError] or [TypeError]. *)
Variable days_since : string -> option Z.

Definition stdev (l : list Q) : Q := sqrtQ (statistics.variance l).

Fixpoint day_diffs (sold_listings : list listing) : list Q :=
  match sold_listings with
  | [] => []
  | item :: tl =>
      let sd := sold_date item in
      if String.eqb sd "" then day_diffs tl
      else match days_since sd with
           | Some diff =>
               if ((0 <=? diff) && (diff <=? 180))%Z
               then inject_Z diff :: day_diffs tl
               else day_diffs tl
           | None => day_diffs tl
           end
  end.

Definition _calc_sell_through (sold_listings : list listing)
    (total_sold total_completed total_active : Z) : SellThrough :=
  let str_pct :=
    if (total_completed >? 0)%Z
    then Some (round1 (inject_Z total_sold / inject_Z total_completed * 100))
    else None in
  let diffs := day_diffs sold_listings in
  let avg_days :=
    match diffs with
    | [] => None
    | _ => Some (round1 (statistics.mean diffs))
    end in
  let liquidity :=
    match str_pct with
    | Some p =>
        if Qgeb p 60 then "hot"
        else if Qgeb p 35 then "steady"
        else if Qgeb p 15 then "slow"
        else "dead"
    | None => if (total_sold >? 10)%Z then "steady" else "unknown"
    end%string in
  let supply_demand :=
    if negb (total_active =? 0)%Z && negb (total_sold =? 0)%Z then
      let ratio := inject_Z total_sold / inject_Z (Z.max total_active 1) in
      Some (if Qgtb ratio 1.5 then "High demand, low supply"
            else if Qgtb ratio 0.7 then "Balanced market"
            else if Qgtb ratio 0.3 then "Moderate supply"
            else "Oversaturated — lots of competition")%string
    else None in
  {| sell_through_pct := str_pct;
     avg_days_to_sell := avg_days;
     liquidity := liquidity;
     total_sold_recently := total_sold;
     total_completed_recently := total_completed;
     total_active_supply := total_active;
     supply_demand_note := supply_demand |}.

Definition selling_fees_pct : Q := 0.13.
Definition avg_shipping : Q := 7.00.
Definition target_roi : Q := 0.40.

Definition spread_text : string :=
  "High price variance — condition and exact model matter a lot. Be cautious.".
Definition dead_text : string :=
  "Very low sell-through. This item may sit for months.".
Definition slow_text : string :=
  "Slow seller — be patient or price aggressively.".

Definition _calculate_recommendation (reference_price : option Q)
    (sold_prices : list Q) (sell_through : SellThrough)
    : result Recommendation :=
  match reference_price with
  | None =>
      Ok (mkRecommendation None None None None None "low"
            (Some "Not enough data to make a recommendation"%string)
            None None None)
  | Some reference_price =>
    if negb (truthy reference_price) then
      Ok (mkRecommendation None None None None None "low"
            (Some "Not enough data to make a recommendation"%string)
            None None None)
    else
      let net_after_fees := reference_price * (1 - selling_fees_pct) - avg_shipping in
      let max_buy := net_after_fees / (1 + target_roi) in
      let estimated_profit := net_after_fees - max_buy in
      let n := statistics.len sold_prices in
      let confidence :=
        (if (n >=? 10)%Z then "high"
         else if (n >=? 5)%Z then "medium" else "low")%string in
      '(spread_warning, max_buy, estimated_profit) <-
        (if (n >=? 3)%Z then
           cv <- truediv (stdev sold_prices) (statistics.mean sold_prices) ;;
           if Qgtb cv 0.5
           then let max_buy := max_buy * 0.8 in
                Ok (Some spread_text, max_buy, net_after_fees - max_buy)
           else Ok (None, max_buy, estimated_profit)
         else Ok (None, max_buy, estimated_profit)) ;;
      let liquidity := liquidity sell_through in
      let '(liquidity_warning, max_buy, estimated_profit) :=
        if String.eqb liquidity "dead"
        then let max_buy := max_buy * 0.6 in
             (Some dead_text, max_buy, net_after_fees - max_buy)
        else if String.eqb liquidity "slow"
        then let max_buy := max_buy * 0.85 in
             (Some slow_text, max_buy, net_after_fees - max_buy)
        else (None, max_buy, estimated_profit) in
      Ok {| max_buy_price := Some (round2 (Qmax max_buy 0));
            estimated_sell_price := Some (round2 reference_price);
            net_after_fees := Some (round2 net_after_fees);
            estimated_profit := Some (round2 (Qmax estimated_profit 0));
            roi_percent :=
              Some (if Qgtb max_buy 0
                    then round1 (estimated_profit / max_buy * 100)
                    else 0);
            confidence := confidence;
            note := None;
            spread_warning := spread_warning;
            liquidity_warning := liquidity_warning;
            assumptions :=
              Some (selling_fees_pct * 100, avg_shipping, target_roi * 100) |}
  end.

(** The four components of [_calculate_deal_score], each named after the
    local variable that holds it. *)

(** Profit component (0-100). *)
Definition profit_score (roi : Q) : Q :=
  if Qgeb roi 100 then 100
  else if Qgeb roi 60 then 80
  else if Qgeb roi 40 then 60
  else if Qgeb roi 20 then 40
  else Qmax roi 0.

(** Sell-through component (0-100). *)
Definition str_score (str_pct : option Q) (liquidity : string) : Q :=
  match str_pct with
  | Some p => Qmin (p * 1.5) 100
  | None =>
      if String.eqb liquidity "hot" then 80
      else if String.eqb liquidity "steady" then 55
      else 30
  end.

(** Confidence component: [{"high": 100, "medium": 60, "low": 25}.get(conf, 25)]. *)
Definition conf_score (conf : string) : Q :=
  if String.eqb conf "high" then 100
  else if String.eqb conf "medium" then 60
  else if String.eqb conf "low" then 25
  else 25.

(** Risk penalty (0-100, higher = less risk = better). *)
Definition risk_score (recommendation : Recommendation) : Q :=
  let risk_score := 80 in
  let risk_score :=
    if truthy_str (spread_warning recommendation)
    then risk_score - 30 else risk_score in
  let risk_score :=
    if truthy_str (liquidity_warning recommendation)
    then risk_score - 20 else risk_score in
  Qmax risk_score 0.

Definition composite_of (profit_score str_score conf_score risk_score : Q) : Q :=
  profit_score * 0.40
  + str_score * 0.35
  + conf_score * 0.15
  + risk_score * 0.10.

Definition verdict_color (composite : Q) : string * string :=
  if Qgeb composite 75 then ("HOT DEAL", "green")
  else if Qgeb composite 55 then ("GOOD DEAL", "blue")
  else if Qgeb composite 35 then ("OKAY", "yellow")
  else ("PASS", "red").

(** The [summaries] dict, indexed by verdict. *)
Definition summaries (verdict : string) : string :=
  if String.eqb verdict "HOT DEAL"
  then "Strong profit margin with solid demand. Buy with confidence."
  else if String.eqb verdict "GOOD DEAL"
  then "Decent profit potential. Worth picking up at the right price."
  else if String.eqb verdict "OKAY"
  then "Marginal opportunity. Only buy if priced well below the max."
  else "Low margin or poor sell-through. Skip this one.".

Definition no_data : DealScore :=
  mkDealScore 0 "NO DATA" "gray" "Not enough market data." None.

(** Comparing a missing [roi_percent] ([None]) with a number raises
    [TypeError]. *)
Definition _calculate_deal_score (recommendation : Recommendation)
    (sell_through : SellThrough) : result DealScore :=
  let profit := estimated_profit recommendation in
  let roi := roi_percent recommendation in
  let conf := confidence recommendation in
  let str_pct := sell_through_pct sell_through in
  let liquidity := liquidity sell_through in
  match profit, max_buy_price recommendation with
  | None, _ | _, None => Ok no_data
  | Some _, Some _ =>
    match roi with
    | None => Raise TypeError
    | Some roi =>
      let profit_score := profit_score roi in
      let str_score := str_score str_pct liquidity in
      let conf_score := conf_score conf in
      let risk_score := risk_score recommendation in
      let composite := composite_of profit_score str_score conf_score risk_score in
      let '(verdict, color) := verdict_color composite in
      Ok {| score := round_half_even composite;
            verdict := verdict;
            color := color;
            summary := summaries verdict;
            breakdown :=
              Some (round_half_even profit_score,
                    round_half_even str_score,
                    round_half_even conf_score,
                    round_half_even risk_score) |}
    end
  end.

(** [statistics.mean(xs) if xs else None] and the like. *)
Definition if_nonempty (f : list Q -> Q) (xs : list Q) : option Q :=
  match xs with
  | [] => None
  | _ => Some (f xs)
  end.

(** [a or b] on optional numbers. *)
Definition or_else (a b : option Q) : option Q :=
  if truthy_opt a then a else b.

Definition analyze_prices (active_listings sold_listings : list listing)
    (total_active total_sold total_completed : Z) : result MarketSummary :=
  let active_prices := prices_of active_listings in
  let sold_prices := prices_of sold_listings in
  let avg_asking := if_nonempty statistics.mean active_prices in
  let median_asking := if_nonempty statistics.median active_prices in
  let avg_sold := if_nonempty statistics.mean sold_prices in
  let median_sold := if_nonempty statistics.median sold_prices in
  let reference_price := or_else median_sold median_asking in
  let sell_through :=
    _calc_sell_through sold_listings total_sold total_completed total_active in
  recommendation <-
    _calculate_recommendation reference_price sold_prices sell_through ;;
  deal_score <- _calculate_deal_score recommendation sell_through ;;
  Ok {| active_listings_count := statistics.len active_prices;
        sold_listings_count := statistics.len sold_prices;
        total_active_on_market := total_active;
        asking_price :=
          {| average := round2_if avg_asking;
             median := round2_if median_asking;
             low := option_map round2 (if_nonempty statistics.minimum active_prices);
             high := option_map round2 (if_nonempty statistics.maximum active_prices) |};
        sold_price :=
          {| average := round2_if avg_sold;
             median := round2_if median_sold;
             low := option_map round2 (if_nonempty statistics.minimum sold_prices);
             high := option_map round2 (if_nonempty statistics.maximum sold_prices) |};
        sell_through := sell_through;
        recommendation := recommendation;
        deal_score := deal_score |}.

End Engine.

End pricing.

Definition all_positive (l : list Q) : Prop := Forall (fun p => 0 < p) l.

(** An optional figure that is not negative when present. *)
Definition nonneg_opt (o : option Q) : Prop :=
  match o with
  | Some v => 0 <= v
  | None => True
  end.

(** Price statistics in order: all four absent, or all present with
    [low <= median <= high] and [low <= average <= high]. *)
Definition ordered_stats (s : pricing.PriceStats) : Prop :=
  match pricing.low s, pricing.median s, pricing.high s, pricing.average s with
  | Some lo, Some me, Some hi, Some av =>
      lo <= me /\ me <= hi /\ lo <= av /\ av <= hi
  | None, None, None, None => True
  | _, _, _, _ => False
  end.

(** ** The recommendation in the specification's words *)

Module recommendation_spec.

Import pricing.

Section Spec.

Variable sqrtQ : Q -> Q.

(** Coefficient of variation: standard deviation over mean. *)
Definition cv (sold : list Q) : Q :=
  stdev sqrtQ sold / statistics.mean sold.

Definition net (r : Q) : Q := r * (1 - 0.13) - 7.00.


Definition high_variance (sold : list Q) : bool :=
  (3 <=? statistics.len sold)%Z && Qltb 0.5 (cv sold).

Definition variance_factor (sold : list Q) : Q :=
  if high_variance sold then 0.8 else 1.

Definition liquidity_factor (liq : string) : Q :=
  if String.eqb liq "dead" then 0.6
  else if String.eqb liq "slow" then 0.85
  else 1.

Definition max_buy (r : Q) (sold : list Q) (liq : string) : Q :=
  net r / 1.40 * variance_factor sold * liquidity_factor liq.

Definition profit (r : Q) (sold : list Q) (liq : string) : Q :=
  net r - max_buy r sold liq.

End Spec.

End recommendation_spec.

(** ** Marketplace searches

    What awaiting one adapter call inside
    [asyncio.gather(..., return_exceptions=True)] yields: the pair
    [(items, total)] the adapter returns, or the exception it raised. *)

Inductive fetch :=
| Fetched (items : list listing) (total : Z)
| Failed.

(** [([], 0) if isinstance(r, Exception) else r] *)
Definition or_empty (r : fetch) : list listing * Z :=
  match r with
  | Fetched items total => (items, total)
  | Failed => ([], 0%Z)
  end.

(** The result dict of [search_all] and [scrape_all]; [source_mode] is
    [None] while the key is absent. *)
Record SearchResult := mkSearchResult {
  active : list listing;
  sold : list listing;
  total_active : Z;
  total_sold : Z;
  total_completed : Z;
  source_mode : option string
}.

(** ** ebay_scraper.py: scrape_all *)

Module ebay_scraper.

Section Scraper.

(** The three page scrapers, by query and limit. *)
Variable scrape_active_listings : string -> Z -> fetch.
Variable scrape_sold_listings : string -> Z -> fetch.
Variable scrape_completed_listings : string -> Z -> fetch.

Definition scrape_all (query : string) : SearchResult :=
  let active_r := scrape_active_listings query 48 in
  let sold_r := scrape_sold_listings query 48 in
  let completed_r := scrape_completed_listings query 100 in
  let '(active, total_active) := or_empty active_r in
  let '(sold, total_sold) := or_empty sold_r in
  let '(_, total_completed) := or_empty completed_r in
  {| active := active;
     sold := sold;
     total_active := total_active;
     total_sold := total_sold;
     total_completed := total_completed;
     source_mode := None |}.

End Scraper.

End ebay_scraper.

(** ** ebay_service.py: search_all *)

Module ebay_service.

Section Service.

(** The environment variable [EBAY_APP_ID]. *)
Variable EBAY_APP_ID : string.

(** [settings.get("ebay_mode")], read on every call. *)
Variable ebay_mode : string.

(** The API adapters, by query and limit. *)
Variable search_active_listings : string -> Z -> fetch.
Variable search_sold_listings : string -> Z -> fetch.
Variable search_completed_listings : string -> Z -> fetch.

Variable scrape_active_listings : string -> Z -> fetch.
Variable scrape_sold_listings : string -> Z -> fetch.
Variable scrape_completed_listings : string -> Z -> fetch.

Definition _api_keys_configured : bool :=
  negb (String.eqb EBAY_APP_ID "") && negb (String.eqb EBAY_APP_ID "your-ebay-app-id").

(** Truth value of a list. *)
Definition nonempty (l : list listing) : bool :=
  match l with
  | [] => false
  | _ => true
  end.

Definition search_all (query : string) : SearchResult :=
  let mode := ebay_mode in
  let use_api :=
    String.eqb mode "api" || (String.eqb mode "auto" && _api_keys_configured) in
  let use_scrape :=
    String.eqb mode "scrape"
    || (String.eqb mode "auto" && negb _api_keys_configured) in
  let scraped :=
    let result :=
      ebay_scraper.scrape_all scrape_active_listings scrape_sold_listings
        scrape_completed_listings query in
    {| active := active result;
       sold := sold result;
       total_active := total_active result;
       total_sold := total_sold result;
       total_completed := total_completed result;
       source_mode := Some "scrape" |} in
  let nothing :=
    {| active := [];
       sold := [];
       total_active := 0;
       total_sold := 0;
       total_completed := 0;
       source_mode := Some "none" |} in
  if use_api then
    let active_r := search_active_listings query 40 in
    let sold_r := search_sold_listings query 40 in
    let completed_r := search_completed_listings query 100 in
    let '(active, total_active) := or_empty active_r in
    let '(sold, total_sold) := or_empty sold_r in
    let '(_, total_completed) := or_empty completed_r in
    if nonempty active || nonempty sold then
      {| active := active;
         sold := sold;
         total_active := total_active;
         total_sold := total_sold;
         total_completed := total_completed;
         source_mode := Some "api" |}
    else
      let use_scrape :=
        if negb (String.eqb mode "api") then true else use_scrape in
      if use_scrape then scraped else nothing
  else
    if use_scrape then scraped else nothing.

End Service.

End ebay_service.

(** ** inventory.py: the opportunities table *)

Module inventory.

(** The dict handed to [add_opportunity].  [ebay_item_id] is what
    [data.get("ebay_item_id")] yields: [None] is stored as SQL NULL. *)
Record OpportunityData := mkOpportunityData {
  d_watch_query_id : string;
  d_ebay_item_id : option string;
  d_title : string;
  d_current_price : Q;
  d_estimated_sell_price : option Q;
  d_estimated_profit : Q;
  d_deal_score : Z;
  d_deal_verdict : string;
  d_item_url : string;
  d_image_url : string;
  d_condition : string;
  d_seller : string
}.

(** One row of table [opportunities]. *)
Record Opportunity := mkOpportunity {
  id : string;
  watch_query_id : string;
  ebay_item_id : option string;
  opp_title : string;
  current_price : Q;
  estimated_sell_price : option Q;
  estimated_profit : Q;
  deal_score : Z;
  deal_verdict : string;
  opp_item_url : string;
  opp_image_url : string;
  opp_condition : string;
  opp_seller : string;
  found_at : string;
  status : string;
  inventory_item_id : option string
}.

Definition table := list Opportunity.

(** Equality under the unique index [idx_opp_ebay_id]: NULL equals nothing. *)
Definition same_ebay_id (a b : option string) : bool :=
  match a, b with
  | Some x, Some y => String.eqb x y
  | _, _ => false
  end.

(** Would inserting a row with this [id] and [ebay_item_id] violate the
    primary key or the unique index? *)
Definition violates (db : table) (opp_id : string) (e : option string) : bool :=
  existsb (fun r => String.eqb (id r) opp_id || same_ebay_id (ebay_item_id r) e) db.

(** [SELECT * FROM opportunities WHERE id = ?] *)
Definition get_opportunity (db : table) (opp_id : string) : option Opportunity :=
  find (fun r => String.eqb (id r) opp_id) db.

(** The row that [add_opportunity] inserts for a dict: the values of the
    [INSERT] statement, with status ['new']. *)
Definition new_row (opp_id now : string) (data : OpportunityData) : Opportunity :=
  {| id := opp_id;
     watch_query_id := d_watch_query_id data;
     ebay_item_id := d_ebay_item_id data;
     opp_title := d_title data;
     current_price := d_current_price data;
     estimated_sell_price := d_estimated_sell_price data;
     estimated_profit := d_estimated_profit data;
     deal_score := d_deal_score data;
     deal_verdict := d_deal_verdict data;
     opp_item_url := d_item_url data;
     opp_image_url := d_image_url data;
     opp_condition := d_condition data;
     opp_seller := d_seller data;
     found_at := now;
     status := "new";
     inventory_item_id := None |}.

(** [opp_id] is [str(uuid.uuid4())[:8]] and [now] the current timestamp, as
    drawn by the call.  [INSERT OR IGNORE] leaves the table alone when the
    row would violate a uniqueness constraint, and then [total_changes] is 0. *)
Definition add_opportunity (opp_id now : string) (data : OpportunityData)
    (db : table) : table * option Opportunity :=
  let '(db, total_changes) :=
    if violates db opp_id (d_ebay_item_id data) then (db, 0%Z)
    else (db ++ [new_row opp_id now data], 1%Z) in
  if (total_changes >? 0)%Z then (db, get_opportunity db opp_id)
  else (db, None).

(** Number of stored rows with a given [ebay_item_id]. *)
Definition rows_with (db : table) (e : string) : nat :=
  List.length (filter (fun r => same_ebay_id (ebay_item_id r) (Some e)) db).

(** What the primary key and the unique index guarantee of a table. *)
Definition well_keyed (db : table) : Prop :=
  NoDup (map id db)
  /\ forall e, (rows_with db e <= 1)%nat.

(** *** Inventory items and the dashboard *)

(** One row of table [items]. *)
Record Item := mkItem {
  item_id : string;
  item_title : string;
  item_brand : option string;
  item_category : option string;
  item_purchase_price : option Q;
  item_purchase_date : option string;
  item_purchase_location : option string;
  item_storage_location : option string;
  item_status : option string;
  item_listed_price : option Q;
  item_listed_date : option string;
  item_listed_platform : option string;
  item_sold_price : option Q;
  item_sold_date : option string;
  item_sold_platform : option string;
  item_shipping_cost : option Q;
  item_platform_fees : option Q;
  item_image_url : option string;
  item_notes : option string;
  item_search_query : option string;
  item_created_at : string;
  item_updated_at : string
}.

(** [WHERE status = ?] *)
Definition status_is (s : string) (i : Item) : bool :=
  match item_status i with
  | Some x => String.eqb x s
  | None => false
  end.

(** [SELECT COUNT( * ) ... WHERE ...] *)
Definition count_where (p : Item -> bool) (items : list Item) : Z :=
  Z.of_nat (List.length (filter p items)).

(** [SELECT COALESCE(SUM(column), 0) ... WHERE ...]: NULLs are skipped. *)
Definition sum_where (p : Item -> bool) (column : Item -> option Q)
    (items : list Item) : Q :=
  fold_right (fun i acc =>
                match column i with
                | Some v => v + acc
                | None => acc
                end) 0 (filter p items).

Record DashboardStats := mkDashboardStats {
  total_items : Z;
  unlisted : Z;
  listed : Z;
  sold_items : Z;
  total_invested : Q;
  total_revenue : Q;
  total_profit : Q;
  total_fees : Q;
  unsold_investment : Q;
  dashboard_roi_percent : Q
}.

Definition get_dashboard_stats (items : list Item) : DashboardStats :=
  let everything := fun _ : Item => true in
  let total := count_where everything items in
  let unlisted := count_where (status_is "unlisted") items in
  let listed := count_where (status_is "listed") items in
  let sold := count_where (status_is "sold") items in
  let total_invested := sum_where everything item_purchase_price items in
  let total_revenue := sum_where (status_is "sold") item_sold_price items in
  let cost_of_sold := sum_where (status_is "sold") item_purchase_price items in
  let total_fees :=
    sum_where (status_is "sold") item_shipping_cost items
    + sum_where (status_is "sold") item_platform_fees items in
  let total_profit := total_revenue - cost_of_sold - total_fees in
  let unsold_investment :=
    sum_where (fun i => status_is "unlisted" i || status_is "listed" i)
      item_purchase_price items in
  {| total_items := total;
     unlisted := unlisted;
     listed := listed;
     sold_items := sold;
     total_invested := round2 total_invested;
     total_revenue := round2 total_revenue;
     total_profit := round2 total_profit;
     total_fees := round2 total_fees;
     unsold_investment := round2 unsold_investment;
     dashboard_roi_percent :=
       if Qgtb cost_of_sold 0 then round1 (total_profit / cost_of_sold * 100)
       else 0 |}.

(** *** Watch queries *)

(** One row of table [watch_queries]; [enabled] holds 1 or 0. *)
Record WatchRow := mkWatchRow {
  w_id : string;
  w_query : string;
  w_category : option string;
  w_max_buy_price : option Q;
  w_min_profit : Q;
  w_min_deal_score : Z;
  w_enabled : bool;
  w_last_scanned : option string;
  w_scan_count : Z;
  w_opportunities_found : Z;
  w_created_at : string
}.

Definition watch_table := list WatchRow.

(** [ORDER BY created_at DESC]: text compares byte by byte. *)
Fixpoint insert_by_created (r : WatchRow) (rows : list WatchRow) : list WatchRow :=
  match rows with
  | [] => [r]
  | x :: tl =>
      if String.leb (w_created_at x) (w_created_at r) then r :: rows
      else x :: insert_by_created r tl
  end.

Definition order_by_created_desc (rows : list WatchRow) : list WatchRow :=
  fold_right insert_by_created [] rows.

Definition list_watch_queries (enabled_only : bool) (t : watch_table)
    : list WatchRow :=
  order_by_created_desc (if enabled_only then filter w_enabled t else t).

(** The row after [SET last_scanned = ?, scan_count = scan_count + 1,
    opportunities_found = opportunities_found + ?]. *)
Definition scanned_row (now : string) (new_opps : Z) (r : WatchRow) : WatchRow :=
  {| w_id := w_id r;
     w_query := w_query r;
     w_category := w_category r;
     w_max_buy_price := w_max_buy_price r;
     w_min_profit := w_min_profit r;
     w_min_deal_score := w_min_deal_score r;
     w_enabled := w_enabled r;
     w_last_scanned := Some now;
     w_scan_count := (w_scan_count r + 1)%Z;
     w_opportunities_found := (w_opportunities_found r + new_opps)%Z;
     w_created_at := w_created_at r |}.

Definition mark_watch_scanned (now wq_id : string) (new_opps : Z)
    (t : watch_table) : watch_table :=
  map (fun r => if String.eqb (w_id r) wq_id then scanned_row now new_opps r else r) t.

(** Both [DELETE] statements; the result is [cursor.rowcount > 0] of the
    first. *)
Definition delete_watch_query (wq_id : string) (t : watch_table) (db : table)
    : watch_table * table * bool :=
  let rowcount := List.length (filter (fun r => String.eqb (w_id r) wq_id) t) in
  (filter (fun r => negb (String.eqb (w_id r) wq_id)) t,
   filter (fun r => negb (String.eqb (watch_query_id r) wq_id)) db,
   (0 <? Z.of_nat rowcount)%Z).

(** Sum of column [opportunities_found]. *)
Definition total_found (t : watch_table) : Z :=
  fold_right (fun r acc => (w_opportunities_found r + acc)%Z) 0%Z t.

(** *** Opportunity status *)

Definition with_status (status : string) (inventory_item_id : option string)
    (r : Opportunity) : Opportunity :=
  {| id := id r;
     watch_query_id := watch_query_id r;
     ebay_item_id := ebay_item_id r;
     opp_title := opp_title r;
     current_price := current_price r;
     estimated_sell_price := estimated_sell_price r;
     estimated_profit := estimated_profit r;
     deal_score := deal_score r;
     deal_verdict := deal_verdict r;
     opp_item_url := opp_item_url r;
     opp_image_url := opp_image_url r;
     opp_condition := opp_condition r;
     opp_seller := opp_seller r;
     found_at := found_at r;
     status := status;
     inventory_item_id := inventory_item_id |}.

(** [if inventory_item_id:] is false for [None] and for the empty string;
    then the column keeps its value. *)
Definition update_opportunity_status (opp_id status : string)
    (inventory_item_id : option string) (db : table)
    : table * option Opportunity :=
  let set_item :=
    match inventory_item_id with
    | Some i => negb (String.eqb i "")
    | None => false
    end in
  let db :=
    map (fun r =>
           if String.eqb (id r) opp_id then
             with_status status
               (if set_item then inventory_item_id else inventory.inventory_item_id r) r
           else r) db in
  (db, get_opportunity db opp_id).

End inventory.

(** ** deal_scanner.py *)

Module deal_scanner.

Record WatchQuery := mkWatchQuery {
  wq_id : string;
  query : string;
  max_buy_price : option Q;
  min_profit : Q;
  min_deal_score : Z
}.

(** *** String helpers for [_extract_ebay_id] *)

Fixpoint drop (n : nat) (s : string) : string :=
  match n, s with
  | O, _ => s
  | S k, EmptyString => EmptyString
  | S k, String _ tl => drop k tl
  end.

(** [sep in s] *)
Fixpoint contains (sep s : string) : bool :=
  match s with
  | EmptyString => String.prefix sep EmptyString
  | String _ tl => String.prefix sep s || contains sep tl
  end.

(** [s.split(sep)[0]], for a non-empty [sep]. *)
Fixpoint split_first (sep s : string) : string :=
  match s with
  | EmptyString => EmptyString
  | String c tl =>
      if String.prefix sep s then EmptyString else String c (split_first sep tl)
  end.

(** [s.split(sep)[-1]], for a non-empty [sep]: [last] is the text after the
    latest separator found, [skip] the characters of that separator still to
    pass over (occurrences are taken left to right, without overlap). *)
Fixpoint split_last_from (sep : string) (skip : nat) (s last : string) : string :=
  match s with
  | EmptyString => last
  | String _ tl =>
      match skip with
      | S k => split_last_from sep k tl last
      | O =>
          if String.prefix sep s
          then split_last_from sep (String.length sep - 1) tl
                 (drop (String.length sep) s)
          else split_last_from sep 0 tl last
      end
  end.

Definition split_last (sep s : string) : string := split_last_from sep 0 s s.

Definition is_digit (c : Ascii.ascii) : bool :=
  let n := Ascii.nat_of_ascii c in
  (48 <=? n)%nat && (n <=? 57)%nat.

Fixpoint all_digits (s : string) : bool :=
  match s with
  | EmptyString => true
  | String c tl => is_digit c && all_digits tl
  end.

(** [s.isdigit()], on ASCII text. *)
Definition isdigit (s : string) : bool :=
  match s with
  | EmptyString => false
  | _ => all_digits s
  end.

(** Pull the eBay item ID from a URL, or use the full URL as fallback. *)
Definition _extract_ebay_id (url : string) : string :=
  if contains "/itm/" url then
    let tail := split_last "/" (split_first "?" (split_last "/itm/" url)) in
    if isdigit tail then tail else url
  else url.

(** *** The world a scan acts on

    The opportunities table, and the log of dicts handed to
    [inventory.add_opportunity] so far. *)
Record world := mkWorld {
  db : inventory.table;
  calls : list inventory.OpportunityData
}.

Section Scan.

Variable sqrtQ : Q -> Q.
Variable days_since : string -> option Z.

(** The API adapters of [ebay_service], by query and limit. *)
Variable search_active_listings : string -> Z -> fetch.
Variable search_sold_listings : string -> Z -> fetch.

(** The row id and timestamp that the [k]-th call of [add_opportunity]
    draws. *)
Variable draw : nat -> string * string.

Definition add_opportunity (data : inventory.OpportunityData) (w : world)
    : world * option inventory.Opportunity :=
  let '(opp_id, now) := draw (List.length (calls w)) in
  let '(db', opp) := inventory.add_opportunity opp_id now data (db w) in
  ({| db := db'; calls := calls w ++ [data] |}, opp).

(** The [for item in active_items] loop of [_scan_one_query]. *)
Fixpoint scan_items (wq : WatchQuery) (deal_score_data : pricing.DealScore)
    (est_sell : option Q) (active_items : list listing)
    (w : world) (new_count : Z) : world * Z :=
  match active_items with
  | [] => (w, new_count)
  | item :: rest =>
      let continue := scan_items wq deal_score_data est_sell rest in
      match price item with
      | None => continue w new_count
      | Some price =>
        if Qle_bool price 0 then continue w new_count
        else if match max_buy_price wq with
                | Some max_buy => Qgtb price max_buy
                | None => false
                end
        then continue w new_count
        else
          match est_sell with
          | None => continue w new_count
          | Some est_sell =>
            if negb (truthy est_sell && Qgtb est_sell 0) then continue w new_count
            else
              let item_profit := est_sell * 0.87 - 7.0 - price in
              if Qltb item_profit (min_profit wq) then continue w new_count
              else
                let item_score := pricing.score deal_score_data in
                let item_roi :=
                  if Qgtb price 0 then item_profit / price * 100 else 0 in
                let item_score :=
                  if Qgtb item_roi 100 then Z.min (item_score + 15) 100
                  else if Qgtb item_roi 60 then Z.min (item_score + 5) 100
                  else item_score in
                if (item_score <? min_deal_score wq)%Z then continue w new_count
                else
                  let verdict := pricing.verdict deal_score_data in
                  let verdict :=
                    if Qgeb item_roi 80 then "HOT DEAL"
                    else if Qgeb item_roi 50 then "GOOD DEAL"
                    else verdict in
                  let '(w, opp) :=
                    add_opportunity
                      {| inventory.d_watch_query_id := wq_id wq;
                         inventory.d_ebay_item_id :=
                           Some (_extract_ebay_id (item_url item));
                         inventory.d_title := title item;
                         inventory.d_current_price := price;
                         inventory.d_estimated_sell_price := Some est_sell;
                         inventory.d_estimated_profit := round2 item_profit;
                         inventory.d_deal_score := item_score;
                         inventory.d_deal_verdict := verdict;
                         inventory.d_item_url := item_url item;
                         inventory.d_image_url := image_url item;
                         inventory.d_condition := condition item;
                         inventory.d_seller := seller item |} w in
                  match opp with
                  | Some _ => continue w (new_count + 1)%Z
                  | None => continue w new_count
                  end
          end
      end
  end.

(** Scan a single watch query: the world afterwards and the number of new
    opportunities found. *)
Definition _scan_one_query (wq : WatchQuery) (w : world) : result (world * Z) :=
  let query := query wq in
  let active_result := search_active_listings query 50 in
  let sold_result := search_sold_listings query 50 in
  match active_result with
  | Failed => Ok (w, 0%Z)
  | Fetched active_items total_active =>
      let '(sold_items, total_sold) := or_empty sold_result in
      match active_items with
      | [] => Ok (w, 0%Z)
      | _ =>
          pricing <-
            pricing.analyze_prices sqrtQ days_since active_items sold_items
              total_active total_sold total_sold ;;
          let deal_score_data := pricing.deal_score pricing in
          let rec := pricing.recommendation pricing in
          let est_sell := pricing.estimated_sell_price rec in
          Ok (scan_items wq deal_score_data est_sell active_items w 0%Z)
      end
  end.

End Scan.

(** *** Scan cycles *)

(** The watch-query dict as [_scan_one_query] reads it. *)
Definition watch_query_of (row : inventory.WatchRow) : WatchQuery :=
  {| wq_id := inventory.w_id row;
     query := inventory.w_query row;
     max_buy_price := inventory.w_max_buy_price row;
     min_profit := inventory.w_min_profit row;
     min_deal_score := inventory.w_min_deal_score row |}.

(** The database during a cycle: the opportunities side, and table
    [watch_queries]. *)
Record state := mkState {
  scanned : world;
  watch_queries : inventory.watch_table
}.

Section Cycle.

Variable sqrtQ : Q -> Q.
Variable days_since : string -> option Z.
Variable search_active_listings : string -> Z -> fetch.
Variable search_sold_listings : string -> Z -> fetch.
Variable draw : nat -> string * string.

(** The timestamp that [mark_watch_scanned] reads for the [k]-th query of
    the cycle. *)
Variable now : nat -> string.

(** The [for wq in queries] loop of [run_scan_cycle]; an exception of a scan
    is logged and the query is not marked. *)
Fixpoint scan_queries (queries : list inventory.WatchRow) (k : nat) (s : state)
    : state :=
  match queries with
  | [] => s
  | wq :: rest =>
      let s :=
        match _scan_one_query sqrtQ days_since search_active_listings
                search_sold_listings draw (watch_query_of wq) (scanned s) with
        | Ok (w, new_count) =>
            {| scanned := w;
               watch_queries :=
                 inventory.mark_watch_scanned (now k) (inventory.w_id wq) new_count
                   (watch_queries s) |}
        | Raise _ => s
        end in
      scan_queries rest (S k) s
  end.

Definition run_scan_cycle (s : state) : state :=
  let queries := inventory.list_watch_queries true (watch_queries s) in
  match queries with
  | [] => s
  | _ => scan_queries queries 0 s
  end.

End Cycle.

(** *** Scanner controls *)

(** An [asyncio.Task] running [_scanner_loop]: created but not yet run,
    inside the loop, or done. *)
Inductive task := Scheduled | Looping | Finished.

Record scanner := mkScanner {
  _scanner_task : option task;
  _scanner_running : bool
}.

(** The module's initial globals. *)
Definition initial : scanner := mkScanner None false.

(** [_scanner_task and not _scanner_task.done()] *)
Definition task_active (s : scanner) : bool :=
  match _scanner_task s with
  | Some Finished => false
  | Some _ => true
  | None => false
  end.

Definition start_scanner (s : scanner) : scanner * bool :=
  if task_active s then (s, false)
  else ({| _scanner_task := Some Scheduled; _scanner_running := true |}, true).

Definition stop_scanner (s : scanner) : scanner * bool :=
  if negb (_scanner_running s) then (s, false)
  else ({| _scanner_task := _scanner_task s; _scanner_running := false |}, true).

Definition is_scanner_running (s : scanner) : bool :=
  _scanner_running s
  && match _scanner_task s with
     | Some t => match t with Finished => false | _ => true end
     | None => false
     end.

(** One step of the scanner's globals: a control call, or the loop task
    making progress ([_scanner_loop] sets the flag when it first runs, and
    returns once it sees the flag cleared). *)
Inductive step : scanner -> scanner -> Prop :=
| step_start s : step s (fst (start_scanner s))
| step_stop s : step s (fst (stop_scanner s))
| step_loop_enter s :
    _scanner_task s = Some Scheduled ->
    step s {| _scanner_task := Some Looping; _scanner_running := true |}
| step_loop_exit s :
    _scanner_task s = Some Looping ->
    _scanner_running s = false ->
    step s {| _scanner_task := Some Finished; _scanner_running := false |}.

Inductive reachable : scanner -> Prop :=
| reach_initial : reachable initial
| reach_step s s' : reachable s -> step s s' -> reachable s'.

End deal_scanner.

(** ** ebay_scraper.py: _parse_price *)

Module price_text.

(** [\s] on ASCII text. *)
Definition is_space (c : Ascii.ascii) : bool :=
  let n := Ascii.nat_of_ascii c in
  ((9 <=? n)%nat && (n <=? 13)%nat) || ((28 <=? n)%nat && (n <=? 32)%nat).

(** The class [[\d.]] on ASCII text. *)
Definition is_num (c : Ascii.ascii) : bool :=
  deal_scanner.is_digit c || Ascii.eqb c ".".

Fixpoint take_while (p : Ascii.ascii -> bool) (s : string) : string :=
  match s with
  | EmptyString => EmptyString
  | String c tl => if p c then String c (take_while p tl) else EmptyString
  end.

Fixpoint drop_while (p : Ascii.ascii -> bool) (s : string) : string :=
  match s with
  | EmptyString => EmptyString
  | String c tl => if p c then drop_while p tl else s
  end.

(** [text.replace(",", "")] *)
Fixpoint remove_commas (s : string) : string :=
  match s with
  | EmptyString => EmptyString
  | String c tl =>
      if Ascii.eqb c "," then remove_commas tl else String c (remove_commas tl)
  end.

(** Group 1 of the leftmost match of [\$\s*([\d.]+)]. *)
Fixpoint search_dollar (s : string) : option string :=
  match s with
  | EmptyString => None
  | String c tl =>
      if Ascii.eqb c "$" then
        match take_while is_num (drop_while is_space tl) with
        | EmptyString => search_dollar tl
        | g => Some g
        end
      else search_dollar tl
  end.

(** Group 1 of the leftmost match of [([\d.]+)]. *)
Fixpoint search_number (s : string) : option string :=
  match s with
  | EmptyString => None
  | String c tl => if is_num c then Some (take_while is_num s) else search_number tl
  end.

(** The number written by a string of decimal digits, after [acc]. *)
Fixpoint digits_value (acc : Z) (s : string) : Z :=
  match s with
  | EmptyString => acc
  | String c tl =>
      digits_value (acc * 10 + Z.of_nat (Ascii.nat_of_ascii c - 48))%Z tl
  end.

Definition nonempty (s : string) : bool :=
  match s with
  | EmptyString => false
  | _ => true
  end.

(** [float(g)] for a string of digits and dots, which is all the two
    patterns capture: [None] stands for [ValueError], raised unless there is
    at most one dot and at least one digit. *)
Definition float (g : string) : option Q :=
  let whole := take_while deal_scanner.is_digit g in
  match drop_while deal_scanner.is_digit g with
  | EmptyString =>
      if nonempty whole then Some (inject_Z (digits_value 0 whole)) else None
  | String c frac =>
      if Ascii.eqb c "." && deal_scanner.all_digits frac
         && (nonempty whole || nonempty frac)
      then Some (inject_Z (digits_value 0 (whole ++ frac)%string)
                 / inject_Z (10 ^ Z.of_nat (String.length frac)))
      else None
  end.

(** Every character of [s] satisfies [p]. *)
Fixpoint all_chars (p : Ascii.ascii -> bool) (s : string) : bool :=
  match s with
  | EmptyString => true
  | String c tl => p c && all_chars p tl
  end.

(** Extract first numeric dollar amount from a price string. *)
Definition _parse_price (text : string) : option Q :=
  if negb (nonempty text) then None
  else
    let text := remove_commas text in
    let fallback :=
      match search_number text with
      | Some g => float g
      | None => None
      end in
    match search_dollar text with
    | Some g =>
        match float g with
        | Some v => Some v
        | None => fallback
        end
    | None => fallback
    end.

End price_text.

(** ** settings.py *)

Module settings.

(** JSON values. *)
Inductive json :=
| JString (s : string)
| JBool (b : bool)
| JNumber (q : Q)
| JNull.

(** A dict with string keys, by what a lookup finds. *)
Definition dict := string -> option json.

Definition empty : dict := fun _ => None.

(** [{**a, **b}] *)
Definition merge (a b : dict) : dict :=
  fun k =>
    match b k with
    | Some v => Some v
    | None => a k
    end.

Definition _DEFAULTS : dict :=
  fun k =>
    if String.eqb k "ebay_mode" then Some (JString "auto")
    else if String.eqb k "fb_marketplace_enabled" then Some (JBool true)
    else if String.eqb k "craigslist_enabled" then Some (JBool false)
    else if String.eqb k "offerup_enabled" then Some (JBool false)
    else None.

(** [k in d] *)
Definition contains_key (d : dict) (k : string) : bool :=
  match d k with
  | Some _ => true
  | None => false
  end.

(** The module global [_cache], and the object that [settings.json] parses
    to ([None] when the file is missing or cannot be read as one). *)
Record store := mkStore {
  _cache : option dict;
  _FILE : option dict
}.

Definition load (s : store) : dict * store :=
  match _cache s with
  | Some cache => (cache, s)
  | None =>
      match _FILE s with
      | Some parsed =>
          let cache := merge _DEFAULTS parsed in
          (cache, {| _cache := Some cache; _FILE := _FILE s |})
      | None => (_DEFAULTS, {| _cache := Some _DEFAULTS; _FILE := _FILE s |})
      end
  end.

Definition save (settings : dict) (s : store) : dict * store :=
  let '(loaded, _) := load s in
  let merged := merge loaded settings in
  let merged : dict :=
    fun k => if contains_key _DEFAULTS k then merged k else None in
  (merged, {| _cache := Some merged; _FILE := Some merged |}).

(** [load().get(key, _DEFAULTS.get(key))] *)
Definition get (key : string) (s : store) : option json * store :=
  let '(loaded, s) := load s in
  (match loaded key with
   | Some v => Some v
   | None => _DEFAULTS key
   end, s).

(** A new process over the same file: the cache starts empty. *)
Definition restarted (s : store) : store :=
  {| _cache := None; _FILE := _FILE s |}.

End settings.

(** Row ids still to be drawn are new: none of them is in the table, and
    no two of them coincide. *)
Definition fresh_draws (draw : nat -> string * string) (w : deal_scanner.world)
    : Prop :=
  (forall k, (List.length (deal_scanner.calls w) <= k)%nat ->
             ~ In (fst (draw k)) (map inventory.id (deal_scanner.db w)))
  /\ (forall j k, (List.length (deal_scanner.calls w) <= j)%nat -> (j < k)%nat ->
                  fst (draw j) <> fst (draw k)).

(** ** The per-listing filter of a scan, in the specification's words *)

Module scan_spec.

Import deal_scanner.

Definition item_profit (est_sell price : Q) : Q := est_sell * 0.87 - 7.0 - price.

Definition item_roi (est_sell price : Q) : Q :=
  item_profit est_sell price / price * 100.

(** The query-level score, plus 15 capped at 100 when the item's ROI exceeds
    100%, or plus 5 when it exceeds 60%. *)
Definition item_score (query_score : Z) (roi : Q) : Z :=
  if Qltb 100 roi then Z.min (query_score + 15) 100
  else if Qltb 60 roi then (query_score + 5)%Z
  else query_score.

Definition item_verdict (query_verdict : string) (roi : Q) : string :=
  if Qle_bool 80 roi then "HOT DEAL"
  else if Qle_bool 50 roi then "GOOD DEAL"
  else query_verdict.

Definition within_budget (wq : WatchQuery) (price : Q) : bool :=
  match max_buy_price wq with
  | Some max_buy => Qle_bool price max_buy
  | None => true
  end.

(** The opportunity a listing gives rise to, if it passes every filter. *)
Definition candidate (wq : WatchQuery) (query_score : Z) (query_verdict : string)
    (est_sell : option Q) (item : listing) : option inventory.OpportunityData :=
  match price item, est_sell with
  | Some p, Some es =>
      if Qltb 0 p
         && within_budget wq p
         && Qltb 0 es
         && Qle_bool (min_profit wq) (item_profit es p)
         && (min_deal_score wq <=? item_score query_score (item_roi es p))%Z
      then Some {| inventory.d_watch_query_id := wq_id wq;
                   inventory.d_ebay_item_id := Some (_extract_ebay_id (item_url item));
                   inventory.d_title := title item;
                   inventory.d_current_price := p;
                   inventory.d_estimated_sell_price := Some es;
                   inventory.d_estimated_profit := round2 (item_profit es p);
                   inventory.d_deal_score := item_score query_score (item_roi es p);
                   inventory.d_deal_verdict := item_verdict query_verdict (item_roi es p);
                   inventory.d_item_url := item_url item;
                   inventory.d_image_url := image_url item;
                   inventory.d_condition := condition item;
                   inventory.d_seller := seller item |}
      else None
  | _, _ => None
  end.

Fixpoint candidates (wq : WatchQuery) (query_score : Z) (query_verdict : string)
    (est_sell : option Q) (items : list listing) : list inventory.OpportunityData :=
  match items with
  | [] => []
  | item :: rest =>
      match candidate wq query_score query_verdict est_sell item with
      | Some d => d :: candidates wq query_score query_verdict est_sell rest
      | None => candidates wq query_score query_verdict est_sell rest
      end
  end.


End scan_spec.

(** ** Concrete instances, for evaluating the model *)

(** A square root to six decimals (rounded down), standing in for
    [math.sqrt] when the model is run on concrete samples. *)
Definition Qsqrt (x : Q) : Q :=
  inject_Z (Z.sqrt (Qfloor (x * 1000000000000))) / 1000000.

(** A clock under which no [sold_date] parses. *)
Definition days_unparsed (sd : string) : option Z := None.

(** A listing with a title, a price and a URL, the other fields empty. *)
Definition sample (t : string) (p : Q) (url : string) : listing :=
  mkListing t (Some p) "" "" url "" "".

(** An adapter that always raises, and one that always returns the same
    listings. *)
Definition failing (query : string) (limit : Z) : fetch := Failed.

Definition returning (items : list listing) (query : string) (limit : Z) : fetch :=
  Fetched items (Z.of_nat (List.length items)).

(** An opportunity dict for a given item id, the other fields fixed. *)
Definition sample_opportunity (e : string) : inventory.OpportunityData :=
  inventory.mkOpportunityData "wq1" (Some e) "lamp" 10 (Some 100) 70 61
    "HOT DEAL" "" "" "" "".

(** The [k]-th drawn row id is a run of [k+1] letters; the clock stands still. *)
Definition draw_numbered (k : nat) : string * string :=
  (string_of_list_ascii (repeat "x"%char (S k)), "2026-01-01T00:00:00+00:00").

(** The end-to-end fixture of the specification: a watch query for
    "vintage camera", five active listings and twelve sold ones at 90. *)
Definition camera_query : deal_scanner.WatchQuery :=
  deal_scanner.mkWatchQuery "wq1" "vintage camera" (Some 50) 5 50.

Definition camera_active : list listing :=
  [ sample "camera a" 20 "https://www.ebay.com/itm/101";
    sample "camera b" 30 "https://www.ebay.com/itm/102";
    sample "camera c" 45 "https://www.ebay.com/itm/103";
    sample "camera d" 60 "https://www.ebay.com/itm/104";
    sample "camera e" 80 "https://www.ebay.com/itm/105" ].

Definition camera_sold : list listing :=
  repeat (sample "camera sold" 90 "") 12.

Definition empty_world : deal_scanner.world := deal_scanner.mkWorld [] [].

(** A sell-through record (30 sold of 100 completed) and a recommendation
    with a spread warning, for evaluating the deal score. *)
Definition sample_sell_through : pricing.SellThrough :=
  pricing._calc_sell_through days_unparsed [] 30 100 50.


(** The watch row behind [camera_query], a state holding it, and a clock
    that stands still. *)
Definition camera_row : inventory.WatchRow :=
  inventory.mkWatchRow "wq1" "vintage camera" None (Some 50) 5 50 true None 0 0
    "2026-01-01T00:00:00+00:00".

Definition camera_state : deal_scanner.state :=
  deal_scanner.mkState empty_world [camera_row].

Definition clock_still (k : nat) : string := "2026-01-02T00:00:00+00:00".

(** A scanner whose loop task is inside its loop. *)
Definition looping : deal_scanner.scanner :=
  deal_scanner.mkScanner (Some deal_scanner.Looping) true.

(** A clock under which every [sold_date] is three days old, and a sold
    listing with a date. *)
Definition days_three (sd : string) : option Z := Some 3%Z.

Definition sold_dated : listing :=
  mkListing "camera sold" (Some 90) "" "" "" "" "2026-01-01T00:00:00Z".

(** A stored opportunity for eBay item 1001, found for watch query wq1. *)
Definition stored_row : inventory.Opportunity :=
  inventory.new_row "a1" "2026-01-01T00:00:00+00:00" (sample_opportunity "1001").

(** An update that switches the data source to scraping. *)
Definition to_scrape : settings.dict :=
  fun k => if String.eqb k "ebay_mode" then Some (settings.JString "scrape") else None.

(** * Properties *)

(** ** Comparisons *)

Lemma Qltb_lt a b : Qltb a b = true <-> a < b.
Proof.
  unfold Qltb. rewrite negb_true_iff, <- not_true_iff_false, Qle_bool_iff.
  split; intro H; [apply Qnot_le_lt | apply Qlt_not_le]; exact H.
Qed.

Lemma Qgtb_gt a b : Qgtb a b = true <-> b < a.
Proof. unfold Qgtb. apply (Qltb_lt b a). Qed.

Lemma Qgeb_ge a b : Qgeb a b = true <-> b <= a.
Proof. unfold Qgeb. apply Qle_bool_iff. Qed.

Lemma Qgeb_false a b : Qgeb a b = false <-> a < b.
Proof.
  unfold Qgeb. rewrite <- not_true_iff_false, Qle_bool_iff.
  split; intro H; [apply Qnot_le_lt | apply Qlt_not_le]; exact H.
Qed.

Lemma Qgtb_false a b : Qgtb a b = false <-> a <= b.
Proof.
  unfold Qgtb. rewrite negb_false_iff. apply Qle_bool_iff.
Qed.

Lemma Qltb_false a b : Qltb a b = false <-> b <= a.
Proof. unfold Qltb. rewrite negb_false_iff. apply Qle_bool_iff. Qed.

Lemma round_half_even_mono_0 x : 0 <= x -> (0 <= round_half_even x)%Z.
Proof.
  intro H. unfold round_half_even.
  assert (Hf : (0 <= Qfloor x)%Z).
  { change 0%Z with (Qfloor 0). apply Qfloor_resp_le. exact H. }
  destruct (Qcompare _ _); [destruct (Z.even _) | |]; lia.
Qed.

Lemma round_half_even_le_int x (n : Z) :
  x <= inject_Z n -> (round_half_even x <= n)%Z.
Proof.
  intro H. unfold round_half_even.
  assert (Hf : (Qfloor x <= n)%Z).
  { rewrite <- (Qfloor_Z n). apply Qfloor_resp_le. exact H. }
  destruct (Z.eq_dec (Qfloor x) n) as [E | NE].
  - assert (Hx : inject_Z n <= x) by (rewrite <- E; apply Qfloor_le).
    assert (Hd : x - inject_Z (Qfloor x) == 0) by (rewrite E; lra).
    rewrite Hd. simpl. lia.
  - destruct (Qcompare _ _); [destruct (Z.even _) | |]; lia.
Qed.

Lemma round_half_even_ge_int x (n : Z) :
  inject_Z n <= x -> (n <= round_half_even x)%Z.
Proof.
  intro H. unfold round_half_even.
  assert (Hf : (n <= Qfloor x)%Z).
  { rewrite <- (Qfloor_Z n). apply Qfloor_resp_le. exact H. }
  destruct (Qcompare _ _); [destruct (Z.even _) | |]; lia.
Qed.

Lemma round_half_even_int (n : Z) : round_half_even (inject_Z n) = n.
Proof.
  apply Z.le_antisymm.
  - apply round_half_even_le_int. lra.
  - apply round_half_even_ge_int. lra.
Qed.


(** ** Rounding *)

Lemma round_half_even_compat x y : x == y -> round_half_even x = round_half_even y.
Proof.
  intro E. unfold round_half_even.
  rewrite (Qfloor_comp x y E).
  assert (Ec : Qcompare (x - inject_Z (Qfloor y)) (1 # 2)
               = Qcompare (y - inject_Z (Qfloor y)) (1 # 2)).
  { apply Qcompare_comp; [rewrite E|]; reflexivity. }
  rewrite Ec. reflexivity.
Qed.

Lemma round1_compat x y : x == y -> round1 x = round1 y.
Proof.
  intro E. unfold round1.
  rewrite (round_half_even_compat (x * 10) (y * 10)); [reflexivity|].
  rewrite E. reflexivity.
Qed.


Lemma inject_Z_div_nonneg (z d : Z) : (0 <= z)%Z -> (0 < d)%Z -> 0 <= inject_Z z / inject_Z d.
Proof.
  intros Hz Hd.
  apply Qle_shift_div_l.
  - change 0 with (inject_Z 0). rewrite <- Zlt_Qlt. exact Hd.
  - rewrite Qmult_0_l. change 0 with (inject_Z 0). rewrite <- Zle_Qle. exact Hz.
Qed.

Lemma round1_nonneg x : 0 <= x -> 0 <= round1 x.
Proof.
  intro H. unfold round1.
  apply (inject_Z_div_nonneg _ 10); [|lia].
  apply round_half_even_mono_0. lra.
Qed.

Lemma round2_nonneg x : 0 <= x -> 0 <= round2 x.
Proof.
  intro H. unfold round2.
  apply (inject_Z_div_nonneg _ 100); [|lia].
  apply round_half_even_mono_0. lra.
Qed.

(** An integer is its own rounding to one decimal. *)
Lemma round1_int (n : Z) : round1 (inject_Z n) == inject_Z n.
Proof.
  unfold round1.
  rewrite (round_half_even_compat (inject_Z n * 10) (inject_Z (n * 10))).
  - rewrite round_half_even_int, inject_Z_mult. field.
  - rewrite inject_Z_mult. reflexivity.
Qed.

Lemma Qmax_nonneg a : 0 <= Qmax a 0.
Proof.
  unfold Qmax. destruct (Qle_bool a 0) eqn:E; [lra|].
  apply not_true_iff_false in E. rewrite Qle_bool_iff in E. lra.
Qed.


(** ** C6: sell-through percent and liquidity tier *)

Section SellThroughFacts.

Import pricing.
Variable days_since : string -> option Z.


End SellThroughFacts.

(** ** Facts about positive price samples *)

Lemma prices_of_positive (l : list listing) : all_positive (prices_of l).
Proof.
  induction l as [|i tl IH]; cbn [prices_of]; [constructor|].
  destruct (price i) as [v|]; [|exact IH].
  destruct (truthy v && Qgtb v 0) eqn:E; [|exact IH].
  apply andb_true_iff in E. destruct E as [_ E]. apply Qgtb_gt in E.
  constructor; assumption.
Qed.

Lemma fsum_nonneg (l : list Q) : all_positive l -> 0 <= statistics.fsum l.
Proof.
  induction 1 as [|x tl Hx _ IH]; cbn [statistics.fsum fold_right]; [lra|].
  unfold statistics.fsum in IH. lra.
Qed.

Lemma fsum_positive (l : list Q) :
  all_positive l -> l <> [] -> 0 < statistics.fsum l.
Proof.
  intros H Hne. destruct H as [|x tl Hx Htl]; [congruence|].
  cbn [statistics.fsum fold_right].
  pose proof (fsum_nonneg tl Htl) as Hs. unfold statistics.fsum in Hs. lra.
Qed.

Lemma len_positive (l : list Q) : l <> [] -> (0 < statistics.len l)%Z.
Proof.
  destruct l; [congruence|]. intros _. unfold statistics.len. cbn [List.length]. lia.
Qed.

Lemma mean_positive (l : list Q) :
  all_positive l -> l <> [] -> 0 < statistics.mean l.
Proof.
  intros H Hne. unfold statistics.mean.
  apply Qlt_shift_div_l.
  - change 0 with (inject_Z 0). rewrite <- Zlt_Qlt. apply len_positive, Hne.
  - rewrite Qmult_0_l. apply fsum_positive; assumption.
Qed.

Lemma len_ge_nonempty (l : list Q) (k : Z) :
  (0 < k)%Z -> (statistics.len l >=? k)%Z = true -> l <> [].
Proof.
  intros Hk H. apply Z.geb_le in H. intro E. subst l.
  unfold statistics.len in H. cbn in H. lia.
Qed.

Lemma Qeq_bool_false_of_pos (x : Q) : 0 < x -> Qeq_bool x 0 = false.
Proof.
  intro H. apply not_true_iff_false. intro E.
  apply Qeq_bool_eq in E. lra.
Qed.

Lemma truthy_true (x : Q) : ~ x == 0 -> truthy x = true.
Proof.
  intro H. unfold truthy. apply negb_true_iff, not_true_iff_false.
  intro E. apply H, Qeq_bool_eq, E.
Qed.

Lemma truthy_false (x : Q) : truthy x = false -> x == 0.
Proof.
  unfold truthy. intro H. apply negb_false_iff in H. apply Qeq_bool_eq, H.
Qed.

(** ** C3: the recommendation *)

Section RecommendationFacts.

Import pricing.
Variable sqrtQ : Q -> Q.

Lemma truediv_ok (a b : Q) : 0 < b -> truediv a b = Ok (a / b).
Proof.
  intro H. unfold truediv. rewrite (Qeq_bool_false_of_pos b H). reflexivity.
Qed.


End RecommendationFacts.

(** ** C4: the deal score *)

Section DealScoreFacts.

Import pricing.

Ltac to_order :=
  rewrite ?Qgeb_ge, ?Qgeb_false, ?Qgtb_gt, ?Qgtb_false, ?Qltb_lt, ?Qltb_false in *.

Lemma Qmax_cases a b : (a <= b /\ Qmax a b = b) \/ (b < a /\ Qmax a b = a).
Proof.
  unfold Qmax. destruct (Qle_bool a b) eqn:E.
  - left. split; [apply Qle_bool_iff, E | reflexivity].
  - right. split; [|reflexivity].
    apply Qnot_le_lt. intro H. apply Qle_bool_iff in H. congruence.
Qed.

Lemma Qmin_cases a b : (a <= b /\ Qmin a b = a) \/ (b < a /\ Qmin a b = b).
Proof.
  unfold Qmin. destruct (Qle_bool a b) eqn:E.
  - left. split; [apply Qle_bool_iff, E | reflexivity].
  - right. split; [|reflexivity].
    apply Qnot_le_lt. intro H. apply Qle_bool_iff in H. congruence.
Qed.


Lemma profit_score_range (roi : Q) :
  0 <= profit_score roi /\ profit_score roi <= 100.
Proof.
  unfold profit_score.
  destruct (Qgeb roi 100) eqn:E1; [| destruct (Qgeb roi 60) eqn:E2;
    [| destruct (Qgeb roi 40) eqn:E3; [| destruct (Qgeb roi 20) eqn:E4]]];
    to_order; try lra.
  destruct (Qmax_cases roi 0) as [[? ->] | [? ->]]; lra.
Qed.

Lemma str_score_range (str_pct : option Q) (liq : string) :
  (forall q, str_pct = Some q -> 0 <= q) ->
  0 <= str_score str_pct liq /\ str_score str_pct liq <= 100.
Proof.
  intro H. unfold str_score. destruct str_pct as [q|].
  - specialize (H q eq_refl).
    destruct (Qmin_cases (q * 1.5) 100) as [[? ->] | [? ->]]; lra.
  - destruct (String.eqb liq "hot"); [lra|].
    destruct (String.eqb liq "steady"); lra.
Qed.


Lemma conf_score_range (conf : string) :
  0 <= conf_score conf /\ conf_score conf <= 100.
Proof.
  unfold conf_score.
  destruct (String.eqb conf "high"); [lra|].
  destruct (String.eqb conf "medium"); [lra|].
  destruct (String.eqb conf "low"); lra.
Qed.


Lemma risk_score_range (rec : Recommendation) :
  0 <= risk_score rec /\ risk_score rec <= 80.
Proof.
  unfold risk_score.
  destruct (truthy_str (spread_warning rec));
    destruct (truthy_str (liquidity_warning rec));
    match goal with |- context [Qmax ?a 0] =>
      destruct (Qmax_cases a 0) as [[? ->] | [? ->]] end; lra.
Qed.


Lemma calculate_deal_score_scored (rec : Recommendation) (st : SellThrough)
    (p m roi : Q) :
  estimated_profit rec = Some p ->
  max_buy_price rec = Some m ->
  roi_percent rec = Some roi ->
  let ps := profit_score roi in
  let dm := str_score (sell_through_pct st) (liquidity st) in
  let cs := conf_score (confidence rec) in
  let rs := risk_score rec in
  let c := composite_of ps dm cs rs in
  _calculate_deal_score rec st
  = Ok {| score := round_half_even c;
          verdict := fst (verdict_color c);
          color := snd (verdict_color c);
          summary := summaries (fst (verdict_color c));
          breakdown := Some (round_half_even ps, round_half_even dm,
                             round_half_even cs, round_half_even rs) |}.
Proof.
  intros Hp Hm Hr. cbv zeta. unfold _calculate_deal_score.
  rewrite Hp, Hm, Hr. destruct (verdict_color _). reflexivity.
Qed.

Variable sqrtQ : Q -> Q.


End DealScoreFacts.

Lemma Ok_inj {A} (a b : A) : Ok a = Ok b -> a = b.
Proof. intro H. injection H as H. exact H. Qed.

(** ** The shape of every recommendation *)

Section RecommendationShape.

Import pricing.
Variable sqrtQ : Q -> Q.

Lemma calculate_recommendation_undefined (o : option Q) (sold_prices : list Q)
    (st : SellThrough) :
  truthy_opt o = false ->
  _calculate_recommendation sqrtQ o sold_prices st
  = Ok (mkRecommendation None None None None None "low"
          (Some "Not enough data to make a recommendation") None None None).
Proof.
  intro H. unfold _calculate_recommendation.
  destruct o as [r|]; [|reflexivity].
  cbn [truthy_opt] in H. rewrite H. reflexivity.
Qed.

(** With a usable reference price the recommendation is built from one
    unrounded [max_buy], which is [net / 1.40] times the variance factor
    (1 or 0.8) times the liquidity factor. *)
Lemma calculate_recommendation_shape (r : Q) (sold_prices : list Q)
    (st : SellThrough) :
  ~ r == 0 ->
  all_positive sold_prices ->
  exists rec mb fv,
    _calculate_recommendation sqrtQ (Some r) sold_prices st = Ok rec
    /\ max_buy_price rec = Some (round2 (Qmax mb 0))
    /\ estimated_sell_price rec = Some (round2 r)
    /\ net_after_fees rec = Some (round2 (r * (1 - selling_fees_pct) - avg_shipping))
    /\ estimated_profit rec
       = Some (round2 (Qmax (r * (1 - selling_fees_pct) - avg_shipping - mb) 0))
    /\ roi_percent rec
       = Some (if Qgtb mb 0
               then round1 ((r * (1 - selling_fees_pct) - avg_shipping - mb) / mb * 100)
               else 0)
    /\ liquidity_warning rec
       = (if String.eqb (liquidity st) "dead" then Some dead_text
          else if String.eqb (liquidity st) "slow" then Some slow_text
          else None)
    /\ (fv = 1 /\ spread_warning rec = None
        \/ fv = 0.8 /\ spread_warning rec = Some spread_text)
    /\ mb == recommendation_spec.net r / 1.40 * fv
             * recommendation_spec.liquidity_factor (liquidity st).
Proof.
  intros Hr Hpos.
  unfold _calculate_recommendation. rewrite (truthy_true r Hr). cbn [negb].
  unfold recommendation_spec.liquidity_factor, recommendation_spec.net.
  set (n := statistics.len sold_prices).
  assert (Hdiv : (n >=? 3)%Z = true ->
                 truediv (stdev sqrtQ sold_prices) (statistics.mean sold_prices)
                 = Ok (stdev sqrtQ sold_prices / statistics.mean sold_prices)).
  { intro H3. apply truediv_ok, mean_positive; [exact Hpos|].
    apply (len_ge_nonempty _ 3); [lia|exact H3]. }
  destruct (n >=? 3)%Z eqn:E3.
  - rewrite (Hdiv eq_refl). cbn [bind].
    destruct (Qgtb (stdev sqrtQ sold_prices / statistics.mean sold_prices) 0.5);
      cbn [bind];
      destruct (String.eqb (liquidity st) "dead") eqn:Ed;
      [| destruct (String.eqb (liquidity st) "slow") eqn:Es
       | | destruct (String.eqb (liquidity st) "slow") eqn:Es];
      (eexists; eexists; eexists; split; [reflexivity|]);
      cbn [net_after_fees max_buy_price estimated_profit estimated_sell_price
           roi_percent spread_warning liquidity_warning];
      do 6 (split; [reflexivity|]);
      (split; [first [left; split; reflexivity | right; split; reflexivity]|]);
      unfold selling_fees_pct, avg_shipping, target_roi; field.
  - cbn [bind].
    destruct (String.eqb (liquidity st) "dead") eqn:Ed;
      [| destruct (String.eqb (liquidity st) "slow") eqn:Es];
      (eexists; eexists; eexists; split; [reflexivity|]);
      cbn [net_after_fees max_buy_price estimated_profit estimated_sell_price
           roi_percent spread_warning liquidity_warning];
      do 6 (split; [reflexivity|]);
      (split; [left; split; reflexivity|]);
      unfold selling_fees_pct, avg_shipping, target_roi; field.
Qed.

End RecommendationShape.

(** ** Statistics of positive samples *)

Lemma insert_positive (x : Q) (l : list Q) :
  0 < x -> all_positive l -> all_positive (statistics.insert x l).
Proof.
  intros Hx H. induction H as [|y tl Hy Htl IH]; cbn [statistics.insert].
  - repeat constructor. exact Hx.
  - destruct (Qle_bool x y); repeat (constructor; try assumption).
Qed.

Lemma sorted_positive (l : list Q) :
  all_positive l -> all_positive (statistics.sorted l).
Proof.
  induction 1 as [|x tl Hx _ IH]; cbn; [constructor|].
  apply insert_positive; assumption.
Qed.

Lemma nth_nonneg (l : list Q) (k : nat) : all_positive l -> 0 <= nth k l 0.
Proof.
  intro H. revert k. induction H as [|x tl Hx _ IH]; intros [|k]; cbn; try lra.
  apply IH.
Qed.

Lemma median_nonneg (l : list Q) : all_positive l -> 0 <= statistics.median l.
Proof.
  intro H. unfold statistics.median.
  pose proof (sorted_positive l H) as Hs.
  destruct (Nat.odd _).
  - apply nth_nonneg, Hs.
  - pose proof (nth_nonneg _ (List.length (statistics.sorted l) / 2 - 1) Hs).
    pose proof (nth_nonneg _ (List.length (statistics.sorted l) / 2) Hs).
    apply Qle_shift_div_l; lra.
Qed.

Lemma mean_nonneg (l : list Q) : all_positive l -> 0 <= statistics.mean l.
Proof.
  intro H. destruct l as [|x tl].
  - unfold statistics.mean. cbn. unfold Qdiv. rewrite Qmult_0_l. lra.
  - apply Qlt_le_weak, mean_positive; [exact H | discriminate].
Qed.

Lemma fold_Qmin_nonneg (l : list Q) (x : Q) :
  0 <= x -> all_positive l -> 0 <= fold_left Qmin l x.
Proof.
  intros Hx H. revert x Hx. induction H as [|y tl Hy _ IH]; intros x Hx; cbn.
  - exact Hx.
  - apply IH. unfold Qmin. destruct (Qle_bool x y); lra.
Qed.

Lemma fold_Qmax_nonneg (l : list Q) (x : Q) :
  0 <= x -> all_positive l -> 0 <= fold_left Qmax l x.
Proof.
  intros Hx H. revert x Hx. induction H as [|y tl Hy _ IH]; intros x Hx; cbn.
  - exact Hx.
  - apply IH. unfold Qmax. destruct (Qle_bool x y); lra.
Qed.

Lemma minimum_nonneg (l : list Q) : all_positive l -> 0 <= statistics.minimum l.
Proof.
  intro H. destruct H as [|x tl Hx Htl]; cbn; [lra|].
  apply fold_Qmin_nonneg; [lra | exact Htl].
Qed.

Lemma maximum_nonneg (l : list Q) : all_positive l -> 0 <= statistics.maximum l.
Proof.
  intro H. destruct H as [|x tl Hx Htl]; cbn; [lra|].
  apply fold_Qmax_nonneg; [lra | exact Htl].
Qed.

Lemma round2_if_nonneg (o : option Q) :
  nonneg_opt o -> nonneg_opt (pricing.round2_if o).
Proof.
  destruct o as [v|]; cbn; [|trivial].
  intro H. destruct (truthy v); cbn; [apply round2_nonneg, H | trivial].
Qed.

Lemma if_nonempty_nonneg (f : list Q -> Q) (l : list Q) :
  (all_positive l -> 0 <= f l) -> all_positive l ->
  nonneg_opt (pricing.if_nonempty f l).
Proof.
  intros Hf H. destruct l; cbn; [trivial|]. apply Hf, H.
Qed.

Lemma option_map_round2_nonneg (o : option Q) :
  nonneg_opt o -> nonneg_opt (option_map round2 o).
Proof.
  destruct o as [v|]; cbn; [|trivial]. apply round2_nonneg.
Qed.

(** ** analyze_prices never raises *)

Section AnalyzeFacts.

Import pricing.
Variable sqrtQ : Q -> Q.
Variable days_since : string -> option Z.

(** The reference price and the sell-through record [analyze_prices] works
    with. *)
Local Abbreviation reference_of active sold :=
  (or_else (if_nonempty statistics.median (prices_of sold))
           (if_nonempty statistics.median (prices_of active))).
Local Abbreviation sell_through_of sold total_active total_sold total_completed :=
  (_calc_sell_through days_since sold total_sold total_completed total_active).

Lemma reference_nonneg (active sold : list listing) :
  nonneg_opt (reference_of active sold).
Proof.
  unfold or_else.
  destruct (truthy_opt _);
    (apply if_nonempty_nonneg; [apply median_nonneg | apply prices_of_positive]).
Qed.

Lemma or_else_truthy (a b : option Q) :
  truthy_opt (or_else a b) = true ->
  exists r, or_else a b = Some r /\ ~ r == 0.
Proof.
  destruct (or_else a b) as [r|]; cbn; [|discriminate].
  intro H. exists r. split; [reflexivity|].
  unfold truthy in H. apply negb_true_iff in H.
  intro E. apply Qeq_bool_iff in E. congruence.
Qed.

Lemma analyze_prices_ok (active sold : list listing)
    (total_active total_sold total_completed : Z) :
  exists ms,
    analyze_prices sqrtQ days_since active sold total_active total_sold total_completed
    = Ok ms
    /\ _calculate_recommendation sqrtQ (reference_of active sold) (prices_of sold)
         (sell_through_of sold total_active total_sold total_completed)
       = Ok (recommendation ms)
    /\ _calculate_deal_score (recommendation ms)
         (sell_through_of sold total_active total_sold total_completed)
       = Ok (deal_score ms)
    /\ sell_through ms = sell_through_of sold total_active total_sold total_completed
    /\ asking_price ms
       = {| average := round2_if (if_nonempty statistics.mean (prices_of active));
            median := round2_if (if_nonempty statistics.median (prices_of active));
            low := option_map round2 (if_nonempty statistics.minimum (prices_of active));
            high := option_map round2 (if_nonempty statistics.maximum (prices_of active)) |}
    /\ sold_price ms
       = {| average := round2_if (if_nonempty statistics.mean (prices_of sold));
            median := round2_if (if_nonempty statistics.median (prices_of sold));
            low := option_map round2 (if_nonempty statistics.minimum (prices_of sold));
            high := option_map round2 (if_nonempty statistics.maximum (prices_of sold)) |}.
Proof.
  unfold analyze_prices.
  set (st := sell_through_of sold total_active total_sold total_completed).
  set (ref := reference_of active sold).
  destruct (truthy_opt ref) eqn:Et.
  - destruct (or_else_truthy _ _ Et) as (r & Er & Hr).
    fold ref in Er. rewrite Er.
    destruct (calculate_recommendation_shape sqrtQ r (prices_of sold) st Hr
                (prices_of_positive sold))
      as (rec & mb & fv & Hrec & Hmb & _ & _ & Hep & Hroi & _).
    rewrite Hrec. cbn [bind].
    pose proof (calculate_deal_score_scored rec st _ _ _ Hep Hmb Hroi) as Hds.
    cbv zeta in Hds. rewrite Hds. cbn [bind].
    eexists. split; [reflexivity|].
    cbn [recommendation deal_score sell_through asking_price sold_price].
    repeat split; assumption.
  - rewrite (calculate_recommendation_undefined sqrtQ ref _ st Et). cbn [bind].
    eexists. split; [reflexivity|].
    cbn [recommendation deal_score sell_through asking_price sold_price].
    repeat split.
Qed.

Lemma round2_neg_inv (x : Q) : round2 x < 0 -> x < 0.
Proof.
  intro H. apply Qnot_le_lt. intro Hx.
  pose proof (round2_nonneg x Hx). lra.
Qed.

Lemma liquidity_factor_range (liq : string) :
  0 < recommendation_spec.liquidity_factor liq
  /\ recommendation_spec.liquidity_factor liq <= 1.
Proof.
  unfold recommendation_spec.liquidity_factor.
  destruct (String.eqb liq "dead"); [lra|].
  destruct (String.eqb liq "slow"); lra.
Qed.

(** C5, as the code has it.  [analyze_prices] always returns a summary, in
    which [max_buy_price], [estimated_profit], [estimated_sell_price] and the
    asking and sold price statistics are never negative; [net_after_fees] is
    not clamped; [roi_percent] is null exactly when [max_buy_price] is null
    (no reference price), and when [net_after_fees] is negative
    [max_buy_price] is 0 and [roi_percent] is 0, not null. *)
Theorem analyze_prices_clamped (active sold : list listing)
    (total_active total_sold total_completed : Z) :
  exists ms,
    analyze_prices sqrtQ days_since active sold total_active total_sold total_completed
    = Ok ms
    /\ nonneg_opt (max_buy_price (recommendation ms))
    /\ nonneg_opt (estimated_profit (recommendation ms))
    /\ nonneg_opt (estimated_sell_price (recommendation ms))
    /\ (nonneg_opt (average (asking_price ms)) /\ nonneg_opt (median (asking_price ms))
        /\ nonneg_opt (low (asking_price ms)) /\ nonneg_opt (high (asking_price ms)))
    /\ (nonneg_opt (average (sold_price ms)) /\ nonneg_opt (median (sold_price ms))
        /\ nonneg_opt (low (sold_price ms)) /\ nonneg_opt (high (sold_price ms)))
    /\ (roi_percent (recommendation ms) = None
        <-> max_buy_price (recommendation ms) = None)
    /\ (forall v, net_after_fees (recommendation ms) = Some v -> v < 0 ->
        exists m roi,
          max_buy_price (recommendation ms) = Some m /\ m == 0
          /\ roi_percent (recommendation ms) = Some roi /\ roi == 0).
Proof.
  destruct (analyze_prices_ok active sold total_active total_sold total_completed)
    as (ms & Hms & Hrec & _ & _ & Hask & Hsold).
  exists ms. split; [exact Hms|].
  assert (Hstats :
    (nonneg_opt (average (asking_price ms)) /\ nonneg_opt (median (asking_price ms))
     /\ nonneg_opt (low (asking_price ms)) /\ nonneg_opt (high (asking_price ms)))
    /\ (nonneg_opt (average (sold_price ms)) /\ nonneg_opt (median (sold_price ms))
        /\ nonneg_opt (low (sold_price ms)) /\ nonneg_opt (high (sold_price ms)))).
  { rewrite Hask, Hsold. cbn [average median low high].
    pose proof (prices_of_positive active) as Ha.
    pose proof (prices_of_positive sold) as Hs.
    repeat split;
      first [ apply round2_if_nonneg | apply option_map_round2_nonneg ];
      apply if_nonempty_nonneg;
      auto using mean_nonneg, median_nonneg, minimum_nonneg, maximum_nonneg. }
  destruct Hstats as [Hst1 Hst2].
  set (st := sell_through_of sold total_active total_sold total_completed) in *.
  set (ref := reference_of active sold) in *.
  destruct (truthy_opt ref) eqn:Et.
  - destruct (or_else_truthy _ _ Et) as (r & Er & Hr).
    fold ref in Er. rewrite Er in Hrec.
    destruct (calculate_recommendation_shape sqrtQ r (prices_of sold) st Hr
                (prices_of_positive sold))
      as (rec & mb & fv & Hrec' & Hmb & Hes & Hnet & Hep & Hroi & _ & Hfv & Hmbeq).
    rewrite Hrec' in Hrec. injection Hrec as <-.
    rewrite Hmb, Hes, Hnet, Hep, Hroi. cbn [nonneg_opt].
    split; [apply round2_nonneg, Qmax_nonneg|].
    split; [apply round2_nonneg, Qmax_nonneg|].
    split.
    { apply round2_nonneg.
      pose proof (reference_nonneg active sold) as Hn. fold ref in Hn.
      rewrite Er in Hn. exact Hn. }
    split; [exact Hst1|]. split; [exact Hst2|].
    split; [split; discriminate|].
    intros v Hv Hneg. injection Hv as <-.
    apply round2_neg_inv in Hneg.
    assert (Hmbneg : mb < 0).
    { rewrite Hmbeq. unfold recommendation_spec.net.
      unfold selling_fees_pct, avg_shipping in Hneg.
      pose proof (liquidity_factor_range (liquidity st)) as [Hl _].
      set (fl := recommendation_spec.liquidity_factor (liquidity st)) in *.
      set (net := r * (1 - 0.13) - 7.00) in *.
      assert (Hq : net / 1.40 * fv < 0).
      { assert (Hd : net / 1.40 == net * (5 # 7)) by field.
        rewrite Hd. destruct Hfv as [[-> _] | [-> _]]; lra. }
      setoid_replace 0 with (0 * fl) by ring.
      apply Qmult_lt_compat_r; assumption. }
    exists (round2 (Qmax mb 0)), 0. 
    destruct (Qmax_cases mb 0) as [[_ ->] | [Hc _]]; [|lra].
    split; [reflexivity|]. split; [reflexivity|].
    split; [|reflexivity].
    assert (Eg : Qgtb mb 0 = false) by (apply Qgtb_false; lra).
    rewrite Eg. reflexivity.
  - rewrite (calculate_recommendation_undefined sqrtQ ref _ st Et) in Hrec.
    injection Hrec as <-. cbn.
    repeat split; try assumption; try apply Hst1; try apply Hst2; try discriminate.
Qed.

Lemma risk_score_warned (rec : Recommendation) :
  truthy_str (liquidity_warning rec) = true -> risk_score rec <= 60.
Proof.
  intro H. unfold risk_score. rewrite H.
  destruct (truthy_str (spread_warning rec));
    match goal with |- context [Qmax ?a 0] =>
      destruct (Qmax_cases a 0) as [[? ->] | [? ->]] end; lra.
Qed.

Lemma profit_score_below_100 (roi : Q) : roi < 100 -> profit_score roi <= 80.
Proof.
  intro H. unfold profit_score.
  destruct (Qgeb roi 100) eqn:E1; [apply Qgeb_ge in E1; lra|].
  destruct (Qgeb roi 60); [lra|]. destruct (Qgeb roi 40); [lra|].
  destruct (Qgeb roi 20) eqn:E4; [lra|]. apply Qgeb_false in E4.
  destruct (Qmax_cases roi 0) as [[? ->] | [? ->]]; lra.
Qed.

Lemma str_score_le_100 (str_pct : option Q) (liq : string) :
  str_score str_pct liq <= 100.
Proof.
  unfold str_score. destruct str_pct as [q|].
  - destruct (Qmin_cases (q * 1.5) 100) as [[? ->] | [? ->]]; lra.
  - destruct (String.eqb liq "hot"); [lra|].
    destruct (String.eqb liq "steady"); lra.
Qed.

(** Only a defined percent below 35 gives the tiers "dead" and "slow". *)
Lemma calc_sell_through_slow (sold : list listing)
    (total_sold total_completed total_active : Z) :
  let st := _calc_sell_through days_since sold total_sold total_completed total_active in
  liquidity st = "dead" \/ liquidity st = "slow" ->
  exists q, sell_through_pct st = Some q /\ q < 35.
Proof.
  cbv zeta. unfold _calc_sell_through. cbn [liquidity sell_through_pct].
  destruct (total_completed >? 0)%Z.
  - set (p := round1 _). intro H. exists p. split; [reflexivity|].
    destruct (Qgeb p 60); [destruct H; discriminate|].
    destruct (Qgeb p 35) eqn:E; [destruct H; discriminate|].
    apply Qgeb_false in E. exact E.
  - destruct (total_sold >? 10)%Z; intros [H|H]; discriminate.
Qed.

(** The ROI of a recommendation without a liquidity warning is 0, 40 or 75. *)
Lemma roi_without_liquidity_shrink (net mb fv : Q) :
  (fv = 1 \/ fv = 0.8) ->
  mb == net / 1.40 * fv * 1 ->
  (if Qgtb mb 0 then round1 ((net - mb) / mb * 100) else 0) < 100.
Proof.
  intros Hfv Hmb.
  destruct (Qgtb mb 0) eqn:Eg; [|lra].
  apply Qgtb_gt in Eg.
  destruct Hfv as [-> | ->].
  - rewrite (round1_compat _ 40); [vm_compute; reflexivity|].
    assert (Hn : net == mb * 1.4) by (rewrite Hmb; field).
    rewrite Hn. field. lra.
  - rewrite (round1_compat _ 75); [vm_compute; reflexivity|].
    assert (Hn : net == mb * 1.75) by (rewrite Hmb; field).
    rewrite Hn. field. lra.
Qed.

(** The deal score of a market summary never exceeds 90. *)
Lemma analyze_prices_score_le_90 (active sold : list listing)
    (total_active total_sold total_completed : Z) (ms : MarketSummary) :
  analyze_prices sqrtQ days_since active sold total_active total_sold total_completed
  = Ok ms ->
  (score (deal_score ms) <= 90)%Z.
Proof.
  intro Hms.
  destruct (analyze_prices_ok active sold total_active total_sold total_completed)
    as (ms' & Hms' & Hrec & Hds & _).
  rewrite Hms in Hms'. injection Hms' as <-.
  set (st := sell_through_of sold total_active total_sold total_completed) in *.
  set (ref := reference_of active sold) in *.
  destruct (truthy_opt ref) eqn:Et.
  - destruct (or_else_truthy _ _ Et) as (r & Er & Hr).
    fold ref in Er. rewrite Er in Hrec.
    destruct (calculate_recommendation_shape sqrtQ r (prices_of sold) st Hr
                (prices_of_positive sold))
      as (rec & mb & fv & Hrec' & Hmb & _ & _ & Hep & Hroi & Hlw & Hfv & Hmbeq).
    rewrite Hrec' in Hrec. apply Ok_inj in Hrec.
    rewrite <- Hrec in Hds.
    pose proof (calculate_deal_score_scored rec st _ _ _ Hep Hmb Hroi) as Hsc.
    cbv zeta in Hsc. rewrite Hsc in Hds. apply Ok_inj in Hds.
    rewrite <- Hds. cbn [score].
    apply round_half_even_le_int. unfold composite_of.
    set (roi := if Qgtb mb 0 then _ else 0) in *.
    pose proof (profit_score_range roi) as [_ Hp100].
    pose proof (str_score_le_100 (sell_through_pct st) (liquidity st)) as Hs100.
    pose proof (conf_score_range (confidence rec)) as [_ Hc100].
    pose proof (risk_score_range rec) as [_ Hr80].
    assert (Hslow : liquidity st = "dead" \/ liquidity st = "slow" ->
                    truthy_str (liquidity_warning rec) = true ->
                    profit_score roi * 0.40
                    + str_score (sell_through_pct st) (liquidity st) * 0.35
                    + conf_score (confidence rec) * 0.15
                    + risk_score rec * 0.10 <= inject_Z 90).
    { intros Hl Hw.
      destruct (calc_sell_through_slow sold total_sold total_completed total_active Hl)
        as (q & Hq & Hlt).
      fold st in Hq.
      assert (Hs : str_score (sell_through_pct st) (liquidity st) <= 52.5).
      { rewrite Hq. unfold str_score.
        destruct (Qmin_cases (q * 1.5) 100) as [[? ->] | [? ->]]; lra. }
      pose proof (risk_score_warned rec Hw) as Hr60.
      change (inject_Z 90) with 90. lra. }
    destruct (String.eqb (liquidity st) "dead") eqn:Ed;
      [| destruct (String.eqb (liquidity st) "slow") eqn:Es].
    + apply Hslow; [left; apply String.eqb_eq, Ed | rewrite Hlw; reflexivity].
    + apply Hslow; [right; apply String.eqb_eq, Es | rewrite Hlw; reflexivity].
    + assert (Hroi100 : roi < 100).
      { subst roi. apply (roi_without_liquidity_shrink _ mb fv).
        - destruct Hfv as [[-> _] | [-> _]]; [left | right]; reflexivity.
        - rewrite Hmbeq. unfold recommendation_spec.liquidity_factor.
          rewrite Ed, Es. reflexivity. }
      pose proof (profit_score_below_100 roi Hroi100) as Hp80.
      change (inject_Z 90) with 90. lra.
  - rewrite (calculate_recommendation_undefined sqrtQ ref _ st Et) in Hrec.
    apply Ok_inj in Hrec. rewrite <- Hrec in Hds.
    apply Ok_inj in Hds. rewrite <- Hds. cbn. lia.
Qed.

End AnalyzeFacts.

(** Counterexample to C5 as stated: one active listing priced 5.00 and
    nothing sold gives [net_after_fees = -2.65], a negative monetary figure,
    together with [max_buy_price = 0] and [roi_percent = 0] rather than
    null. *)
Lemma analyze_prices_negative_net :
  exists ms net roi,
    pricing.analyze_prices Qsqrt days_unparsed [sample "lamp" 5 ""] [] 1 0 0 = Ok ms
    /\ pricing.net_after_fees (pricing.recommendation ms) = Some net
    /\ net < 0
    /\ pricing.max_buy_price (pricing.recommendation ms) = Some 0.00
    /\ pricing.roi_percent (pricing.recommendation ms) = Some roi.
Proof.
  eexists. exists (-2.65), 0.
  split; [vm_compute; reflexivity|].
  cbn. repeat split.
Qed.

(** ** C1, C9: the aggregator's modes *)

Section AggregatorFacts.

Import ebay_service.

Variable EBAY_APP_ID : string.
Variables search_active_listings search_sold_listings
  search_completed_listings : string -> Z -> fetch.
Variables scrape_active_listings scrape_sold_listings
  scrape_completed_listings : string -> Z -> fetch.

Local Abbreviation search_all_in mode :=
  (search_all EBAY_APP_ID mode
     search_active_listings search_sold_listings search_completed_listings
     scrape_active_listings scrape_sold_listings scrape_completed_listings).

Local Abbreviation scrape_all_of query :=
  (ebay_scraper.scrape_all scrape_active_listings scrape_sold_listings
     scrape_completed_listings query).

Lemma nonempty_false (l : list listing) : nonempty l = false <-> l = [].
Proof. destruct l; cbn; split; congruence. Qed.

(** C1.  In mode [auto] with API credentials configured: if the API adapter
    yields no active and no sold listing, [search_all] returns the scraped
    adapter's results with [source_mode = "scrape"]; if it yields at least
    one active or sold listing, the API results with [source_mode = "api"].
    In every mode the returned [source_mode] is not "auto". *)
Theorem search_all_auto (query : string) (mode : string) :
  (_api_keys_configured EBAY_APP_ID = true ->
   fst (or_empty (search_active_listings query 40)) = [] ->
   fst (or_empty (search_sold_listings query 40)) = [] ->
   let r := search_all_in "auto" query in
   let s := scrape_all_of query in
   source_mode r = Some "scrape"
   /\ active r = active s /\ sold r = sold s
   /\ total_active r = total_active s /\ total_sold r = total_sold s
   /\ total_completed r = total_completed s)
  /\ (_api_keys_configured EBAY_APP_ID = true ->
      fst (or_empty (search_active_listings query 40)) <> []
      \/ fst (or_empty (search_sold_listings query 40)) <> [] ->
      let r := search_all_in "auto" query in
      source_mode r = Some "api"
      /\ active r = fst (or_empty (search_active_listings query 40))
      /\ sold r = fst (or_empty (search_sold_listings query 40)))
  /\ source_mode (search_all_in mode query) <> Some "auto".
Proof.
  split; [|split].
  - intros Hk Ha Hs. cbv zeta. unfold search_all. rewrite Hk. cbn [String.eqb orb andb negb].
    change (String.eqb "auto" "api") with false.
    change (String.eqb "auto" "auto") with true.
    change (String.eqb "auto" "scrape") with false.
    cbn [orb andb negb].
    destruct (or_empty (search_active_listings query 40)) as [a ta].
    destruct (or_empty (search_sold_listings query 40)) as [s ts].
    destruct (or_empty (search_completed_listings query 100)) as [c tc].
    cbn [fst] in Ha, Hs. subst a s. cbn [nonempty orb].
    repeat split.
  - intros Hk Hne. cbv zeta. unfold search_all. rewrite Hk.
    change (String.eqb "auto" "api") with false.
    change (String.eqb "auto" "auto") with true.
    cbn [orb andb negb].
    destruct (or_empty (search_active_listings query 40)) as [a ta].
    destruct (or_empty (search_sold_listings query 40)) as [s ts].
    destruct (or_empty (search_completed_listings query 100)) as [c tc].
    cbn [fst] in Hne |- *.
    assert (E : nonempty a || nonempty s = true).
    { destruct a; [|reflexivity]. destruct s; [|reflexivity].
      destruct Hne; congruence. }
    rewrite E. repeat split.
  - unfold search_all.
    destruct (or_empty (search_active_listings query 40)) as [a ta].
    destruct (or_empty (search_sold_listings query 40)) as [s ts].
    destruct (or_empty (search_completed_listings query 100)) as [c tc].
    repeat match goal with
           | |- context [if ?b then _ else _] => destruct b
           end; cbn [source_mode]; discriminate.
Qed.

(** C9, as the code has it.  In mode [api], when the three API sub-searches
    all fail, [search_all] returns empty listings and zero totals under the
    mode label "none". *)
Theorem search_all_api_total_failure (query : string) :
  search_active_listings query 40 = Failed ->
  search_sold_listings query 40 = Failed ->
  search_completed_listings query 100 = Failed ->
  search_all EBAY_APP_ID "api"
    search_active_listings search_sold_listings search_completed_listings
    scrape_active_listings scrape_sold_listings scrape_completed_listings query
  = {| active := []; sold := []; total_active := 0; total_sold := 0;
       total_completed := 0; source_mode := Some "none" |}.
Proof.
  intros Ha Hs Hc. unfold search_all. rewrite Ha, Hs, Hc.
  change (String.eqb "api" "api") with true.
  change (String.eqb "api" "scrape") with false.
  change (String.eqb "api" "auto") with false.
  reflexivity.
Qed.

End AggregatorFacts.

(** Counterexample to C9 as stated: with every API sub-search failing in
    mode [api] the label is "none", not "api". *)
Lemma search_all_api_failure_label :
  let r := ebay_service.search_all "app-id" "api" failing failing failing
             failing failing failing "lamp" in
  active r = [] /\ sold r = [] /\ total_active r = 0%Z /\ total_sold r = 0%Z
  /\ total_completed r = 0%Z
  /\ source_mode r = Some "none" /\ source_mode r <> Some "api".
Proof.
  cbv zeta. vm_compute. repeat split; discriminate.
Qed.

Lemma search_all_api_total_failure_witness :
  failing "lamp" 40%Z = Failed
  /\ failing "lamp" 40%Z = Failed
  /\ failing "lamp" 100%Z = Failed
  /\ ebay_service.search_all "app-id" "api" failing failing failing
       failing failing failing "lamp"
     = {| active := []; sold := []; total_active := 0; total_sold := 0;
          total_completed := 0; source_mode := Some "none" |}.
Proof.
  do 3 (split; [reflexivity|]).
  apply (search_all_api_total_failure "app-id" failing failing failing
           failing failing failing "lamp"); reflexivity.
Defined.

Lemma search_all_auto_witness :
  let lamp := sample "lamp" 12 "https://www.ebay.com/itm/1" in
  (ebay_service._api_keys_configured "app-id" = true
   /\ fst (or_empty (failing "lamp" 40%Z)) = []
   /\ fst (or_empty (failing "lamp" 40%Z)) = []
   /\ source_mode (ebay_service.search_all "app-id" "auto" failing failing failing
                     (returning [lamp]) failing failing "lamp") = Some "scrape")
  /\ (fst (or_empty (returning [lamp] "lamp" 40%Z)) <> []
      /\ source_mode (ebay_service.search_all "app-id" "auto"
                        (returning [lamp]) failing failing
                        failing failing failing "lamp") = Some "api").
Proof.
  cbv zeta. split.
  - split; [reflexivity|]. split; [reflexivity|]. split; [reflexivity|].
    apply (search_all_auto "app-id" failing failing failing
             (returning [sample "lamp" 12 "https://www.ebay.com/itm/1"])
             failing failing "lamp" "auto");
      reflexivity.
  - split; [discriminate|].
    apply (search_all_auto "app-id"
             (returning [sample "lamp" 12 "https://www.ebay.com/itm/1"])
             failing failing failing failing failing "lamp" "auto");
      [reflexivity | left; discriminate].
Defined.

(** ** C7: duplicates in the opportunities table *)

Section InventoryFacts.

Import inventory.

Lemma rows_with_app (db1 db2 : table) (e : string) :
  rows_with (db1 ++ db2) e = (rows_with db1 e + rows_with db2 e)%nat.
Proof. unfold rows_with. rewrite filter_app, length_app. reflexivity. Qed.

Lemma rows_with_stored (db : table) (r : Opportunity) (e : string) :
  In r db -> ebay_item_id r = Some e -> (1 <= rows_with db e)%nat.
Proof.
  intros Hin He. unfold rows_with.
  assert (Hf : In r (filter (fun r => same_ebay_id (ebay_item_id r) (Some e)) db)).
  { apply filter_In. split; [exact Hin|]. rewrite He. cbn. apply String.eqb_refl. }
  destruct (filter _ db); [destruct Hf | cbn; lia].
Qed.

Lemma rows_with_zero (db : table) (e : string) :
  rows_with db e = 0%nat ->
  forall r, In r db -> same_ebay_id (ebay_item_id r) (Some e) = false.
Proof.
  intros H0 r Hin.
  destruct (same_ebay_id (ebay_item_id r) (Some e)) eqn:E; [|reflexivity].
  assert (Hf : In r (filter (fun r => same_ebay_id (ebay_item_id r) (Some e)) db))
    by (apply filter_In; split; assumption).
  unfold rows_with in H0. destruct (filter _ db); [destruct Hf | discriminate].
Qed.

Lemma violates_stored (db : table) (opp_id : string) (r : Opportunity) (e : string) :
  In r db -> ebay_item_id r = Some e -> violates db opp_id (Some e) = true.
Proof.
  intros Hin He. unfold violates. apply existsb_exists. exists r.
  split; [exact Hin|]. rewrite He. cbn. rewrite String.eqb_refl. apply orb_true_r.
Qed.

Lemma violates_fresh (db : table) (opp_id : string) (e : string) :
  rows_with db e = 0%nat -> ~ In opp_id (map id db) ->
  violates db opp_id (Some e) = false.
Proof.
  intros H0 Hid. unfold violates.
  apply not_true_iff_false. intro Hex.
  apply existsb_exists in Hex. destruct Hex as (r & Hin & Hor).
  apply orb_true_iff in Hor. destruct Hor as [Hor | Hor].
  - apply String.eqb_eq in Hor. apply Hid. rewrite <- Hor. apply in_map, Hin.
  - rewrite (rows_with_zero db e H0 r Hin) in Hor. discriminate.
Qed.

Lemma get_opportunity_last (db : table) (row : Opportunity) :
  ~ In (id row) (map id db) ->
  get_opportunity (db ++ [row]) (id row) = Some row.
Proof.
  intro Hid. unfold get_opportunity. induction db as [|r tl IH]; cbn.
  - rewrite String.eqb_refl. reflexivity.
  - destruct (String.eqb (id r) (id row)) eqn:E.
    + apply String.eqb_eq in E. exfalso. apply Hid. left. exact E.
    + apply IH. intro H. apply Hid. right. exact H.
Qed.

Lemma well_keyed_insert (db : table) (row : Opportunity) :
  well_keyed db ->
  ~ In (id row) (map id db) ->
  (forall e, ebay_item_id row = Some e -> rows_with db e = 0%nat) ->
  well_keyed (db ++ [row]).
Proof.
  intros [Hnd Hu] Hid He. split.
  - rewrite map_app. cbn [map]. apply NoDup_app.
    + exact Hnd.
    + repeat constructor. intros [].
    + intros x Hx [Hy | []]. subst x. apply Hid, Hx.
  - intro e. rewrite rows_with_app. unfold rows_with at 2. cbn [filter].
    destruct (same_ebay_id (ebay_item_id row) (Some e)) eqn:E; cbn [List.length].
    + destruct (ebay_item_id row) as [x|]; [|discriminate].
      cbn in E. apply String.eqb_eq in E. subst x.
      rewrite (He e eq_refl). lia.
    + specialize (Hu e). lia.
Qed.

Lemma rows_with_fresh (db : table) (e : string) :
  (forall r, In r db -> ebay_item_id r <> Some e) -> rows_with db e = 0%nat.
Proof.
  intro H. unfold rows_with. induction db as [|r tl IH]; [reflexivity|].
  cbn [filter].
  destruct (same_ebay_id (ebay_item_id r) (Some e)) eqn:E.
  - exfalso. apply (H r (or_introl eq_refl)).
    destruct (ebay_item_id r) as [x|]; [|discriminate].
    cbn in E. apply String.eqb_eq in E. congruence.
  - apply IH. intros r' Hin. apply H. right. exact Hin.
Qed.

Lemma violates_false (db : table) (opp_id : string) (e : option string) :
  violates db opp_id e = false ->
  ~ In opp_id (map id db)
  /\ forall x, e = Some x -> rows_with db x = 0%nat.
Proof.
  unfold violates. intro H. split.
  - intro Hin. apply in_map_iff in Hin. destruct Hin as (r & Hr & Hin).
    assert (Hex : existsb (fun r => String.eqb (id r) opp_id
                                    || same_ebay_id (ebay_item_id r) e) db = true).
    { apply existsb_exists. exists r. split; [exact Hin|].
      rewrite Hr, String.eqb_refl. reflexivity. }
    congruence.
  - intros x ->. apply rows_with_fresh. intros r Hin Hr.
    assert (Hex : existsb (fun r => String.eqb (id r) opp_id
                                    || same_ebay_id (ebay_item_id r) (Some x)) db = true).
    { apply existsb_exists. exists r. split; [exact Hin|].
      rewrite Hr. cbn. rewrite String.eqb_refl. apply orb_true_r. }
    congruence.
Qed.

(** The primary key and the unique index survive every call. *)
Lemma add_opportunity_keeps_keys (db : table) (opp_id now : string)
    (data : OpportunityData) :
  well_keyed db -> well_keyed (fst (add_opportunity opp_id now data db)).
Proof.
  intro Hwk. unfold add_opportunity.
  destruct (violates db opp_id (d_ebay_item_id data)) eqn:E; cbn; [exact Hwk|].
  destruct (violates_false _ _ _ E) as [Hid He].
  apply well_keyed_insert; [exact Hwk | exact Hid | exact He].
Qed.


Lemma add_opportunity_ignored (db : table) (opp_id now : string)
    (data : OpportunityData) :
  violates db opp_id (d_ebay_item_id data) = true ->
  add_opportunity opp_id now data db = (db, None).
Proof. intro H. unfold add_opportunity. rewrite H. reflexivity. Qed.

(** C7.  In a table that satisfies its primary key and unique index,
    inserting an opportunity whose [ebay_item_id] is already stored leaves
    the table unchanged, with exactly one row for that id, and returns
    [None]; inserting one whose [ebay_item_id] is not yet stored (under a
    row id not in use) appends exactly one row, returns it, and makes every
    later insertion for the same [ebay_item_id] a no-op. *)
Theorem add_opportunity_dedup (db : table) (opp_id now : string)
    (data : OpportunityData) (e : string) :
  well_keyed db ->
  d_ebay_item_id data = Some e ->
  ((exists r, In r db /\ ebay_item_id r = Some e) ->
   add_opportunity opp_id now data db = (db, None)
   /\ rows_with db e = 1%nat)
  /\ ((forall r, In r db -> ebay_item_id r <> Some e) ->
      ~ In opp_id (map id db) ->
      exists row,
        add_opportunity opp_id now data db = (db ++ [row], Some row)
        /\ id row = opp_id
        /\ ebay_item_id row = Some e
        /\ rows_with (db ++ [row]) e = 1%nat
        /\ well_keyed (db ++ [row])
        /\ forall opp_id' now' data',
             d_ebay_item_id data' = Some e ->
             add_opportunity opp_id' now' data' (db ++ [row]) = (db ++ [row], None)).
Proof.
  intros Hwk He. split.
  - intros (r & Hin & Hr). split.
    + apply add_opportunity_ignored. rewrite He.
      apply (violates_stored db opp_id r e Hin Hr).
    + pose proof (rows_with_stored db r e Hin Hr).
      destruct Hwk as [_ Hu]. specialize (Hu e). lia.
  - intros Hfresh Hid.
    pose proof (rows_with_fresh db e Hfresh) as H0.
    unfold add_opportunity. rewrite He.
    rewrite (violates_fresh db opp_id e H0 Hid). cbn [Z.gtb Z.compare].
    set (row := new_row opp_id now data).
    exists row.
    assert (Hrow : get_opportunity (db ++ [row]) opp_id = Some row)
      by (apply (get_opportunity_last db row); exact Hid).
    rewrite Hrow.
    assert (Hre : ebay_item_id row = Some e) by exact He.
    split; [reflexivity|]. split; [reflexivity|]. split; [exact Hre|].
    split.
    { rewrite rows_with_app, H0. unfold rows_with. cbn [filter].
      rewrite Hre. cbn. rewrite String.eqb_refl. reflexivity. }
    split.
    { apply well_keyed_insert; [exact Hwk | exact Hid |].
      intros e' He'. rewrite Hre in He'. injection He' as <-. exact H0. }
    intros opp_id' now' data' He'.
    apply add_opportunity_ignored. rewrite He'.
    apply (violates_stored _ opp_id' row e); [|exact Hre].
    apply in_or_app. right. left. reflexivity.
Qed.

End InventoryFacts.

Lemma add_opportunity_dedup_witness :
  let first := fst (inventory.add_opportunity "a1b2c3d4" "t0"
                      (sample_opportunity "1234") []) in
  inventory.well_keyed first
  /\ inventory.d_ebay_item_id (sample_opportunity "1234") = Some "1234"
  /\ (exists r, In r first /\ inventory.ebay_item_id r = Some "1234")
  /\ inventory.add_opportunity "e5f6a7b8" "t1" (sample_opportunity "1234") first
     = (first, None)
  /\ inventory.rows_with first "1234" = 1%nat.
Proof.
  cbv zeta.
  assert (Hwk : inventory.well_keyed
                  (fst (inventory.add_opportunity "a1b2c3d4" "t0"
                          (sample_opportunity "1234") []))).
  { apply (well_keyed_insert [] _).
    - split; [constructor | intro e; cbn; lia].
    - intros [].
    - reflexivity. }
  assert (Hin : exists r,
             In r (fst (inventory.add_opportunity "a1b2c3d4" "t0"
                          (sample_opportunity "1234") []))
             /\ inventory.ebay_item_id r = Some "1234").
  { eexists. split; [left; reflexivity | reflexivity]. }
  split; [exact Hwk|]. split; [reflexivity|]. split; [exact Hin|].
  apply (add_opportunity_dedup _ "e5f6a7b8" "t1" (sample_opportunity "1234") "1234"
           Hwk eq_refl).
  exact Hin.
Defined.

(** ** C8: scanner start and stop *)

Section ScannerFacts.

Import deal_scanner.

(** The flag is only set while a loop task is scheduled or looping. *)
Lemma reachable_running_active (s : scanner) :
  reachable s -> _scanner_running s = true -> task_active s = true.
Proof.
  induction 1 as [|s s' Hs IH Hstep]; [discriminate|].
  destruct Hstep as [s | s | s Ht | s Ht Hr].
  - unfold start_scanner. destruct (task_active s) eqn:E; cbn [fst].
    + intros _. exact E.
    + intros _. reflexivity.
  - unfold stop_scanner. destruct (_scanner_running s) eqn:E; cbn [fst negb].
    + intro H. discriminate H.
    + intro H. rewrite E in H. discriminate H.
  - intros _. reflexivity.
  - intro H. discriminate H.
Qed.

Lemma reachable_is_running (s : scanner) :
  reachable s -> is_scanner_running s = _scanner_running s.
Proof.
  intro H. pose proof (reachable_running_active s H) as Ha.
  unfold is_scanner_running, task_active in *.
  destruct (_scanner_running s); [|reflexivity].
  specialize (Ha eq_refl).
  destruct (_scanner_task s) as [[| |]|]; try discriminate; reflexivity.
Qed.

(** C8.  From every reachable state: [start_scanner] returns false iff a loop
    task is active, and otherwise returns true and leaves the scanner
    running with an active loop task; [stop_scanner] returns false iff the
    scanner is stopped ([is_scanner_running] is false, which is the same as
    the flag being clear), and after a stop that returned true the next stop
    returns false.  With no loop task active, start, start, stop, stop
    return true, false, true, false. *)
Theorem scanner_start_stop (s : scanner) :
  reachable s ->
  (snd (start_scanner s) = false <-> task_active s = true)
  /\ (snd (start_scanner s) = true ->
      task_active (fst (start_scanner s)) = true
      /\ is_scanner_running (fst (start_scanner s)) = true)
  /\ (snd (stop_scanner s) = false <-> is_scanner_running s = false)
  /\ (snd (stop_scanner s) = false <-> _scanner_running s = false)
  /\ (snd (stop_scanner s) = true ->
      is_scanner_running (fst (stop_scanner s)) = false
      /\ snd (stop_scanner (fst (stop_scanner s))) = false)
  /\ (task_active s = false ->
      let '(s1, r1) := start_scanner s in
      let '(s2, r2) := start_scanner s1 in
      let '(s3, r3) := stop_scanner s2 in
      let '(s4, r4) := stop_scanner s3 in
      (r1, r2, r3, r4) = (true, false, true, false)
      /\ is_scanner_running s4 = false).
Proof.
  intro Hs.
  pose proof (reachable_is_running s Hs) as Hrun.
  split; [|split; [|split; [|split; [|split]]]].
  - unfold start_scanner. destruct (task_active s); cbn; split; congruence.
  - unfold start_scanner. destruct (task_active s); cbn; [discriminate|].
    intros _. split; reflexivity.
  - rewrite Hrun. unfold stop_scanner.
    destruct (_scanner_running s); cbn; split; congruence.
  - unfold stop_scanner. destruct (_scanner_running s); cbn; split; congruence.
  - unfold stop_scanner.
    destruct (_scanner_running s) eqn:E; cbn; [|discriminate].
    intros _. split; reflexivity.
  - intro Ha. unfold start_scanner at 1. rewrite Ha. cbn.
    split; reflexivity.
Qed.

End ScannerFacts.

Lemma scanner_start_stop_witness :
  deal_scanner.reachable deal_scanner.initial
  /\ (let '(s1, r1) := deal_scanner.start_scanner deal_scanner.initial in
      let '(s2, r2) := deal_scanner.start_scanner s1 in
      let '(s3, r3) := deal_scanner.stop_scanner s2 in
      let '(s4, r4) := deal_scanner.stop_scanner s3 in
      (r1, r2, r3, r4) = (true, false, true, false)
      /\ deal_scanner.is_scanner_running s4 = false).
Proof.
  split; [constructor|].
  apply (scanner_start_stop deal_scanner.initial deal_scanner.reach_initial).
  reflexivity.
Defined.

(** ** C2, C10: the per-query scan *)

Section ScanFacts.

Import deal_scanner.

Variable sqrtQ : Q -> Q.
Variable days_since : string -> option Z.
Variables search_active_listings search_sold_listings : string -> Z -> fetch.
Variable draw : nat -> string * string.


Lemma positive_truthy (x : Q) : Qgtb x 0 = true -> truthy x = true.
Proof.
  intro H. apply Qgtb_gt in H. apply truthy_true. intro E. lra.
Qed.

(** One turn of the loop: a listing that is a candidate is handed to
    [add_opportunity], any other is skipped. *)
Lemma scan_items_cons (wq : WatchQuery) (ds : pricing.DealScore)
    (est_sell : option Q) (item : listing) (rest : list listing)
    (w : world) (n : Z) :
  (pricing.score ds <= 95)%Z ->
  scan_items draw wq ds est_sell (item :: rest) w n
  = match scan_spec.candidate wq (pricing.score ds) (pricing.verdict ds) est_sell item with
    | Some d =>
        let '(w', opp) := add_opportunity draw d w in
        scan_items draw wq ds est_sell rest w'
          (match opp with Some _ => n + 1 | None => n end)%Z
    | None => scan_items draw wq ds est_sell rest w n
    end.
Proof.
  intro Hscore. cbn [scan_items].
  unfold scan_spec.candidate, scan_spec.within_budget, scan_spec.item_score,
    scan_spec.item_verdict, scan_spec.item_roi, scan_spec.item_profit,
    Qltb, Qgtb, Qgeb.
  destruct (price item) as [p|]; [|reflexivity].
  destruct (Qle_bool p 0) eqn:Ep; cbn [negb andb].
  { destruct est_sell; reflexivity. }
  set (ok := match max_buy_price wq with
             | Some max_buy => Qle_bool p max_buy
             | None => true
             end).
  assert (Hb : (match max_buy_price wq with
                | Some max_buy => negb (Qle_bool p max_buy)
                | None => false
                end) = negb ok).
  { unfold ok. destruct (max_buy_price wq); reflexivity. }
  rewrite Hb. clear Hb.
  destruct ok; cbn [negb andb].
  2:{ destruct est_sell; reflexivity. }
  destruct est_sell as [es|]; [|reflexivity].
  destruct (Qle_bool es 0) eqn:Ees; cbn [negb andb].
  { rewrite andb_false_r. reflexivity. }
  assert (Ht : truthy es = true).
  { apply positive_truthy. unfold Qgtb. rewrite Ees. reflexivity. }
  rewrite Ht. cbn [negb andb].
  destruct (Qle_bool (min_profit wq) (es * 0.87 - 7.0 - p));
    cbn [negb andb]; [|reflexivity].
  set (roi := (es * 0.87 - 7.0 - p) / p * 100).
  rewrite (Z.leb_antisym _ (min_deal_score wq)).
  destruct (Qle_bool roi 100); cbn [negb].
  - destruct (Qle_bool roi 60); cbn [negb].
    + destruct (pricing.score ds <? min_deal_score wq)%Z; cbn [negb]; [reflexivity|].
      destruct (add_opportunity draw _ w) as [w' [o|]]; reflexivity.
    + rewrite (Z.min_l (pricing.score ds + 5) 100) by lia.
      destruct (pricing.score ds + 5 <? min_deal_score wq)%Z; cbn [negb]; [reflexivity|].
      destruct (add_opportunity draw _ w) as [w' [o|]]; reflexivity.
  - destruct (Z.min (pricing.score ds + 15) 100 <? min_deal_score wq)%Z;
      cbn [negb]; [reflexivity|].
    destruct (add_opportunity draw _ w) as [w' [o|]]; reflexivity.
Qed.








Lemma candidate_spec (wq : WatchQuery) (qs : Z) (qv : string) (est_sell : option Q)
    (item : listing) (d : inventory.OpportunityData) :
  scan_spec.candidate wq qs qv est_sell item = Some d
  <-> exists p es,
        price item = Some p /\ est_sell = Some es
        /\ 0 < p
        /\ (forall m, max_buy_price wq = Some m -> p <= m)
        /\ 0 < es
        /\ min_profit wq <= es * 0.87 - 7.0 - p
        /\ (min_deal_score wq
            <= scan_spec.item_score qs ((es * 0.87 - 7.0 - p) / p * 100))%Z
        /\ d = {| inventory.d_watch_query_id := wq_id wq;
                  inventory.d_ebay_item_id := Some (_extract_ebay_id (item_url item));
                  inventory.d_title := title item;
                  inventory.d_current_price := p;
                  inventory.d_estimated_sell_price := Some es;
                  inventory.d_estimated_profit := round2 (es * 0.87 - 7.0 - p);
                  inventory.d_deal_score :=
                    scan_spec.item_score qs ((es * 0.87 - 7.0 - p) / p * 100);
                  inventory.d_deal_verdict :=
                    scan_spec.item_verdict qv ((es * 0.87 - 7.0 - p) / p * 100);
                  inventory.d_item_url := item_url item;
                  inventory.d_image_url := image_url item;
                  inventory.d_condition := condition item;
                  inventory.d_seller := seller item |}.
Proof.
  unfold scan_spec.candidate, scan_spec.item_roi, scan_spec.item_profit,
    scan_spec.within_budget.
  split.
  - destruct (price item) as [p|]; [|discriminate].
    destruct est_sell as [es|]; [|discriminate].
    destruct (_ && _) eqn:E; [|discriminate].
    intro H. injection H as <-.
    repeat (apply andb_true_iff in E; destruct E as [E ?]).
    exists p, es. repeat split; try (apply Qltb_lt; assumption).
    + intros m Hm. rewrite Hm in *. apply Qle_bool_iff. assumption.
    + apply Qle_bool_iff. assumption.
    + apply Z.leb_le. assumption.
  - intros (p & es & -> & -> & Hp & Hm & Hes & Hpr & Hsc & ->).
    apply Qltb_lt in Hp, Hes. apply Qle_bool_iff in Hpr. apply Z.leb_le in Hsc.
    rewrite Hp, Hes, Hpr, Hsc.
    assert (Hb : match max_buy_price wq with
                 | Some max_buy => Qle_bool p max_buy
                 | None => true
                 end = true).
    { destruct (max_buy_price wq) as [m|]; [|reflexivity].
      apply Qle_bool_iff, Hm. reflexivity. }
    rewrite Hb. reflexivity.
Qed.

Local Abbreviation scan wq w :=
  (_scan_one_query sqrtQ days_since search_active_listings search_sold_listings
     draw wq w).




End ScanFacts.

(** ** The theorems at concrete inputs *)





(** ** The specification's end-to-end fixture, evaluated *)

(** Five active listings priced 20, 30, 45, 60, 80 against twelve sold at 90,
    with [max_buy_price = 50], [min_profit = 5], [min_deal_score = 50]: the
    three listings priced at most 50 become opportunities, each with profit
    [90*0.87 - 7.0 - price]. *)
Example scan_vintage_camera :
  exists w,
    deal_scanner._scan_one_query Qsqrt days_unparsed
      (returning camera_active) (returning camera_sold) draw_numbered
      camera_query empty_world = Ok (w, 3%Z)
    /\ map (fun r => (inventory.ebay_item_id r, inventory.current_price r,
                      inventory.estimated_profit r, inventory.deal_score r,
                      inventory.deal_verdict r))
           (deal_scanner.db w)
       = [ (Some "101", 20, 51.30, 97%Z, "HOT DEAL");
           (Some "102", 30, 41.30, 97%Z, "HOT DEAL");
           (Some "103", 45, 26.30, 82%Z, "GOOD DEAL") ].
Proof.
  eexists. split; [vm_compute; reflexivity|]. vm_compute. reflexivity.
Qed.

(** The same scan with the sold search failing: the median asking price 45
    is the reference, and the listing at 20 still becomes an opportunity. *)
Example scan_vintage_camera_without_sold :
  exists w,
    deal_scanner._scan_one_query Qsqrt days_unparsed
      (returning camera_active) failing draw_numbered
      camera_query empty_world = Ok (w, 1%Z)
    /\ map (fun r => (inventory.ebay_item_id r, inventory.current_price r,
                      inventory.estimated_profit r, inventory.deal_score r,
                      inventory.deal_verdict r))
           (deal_scanner.db w)
       = [ (Some "101", 20, 12.15, 51%Z, "GOOD DEAL") ].
Proof.
  eexists. split; [vm_compute; reflexivity|]. vm_compute. reflexivity.
Qed.

(** A URL with an item path yields its numeric id; any other URL is its own
    key. *)
Example extract_ebay_id_examples :
  deal_scanner._extract_ebay_id "https://www.ebay.com/itm/123456?hash=x" = "123456"
  /\ deal_scanner._extract_ebay_id "https://www.ebay.com/itm/some-title/123456?x/y"
     = "123456"
  /\ deal_scanner._extract_ebay_id "https://x/itm/abc" = "https://x/itm/abc"
  /\ deal_scanner._extract_ebay_id "https://x/item/55" = "https://x/item/55".
Proof. repeat split. Qed.

(** * Further properties of the pipeline *)

(** ** Rounding is monotone *)

Lemma round_half_even_bounds (x : Q) :
  (Qfloor x <= round_half_even x <= Qfloor x + 1)%Z.
Proof.
  unfold round_half_even.
  destruct (Qcompare _ _); [destruct (Z.even _)| |]; lia.
Qed.

Lemma round_half_even_mono (x y : Q) :
  x <= y -> (round_half_even x <= round_half_even y)%Z.
Proof.
  intro H.
  pose proof (Qfloor_resp_le x y H) as Hf.
  pose proof (round_half_even_bounds x) as Bx.
  pose proof (round_half_even_bounds y) as By.
  destruct (Z.eq_dec (Qfloor x) (Qfloor y)) as [E | NE]; [|lia].
  clear Bx By. unfold round_half_even. rewrite <- E.
  destruct (Qcompare_spec (x - inject_Z (Qfloor x)) (1 # 2)) as [Hx | Hx | Hx];
    destruct (Qcompare_spec (y - inject_Z (Qfloor x)) (1 # 2)) as [Hy | Hy | Hy];
    try (destruct (Z.even (Qfloor x))); try lia; exfalso; lra.
Qed.

Lemma inject_Z_div_mono (a b d : Z) :
  (0 < d)%Z -> (a <= b)%Z -> inject_Z a / inject_Z d <= inject_Z b / inject_Z d.
Proof.
  intros Hd Hab. unfold Qdiv. apply Qmult_le_compat_r.
  - rewrite <- Zle_Qle. exact Hab.
  - apply Qinv_le_0_compat. change 0 with (inject_Z 0). rewrite <- Zle_Qle. lia.
Qed.

Lemma round1_mono (x y : Q) : x <= y -> round1 x <= round1 y.
Proof.
  intro H. unfold round1. apply (inject_Z_div_mono _ _ 10); [lia|].
  apply round_half_even_mono. lra.
Qed.

Lemma round2_mono (x y : Q) : x <= y -> round2 x <= round2 y.
Proof.
  intro H. unfold round2. apply (inject_Z_div_mono _ _ 100); [lia|].
  apply round_half_even_mono. lra.
Qed.

(** ** The ROI of a recommendation *)

Section RoiFacts.

Import pricing.
Variable sqrtQ : Q -> Q.

Lemma roi_of_factor (net mb f c : Q) :
  0 < mb -> 0 < f ->
  mb == net / 1.40 * f ->
  c == (1.4 / f - 1) * 100 ->
  round1 ((net - mb) / mb * 100) = round1 c.
Proof.
  intros Hmb Hf Hdef Hc. apply round1_compat. rewrite Hc.
  assert (Hn : net == mb * 1.4 / f) by (rewrite Hdef; field; lra).
  rewrite Hn. field. split; lra.
Qed.

(** X1.  The reported ROI does not depend on the prices: it is 0 when the net
    proceeds [reference * 0.87 - 7] are not positive, and otherwise a
    constant fixed by the warnings: 40 without any, 75 with a spread warning,
    64.7 / 105.9 for "slow" liquidity without / with a spread warning, and
    133.3 / 191.7 for "dead" liquidity. *)
Theorem recommendation_roi_values (r : Q) (sold_prices : list Q)
    (st : SellThrough) :
  ~ r == 0 ->
  all_positive sold_prices ->
  exists rec roi,
    _calculate_recommendation sqrtQ (Some r) sold_prices st = Ok rec
    /\ roi_percent rec = Some roi
    /\ (r * 0.87 <= 7 -> roi == 0)
    /\ (7 < r * 0.87 ->
        let spread := truthy_str (spread_warning rec) in
        roi == (if String.eqb (liquidity st) "dead"
                then (if spread then 191.7 else 133.3)
                else if String.eqb (liquidity st) "slow"
                then (if spread then 105.9 else 64.7)
                else (if spread then 75 else 40))).
Proof.
  intros Hr Hpos.
  destruct (calculate_recommendation_shape sqrtQ r sold_prices st Hr Hpos)
    as (rec & mb & fv & Hrec & _ & _ & _ & _ & Hroi & _ & Hfv & Hmb).
  exists rec. eexists. split; [exact Hrec|]. split; [exact Hroi|].
  unfold recommendation_spec.net, recommendation_spec.liquidity_factor in Hmb.
  unfold selling_fees_pct, avg_shipping.
  set (net := r * (1 - 0.13) - 7.00) in *.
  assert (Hd : net / 1.40 == net * (5 # 7)) by field.
  split.
  - intro Hle.
    assert (Hneg : mb <= 0).
    { rewrite Hmb, Hd. subst net.
      destruct Hfv as [[-> _] | [-> _]];
        destruct (String.eqb (liquidity st) "dead");
        try destruct (String.eqb (liquidity st) "slow"); lra. }
    apply Qgtb_false in Hneg. rewrite Hneg. reflexivity.
  - intro Hgt. cbv zeta.
    assert (Hnet : 0 < net) by (subst net; lra).
    assert (Hpos' : 0 < mb).
    { rewrite Hmb, Hd.
      destruct Hfv as [[-> _] | [-> _]];
        destruct (String.eqb (liquidity st) "dead");
        try destruct (String.eqb (liquidity st) "slow"); lra. }
    pose proof Hpos' as Hg. apply Qgtb_gt in Hg. rewrite Hg.
    destruct Hfv as [[-> Hsw] | [-> Hsw]]; rewrite Hsw; cbn [truthy_str];
      change (negb (String.eqb spread_text "")) with true; cbv iota;
      (destruct (String.eqb (liquidity st) "dead");
       [| destruct (String.eqb (liquidity st) "slow")]).
    + rewrite (roi_of_factor net mb (1 * 0.6) (400 # 3));
        [ vm_compute; reflexivity | exact Hpos' | vm_compute; reflexivity
        | rewrite Hmb; field | vm_compute; reflexivity ].
    + rewrite (roi_of_factor net mb (1 * 0.85) (1100 # 17));
        [ vm_compute; reflexivity | exact Hpos' | vm_compute; reflexivity
        | rewrite Hmb; field | vm_compute; reflexivity ].
    + rewrite (roi_of_factor net mb (1 * 1) 40);
        [ vm_compute; reflexivity | exact Hpos' | vm_compute; reflexivity
        | rewrite Hmb; field | vm_compute; reflexivity ].
    + rewrite (roi_of_factor net mb (0.8 * 0.6) (575 # 3));
        [ vm_compute; reflexivity | exact Hpos' | vm_compute; reflexivity
        | rewrite Hmb; field | vm_compute; reflexivity ].
    + rewrite (roi_of_factor net mb (0.8 * 0.85) (1800 # 17));
        [ vm_compute; reflexivity | exact Hpos' | vm_compute; reflexivity
        | rewrite Hmb; field | vm_compute; reflexivity ].
    + rewrite (roi_of_factor net mb (0.8 * 1) 75);
        [ vm_compute; reflexivity | exact Hpos' | vm_compute; reflexivity
        | rewrite Hmb; field | vm_compute; reflexivity ].
Qed.

End RoiFacts.

(** ** When a market summary has data *)

Lemma insert_length (x : Q) (l : list Q) :
  List.length (statistics.insert x l) = S (List.length l).
Proof.
  induction l as [|y tl IH]; cbn; [reflexivity|].
  destruct (Qle_bool x y); cbn; [reflexivity | rewrite IH; reflexivity].
Qed.

Lemma sorted_length (l : list Q) :
  List.length (statistics.sorted l) = List.length l.
Proof.
  induction l as [|x tl IH]; [reflexivity|].
  unfold statistics.sorted in *. cbn [fold_right List.length].
  rewrite insert_length, IH. reflexivity.
Qed.

Lemma nth_positive (l : list Q) (k : nat) :
  all_positive l -> (k < List.length l)%nat -> 0 < nth k l 0.
Proof.
  intros H Hk.
  pose proof (proj1 (Forall_forall _ l) H (nth k l 0) (nth_In l 0 Hk)) as Hp.
  exact Hp.
Qed.

Lemma median_positive (l : list Q) :
  all_positive l -> l <> [] -> 0 < statistics.median l.
Proof.
  intros H Hne. unfold statistics.median.
  pose proof (sorted_positive l H) as Hs.
  pose proof (sorted_length l) as Hl.
  set (data := statistics.sorted l) in *.
  assert (Hn : (0 < List.length data)%nat).
  { rewrite Hl. destruct l; [congruence | cbn; lia]. }
  destruct (Nat.odd (List.length data)) eqn:Eo.
  - apply nth_positive; [exact Hs|]. apply Nat.div_lt; lia.
  - assert (H2 : (2 <= List.length data)%nat).
    { destruct (List.length data) as [|[|n]]; [lia | discriminate Eo | lia]. }
    assert (Hh : (List.length data / 2 < List.length data)%nat)
      by (apply Nat.div_lt; lia).
    pose proof (nth_positive data (List.length data / 2 - 1) Hs ltac:(lia)).
    pose proof (nth_positive data (List.length data / 2) Hs Hh).
    apply Qlt_shift_div_l; lra.
Qed.

Lemma prices_of_nil (l : list listing) :
  prices_of l = [] <-> forall i p, In i l -> price i = Some p -> p <= 0.
Proof.
  induction l as [|i tl IH]; cbn [prices_of].
  - split; [intros _ i p [] | reflexivity].
  - destruct (price i) as [v|] eqn:Ev.
    + destruct (truthy v && Qgtb v 0) eqn:E.
      * split; [discriminate|]. intro H. exfalso.
        apply andb_true_iff in E. destruct E as [_ E]. apply Qgtb_gt in E.
        specialize (H i v (or_introl eq_refl) Ev). lra.
      * rewrite IH. split.
        -- intros H j p [<- | Hj] Hp; [|eapply H; eassumption].
           rewrite Ev in Hp. injection Hp as <-.
           apply andb_false_iff in E. destruct E as [E | E].
           ++ apply truthy_false in E. lra.
           ++ apply Qgtb_false in E. exact E.
        -- intros H j p Hj. apply H. right. exact Hj.
    + rewrite IH. split.
      * intros H j p [<- | Hj] Hp; [congruence | eapply H; eassumption].
      * intros H j p Hj. apply H. right. exact Hj.
Qed.

Section DataFacts.

Import pricing.
Variable sqrtQ : Q -> Q.
Variable days_since : string -> option Z.

Local Abbreviation reference_of active sold :=
  (or_else (if_nonempty statistics.median (prices_of sold))
           (if_nonempty statistics.median (prices_of active))).
Local Abbreviation sell_through_of sold total_active total_sold total_completed :=
  (_calc_sell_through days_since sold total_sold total_completed total_active).

Lemma median_truthy (l : list Q) :
  all_positive l -> l <> [] ->
  truthy_opt (if_nonempty statistics.median l) = true.
Proof.
  intros H Hne. destruct l as [|x tl]; [congruence|]. cbn [if_nonempty truthy_opt].
  apply truthy_true. pose proof (median_positive _ H Hne). lra.
Qed.

(** The reference price is defined and positive as soon as one sample has a
    positive price, and undefined otherwise. *)
Lemma reference_defined (active sold : list listing) :
  (prices_of active <> [] \/ prices_of sold <> [] ->
   exists r, reference_of active sold = Some r /\ 0 < r)
  /\ (prices_of active = [] -> prices_of sold = [] ->
      reference_of active sold = None).
Proof.
  split.
  - intros Hne. unfold or_else.
    destruct (prices_of sold) as [|s ss] eqn:Es.
    + destruct Hne as [Hne | Hne]; [|congruence].
      cbn [if_nonempty truthy_opt].
      destruct (prices_of active) as [|a aa] eqn:Ea; [congruence|].
      cbn [if_nonempty]. eexists. split; [reflexivity|].
      apply median_positive; [|discriminate].
      rewrite <- Ea. apply prices_of_positive.
    + assert (Hp : all_positive (s :: ss)) by (rewrite <- Es; apply prices_of_positive).
      rewrite (median_truthy (s :: ss) Hp ltac:(discriminate)).
      cbn [if_nonempty]. eexists. split; [reflexivity|].
      apply median_positive; [exact Hp | discriminate].
  - intros -> ->. reflexivity.
Qed.

Lemma verdict_color_not_no_data (c : Q) : fst (verdict_color c) <> "NO DATA".
Proof.
  unfold verdict_color.
  destruct (Qgeb c 75); [discriminate|].
  destruct (Qgeb c 55); [discriminate|].
  destruct (Qgeb c 35); discriminate.
Qed.

(** X2.  A market summary carries a recommendation and a verdict exactly when
    some active or sold listing has a positive price; with none, the
    recommendation is empty with confidence "low" and the verdict is
    NO DATA with score 0, whatever the reported totals. *)
Theorem analyze_prices_no_data_iff (active sold : list listing)
    (total_active total_sold total_completed : Z) :
  let no_price :=
    forall i p, In i (active ++ sold) -> price i = Some p -> p <= 0 in
  exists ms,
    analyze_prices sqrtQ days_since active sold total_active total_sold total_completed
    = Ok ms
    /\ (max_buy_price (recommendation ms) = None <-> no_price)
    /\ (verdict (deal_score ms) = "NO DATA" <-> no_price)
    /\ (no_price ->
        deal_score ms = no_data
        /\ confidence (recommendation ms) = "low"
        /\ estimated_sell_price (recommendation ms) = None
        /\ active_listings_count ms = 0%Z /\ sold_listings_count ms = 0%Z).
Proof.
  cbv zeta.
  assert (Hnp : (forall i p, In i (active ++ sold) -> price i = Some p -> p <= 0)
                <-> prices_of active = [] /\ prices_of sold = []).
  { rewrite !prices_of_nil. split.
    - intro H. split; intros i p Hi; apply H, in_or_app; auto.
    - intros [Ha Hs] i p Hi. apply in_app_or in Hi. destruct Hi; eauto. }
  destruct (analyze_prices_ok sqrtQ days_since active sold total_active total_sold
              total_completed) as (ms & Hms & Hrec & Hds & _).
  exists ms. split; [exact Hms|].
  set (st := sell_through_of sold total_active total_sold total_completed) in *.
  destruct (reference_defined active sold) as [Hdef Hundef].
  assert (Hscored : prices_of active <> [] \/ prices_of sold <> [] ->
                    max_buy_price (recommendation ms) <> None
                    /\ verdict (deal_score ms) <> "NO DATA").
  { intro Hne. destruct (Hdef Hne) as (r & Er & Hr).
    rewrite Er in Hrec.
    assert (Hr0 : ~ r == 0) by (intro E; lra).
    destruct (calculate_recommendation_shape sqrtQ r (prices_of sold) st Hr0
                (prices_of_positive sold))
      as (rec & mb & fv & Hrec' & Hmb & _ & _ & Hep & Hroi & _).
    rewrite Hrec' in Hrec. apply Ok_inj in Hrec. subst rec.
    pose proof (calculate_deal_score_scored _ st _ _ _ Hep Hmb Hroi) as Hsc.
    cbv zeta in Hsc. rewrite Hsc in Hds. apply Ok_inj in Hds.
    split; [rewrite Hmb; discriminate|].
    rewrite <- Hds. cbn [verdict]. apply verdict_color_not_no_data. }
  assert (Hempty : prices_of active = [] -> prices_of sold = [] ->
                   deal_score ms = no_data
                   /\ recommendation ms
                      = mkRecommendation None None None None None "low"
                          (Some "Not enough data to make a recommendation")
                          None None None
                   /\ active_listings_count ms = 0%Z
                   /\ sold_listings_count ms = 0%Z).
  { intros Ea Es.
    rewrite (Hundef Ea Es) in Hrec.
    rewrite (calculate_recommendation_undefined sqrtQ None _ st eq_refl) in Hrec.
    apply Ok_inj in Hrec. rewrite <- Hrec in Hds.
    apply Ok_inj in Hds.
    split; [symmetry; exact Hds|]. split; [symmetry; exact Hrec|].
    unfold analyze_prices in Hms.
    destruct (_calculate_recommendation _ _ _ _) as [r0|]; [|discriminate].
    cbn [bind] in Hms.
    destruct (_calculate_deal_score _ _) as [d0|]; [|discriminate].
    cbn [bind] in Hms. apply Ok_inj in Hms. rewrite <- Hms.
    cbn [active_listings_count sold_listings_count]. rewrite Ea, Es.
    split; reflexivity. }
  assert (Hdec : (prices_of active = [] /\ prices_of sold = [])
                 \/ (prices_of active <> [] \/ prices_of sold <> [])).
  { destruct (prices_of active); [|right; left; discriminate].
    destruct (prices_of sold); [left; split; reflexivity | right; right; discriminate]. }
  rewrite Hnp.
  destruct Hdec as [[Ea Es] | Hne].
  - destruct (Hempty Ea Es) as (Hd & Hr & Hc1 & Hc2).
    rewrite Hd, Hr. cbn.
    repeat split; auto.
  - destruct (Hscored Hne) as [Hm Hv].
    split; [split; [intro H; contradiction | intros [Ea Es]; destruct Hne; contradiction]|].
    split; [split; [intro H; contradiction | intros [Ea Es]; destruct Hne; contradiction]|].
    intros [Ea Es]. destruct Hne; contradiction.
Qed.

End DataFacts.

(** ** Bounds on the recommendation and the score *)

Section BoundFacts.

Import pricing.
Variable sqrtQ : Q -> Q.
Variable days_since : string -> option Z.

Local Abbreviation reference_of active sold :=
  (or_else (if_nonempty statistics.median (prices_of sold))
           (if_nonempty statistics.median (prices_of active))).
Local Abbreviation sell_through_of sold total_active total_sold total_completed :=
  (_calc_sell_through days_since sold total_sold total_completed total_active).

Lemma shrunk_max_buy_bounds (r mb fv : Q) (liq : string) :
  0 <= r ->
  (fv = 1 \/ fv = 0.8) ->
  mb == recommendation_spec.net r / 1.40 * fv
        * recommendation_spec.liquidity_factor liq ->
  Qmax mb 0 <= r
  /\ Qmax (r * (1 - selling_fees_pct) - avg_shipping - mb) 0 <= r.
Proof.
  intros Hr Hfv Hmb.
  unfold recommendation_spec.net, recommendation_spec.liquidity_factor in Hmb.
  unfold selling_fees_pct, avg_shipping.
  assert (Hd : (r * (1 - 0.13) - 7.00) / 1.40 == (r * (1 - 0.13) - 7.00) * (5 # 7))
    by field.
  rewrite Hd in Hmb.
  destruct (Qmax_cases mb 0) as [[? ->] | [? ->]];
    destruct (Qmax_cases (r * (1 - 0.13) - 7.00 - mb) 0) as [[? ->] | [? ->]];
    (split; [try lra | try lra]);
    destruct Hfv as [-> | ->];
    (destruct (String.eqb liq "dead"); [| destruct (String.eqb liq "slow")]);
    lra.
Qed.

(** X3.  The recommended maximum buy price and the estimated profit never exceed
    the estimated sell price. *)
Theorem recommendation_below_sell_price (active sold : list listing)
    (total_active total_sold total_completed : Z) :
  exists ms,
    analyze_prices sqrtQ days_since active sold total_active total_sold total_completed
    = Ok ms
    /\ forall e,
         estimated_sell_price (recommendation ms) = Some e ->
         exists m p,
           max_buy_price (recommendation ms) = Some m
           /\ estimated_profit (recommendation ms) = Some p
           /\ 0 <= m /\ m <= e /\ 0 <= p /\ p <= e.
Proof.
  destruct (analyze_prices_ok sqrtQ days_since active sold total_active total_sold
              total_completed) as (ms & Hms & Hrec & _).
  exists ms. split; [exact Hms|].
  set (st := sell_through_of sold total_active total_sold total_completed) in *.
  set (ref := reference_of active sold) in *.
  intros e He.
  destruct (truthy_opt ref) eqn:Et.
  - destruct (or_else_truthy _ _ Et) as (r & Er & Hr).
    fold ref in Er. rewrite Er in Hrec.
    destruct (calculate_recommendation_shape sqrtQ r (prices_of sold) st Hr
                (prices_of_positive sold))
      as (rec & mb & fv & Hrec' & Hmb & Hes & _ & Hep & _ & _ & Hfv & Hmbeq).
    rewrite Hrec' in Hrec. apply Ok_inj in Hrec. subst rec.
    rewrite Hes in He. injection He as <-.
    assert (Hr0 : 0 <= r).
    { pose proof (reference_nonneg active sold) as Hn. fold ref in Hn.
      rewrite Er in Hn. exact Hn. }
    assert (Hfv' : fv = 1 \/ fv = 0.8)
      by (destruct Hfv as [[-> _] | [-> _]]; auto).
    destruct (shrunk_max_buy_bounds r mb fv (liquidity st) Hr0 Hfv' Hmbeq)
      as [Hm Hp].
    eexists. eexists. split; [exact Hmb|]. split; [exact Hep|].
    split; [apply round2_nonneg, Qmax_nonneg|].
    split; [apply round2_mono, Hm|].
    split; [apply round2_nonneg, Qmax_nonneg|].
    apply round2_mono, Hp.
  - rewrite (calculate_recommendation_undefined sqrtQ ref _ st Et) in Hrec.
    apply Ok_inj in Hrec. rewrite <- Hrec in He. discriminate He.
Qed.

Lemma calc_sell_through_pct_nonneg (sold : list listing)
    (total_sold total_completed total_active : Z) (q : Q) :
  (0 <= total_sold)%Z ->
  sell_through_pct (sell_through_of sold total_active total_sold total_completed)
  = Some q ->
  0 <= q.
Proof.
  intros Hts. unfold _calc_sell_through. cbn [sell_through_pct].
  destruct (total_completed >? 0)%Z eqn:E; [|discriminate].
  intro H. injection H as <-. apply round1_nonneg.
  apply Z.gtb_lt in E.
  assert (0 <= inject_Z total_sold / inject_Z total_completed)
    by (apply inject_Z_div_nonneg; lia).
  lra.
Qed.

(** X4.  The deal score of a market summary never exceeds 90, and with a sold
    count that is not negative it lies in 0..90 together with its four
    rounded sub-scores in 0..100. *)
Theorem deal_score_range (active sold : list listing)
    (total_active total_sold total_completed : Z) :
  exists ms,
    analyze_prices sqrtQ days_since active sold total_active total_sold total_completed
    = Ok ms
    /\ (score (deal_score ms) <= 90)%Z
    /\ ((0 <= total_sold)%Z ->
        (0 <= score (deal_score ms))%Z
        /\ forall a b c d,
             breakdown (deal_score ms) = Some (a, b, c, d) ->
             (0 <= a <= 100 /\ 0 <= b <= 100 /\ 0 <= c <= 100 /\ 0 <= d <= 80)%Z).
Proof.
  destruct (analyze_prices_ok sqrtQ days_since active sold total_active total_sold
              total_completed) as (ms & Hms & Hrec & Hds & _).
  exists ms. split; [exact Hms|].
  split; [apply (analyze_prices_score_le_90 sqrtQ days_since _ _ _ _ _ ms Hms)|].
  intro Hts.
  set (st := sell_through_of sold total_active total_sold total_completed) in *.
  set (ref := reference_of active sold) in *.
  destruct (truthy_opt ref) eqn:Et.
  - destruct (or_else_truthy _ _ Et) as (r & Er & Hr).
    fold ref in Er. rewrite Er in Hrec.
    destruct (calculate_recommendation_shape sqrtQ r (prices_of sold) st Hr
                (prices_of_positive sold))
      as (rec & mb & fv & Hrec' & Hmb & _ & _ & Hep & Hroi & _).
    rewrite Hrec' in Hrec. apply Ok_inj in Hrec. subst rec.
    pose proof (calculate_deal_score_scored _ st _ _ _ Hep Hmb Hroi) as Hsc.
    cbv zeta in Hsc. rewrite Hsc in Hds. apply Ok_inj in Hds. rewrite <- Hds.
    cbn [score breakdown].
    set (roi := if Qgtb mb 0 then _ else 0) in *.
    pose proof (profit_score_range roi) as [Hp0 Hp1].
    pose proof (str_score_range (sell_through_pct st) (liquidity st)
                  (fun q => calc_sell_through_pct_nonneg sold total_sold
                              total_completed total_active q Hts)) as [Hs0 Hs1].
    pose proof (conf_score_range (confidence (recommendation ms))) as [Hc0 Hc1].
    pose proof (risk_score_range (recommendation ms)) as [Hr0 Hr1].
    split.
    + apply round_half_even_mono_0. unfold composite_of. lra.
    + intros a b c d H. injection H as <- <- <- <-.
      repeat split;
        first [ apply round_half_even_mono_0; assumption
              | apply round_half_even_le_int; assumption ].
  - rewrite (calculate_recommendation_undefined sqrtQ ref _ st Et) in Hrec.
    apply Ok_inj in Hrec. rewrite <- Hrec in Hds.
    apply Ok_inj in Hds. rewrite <- Hds. cbn.
    split; [lia | intros a b c d H; discriminate H].
Qed.

End BoundFacts.

(** ** Order of the price statistics *)

Lemma Qmin_le_l (a b : Q) : Qmin a b <= a.
Proof. destruct (Qmin_cases a b) as [[? ->] | [? ->]]; lra. Qed.

Lemma Qmin_le_r (a b : Q) : Qmin a b <= b.
Proof. destruct (Qmin_cases a b) as [[? ->] | [? ->]]; lra. Qed.

Lemma Qmax_ge_l (a b : Q) : a <= Qmax a b.
Proof. destruct (Qmax_cases a b) as [[? ->] | [? ->]]; lra. Qed.

Lemma Qmax_ge_r (a b : Q) : b <= Qmax a b.
Proof. destruct (Qmax_cases a b) as [[? ->] | [? ->]]; lra. Qed.

Lemma fold_Qmin_le (l : list Q) (x : Q) :
  fold_left Qmin l x <= x /\ forall y, In y l -> fold_left Qmin l x <= y.
Proof.
  revert x. induction l as [|z tl IH]; intro x; cbn [fold_left].
  - split; [lra | intros y []].
  - destruct (IH (Qmin x z)) as [H1 H2].
    pose proof (Qmin_le_l x z). pose proof (Qmin_le_r x z).
    split; [lra|]. intros y [<- | Hy]; [lra | apply H2, Hy].
Qed.

Lemma fold_Qmax_ge (l : list Q) (x : Q) :
  x <= fold_left Qmax l x /\ forall y, In y l -> y <= fold_left Qmax l x.
Proof.
  revert x. induction l as [|z tl IH]; intro x; cbn [fold_left].
  - split; [lra | intros y []].
  - destruct (IH (Qmax x z)) as [H1 H2].
    pose proof (Qmax_ge_l x z). pose proof (Qmax_ge_r x z).
    split; [lra|]. intros y [<- | Hy]; [lra | apply H2, Hy].
Qed.

Lemma minimum_le (l : list Q) (y : Q) : In y l -> statistics.minimum l <= y.
Proof.
  destruct l as [|x tl]; [intros []|]. cbn [statistics.minimum].
  destruct (fold_Qmin_le tl x) as [H1 H2].
  intros [<- | Hy]; [exact H1 | apply H2, Hy].
Qed.

Lemma maximum_ge (l : list Q) (y : Q) : In y l -> y <= statistics.maximum l.
Proof.
  destruct l as [|x tl]; [intros []|]. cbn [statistics.maximum].
  destruct (fold_Qmax_ge tl x) as [H1 H2].
  intros [<- | Hy]; [exact H1 | apply H2, Hy].
Qed.

Lemma insert_In (x y : Q) (l : list Q) :
  In y (statistics.insert x l) -> y = x \/ In y l.
Proof.
  induction l as [|z tl IH]; cbn [statistics.insert].
  - intros [<- | []]. left. reflexivity.
  - destruct (Qle_bool x z).
    + intros [<- | H]; [left; reflexivity | right; exact H].
    + intros [<- | H]; [right; left; reflexivity|].
      destruct (IH H) as [-> | Hin]; [left; reflexivity | right; right; exact Hin].
Qed.

Lemma sorted_In (y : Q) (l : list Q) : In y (statistics.sorted l) -> In y l.
Proof.
  induction l as [|x tl IH]; [intros []|].
  unfold statistics.sorted in *. cbn [fold_right]. intro H.
  destruct (insert_In _ _ _ H) as [-> | Hin]; [left; reflexivity | right; auto].
Qed.

Lemma len_cons (x : Q) (l : list Q) :
  statistics.len (x :: l) = (statistics.len l + 1)%Z.
Proof. unfold statistics.len. cbn [List.length]. lia. Qed.

Lemma fsum_bounds (l : list Q) (a b : Q) :
  (forall x, In x l -> a <= x /\ x <= b) ->
  inject_Z (statistics.len l) * a <= statistics.fsum l
  /\ statistics.fsum l <= inject_Z (statistics.len l) * b.
Proof.
  induction l as [|x tl IH]; intro H.
  - unfold statistics.len, statistics.fsum. cbn [List.length Z.of_nat fold_right].
    change (inject_Z 0) with 0. lra.
  - rewrite len_cons, inject_Z_plus. cbn [statistics.fsum fold_right].
    fold (statistics.fsum tl).
    destruct (H x (or_introl eq_refl)) as [Ha Hb].
    destruct (IH (fun y Hy => H y (or_intror Hy))) as [IHa IHb].
    change (inject_Z 1) with 1. lra.
Qed.

Lemma mean_bounds (l : list Q) (a b : Q) :
  l <> [] ->
  (forall x, In x l -> a <= x /\ x <= b) ->
  a <= statistics.mean l /\ statistics.mean l <= b.
Proof.
  intros Hne H. destruct (fsum_bounds l a b H) as [Ha Hb].
  pose proof (len_positive l Hne) as Hn.
  assert (Hq : 0 < inject_Z (statistics.len l)).
  { change 0 with (inject_Z 0). rewrite <- Zlt_Qlt. exact Hn. }
  unfold statistics.mean. split.
  - apply Qle_shift_div_l; [exact Hq | lra].
  - apply Qle_shift_div_r; [exact Hq | lra].
Qed.

Lemma median_bounds (l : list Q) (a b : Q) :
  l <> [] ->
  (forall x, In x l -> a <= x /\ x <= b) ->
  a <= statistics.median l /\ statistics.median l <= b.
Proof.
  intros Hne H. unfold statistics.median.
  pose proof (sorted_length l) as Hl.
  set (data := statistics.sorted l) in *.
  assert (Hn : (0 < List.length data)%nat).
  { rewrite Hl. destruct l; [congruence | cbn; lia]. }
  assert (Hnth : forall k, (k < List.length data)%nat ->
                           a <= nth k data 0 /\ nth k data 0 <= b).
  { intros k Hk. apply H, sorted_In. apply nth_In, Hk. }
  destruct (Nat.odd (List.length data)) eqn:Eo.
  - apply Hnth. apply Nat.div_lt; lia.
  - assert (H2 : (2 <= List.length data)%nat).
    { destruct (List.length data) as [|[|n]]; [lia | discriminate Eo | lia]. }
    assert (Hh : (List.length data / 2 < List.length data)%nat)
      by (apply Nat.div_lt; lia).
    destruct (Hnth (List.length data / 2 - 1)%nat ltac:(lia)).
    destruct (Hnth (List.length data / 2)%nat Hh).
    split; [apply Qle_shift_div_l | apply Qle_shift_div_r]; lra.
Qed.

Lemma price_stats_ordered (l : list Q) :
  all_positive l ->
  ordered_stats
    {| pricing.average := pricing.round2_if (pricing.if_nonempty statistics.mean l);
       pricing.median := pricing.round2_if (pricing.if_nonempty statistics.median l);
       pricing.low := option_map round2 (pricing.if_nonempty statistics.minimum l);
       pricing.high := option_map round2 (pricing.if_nonempty statistics.maximum l) |}.
Proof.
  intro Hpos. destruct l as [|x tl]; [exact I|].
  unfold ordered_stats.
  cbn [pricing.average pricing.median pricing.low pricing.high
       pricing.if_nonempty option_map pricing.round2_if].
  remember (x :: tl) as l eqn:El.
  assert (Hne : l <> []) by (subst l; discriminate).
  pose proof (mean_positive l Hpos Hne) as Hm.
  pose proof (median_positive l Hpos Hne) as Hd.
  rewrite (truthy_true (statistics.mean l)) by (intro E; lra).
  rewrite (truthy_true (statistics.median l)) by (intro E; lra).
  assert (Hb : forall y, In y l ->
                         statistics.minimum l <= y /\ y <= statistics.maximum l).
  { intros y Hy. split; [apply minimum_le | apply maximum_ge]; exact Hy. }
  destruct (mean_bounds l _ _ Hne Hb) as [Hm1 Hm2].
  destruct (median_bounds l _ _ Hne Hb) as [Hd1 Hd2].
  repeat split; apply round2_mono; assumption.
Qed.

Section StatsFacts.

Import pricing.
Variable sqrtQ : Q -> Q.
Variable days_since : string -> option Z.

(** X5.  In every market summary the asking and the sold price statistics are in
    order: each block is absent as a whole (no positive price in that
    sample) or has [low <= median <= high] and [low <= average <= high]. *)
Theorem analyze_prices_stats_ordered (active sold : list listing)
    (total_active total_sold total_completed : Z) :
  exists ms,
    analyze_prices sqrtQ days_since active sold total_active total_sold total_completed
    = Ok ms
    /\ ordered_stats (asking_price ms)
    /\ ordered_stats (sold_price ms)
    /\ (low (asking_price ms) = None <-> prices_of active = [])
    /\ (low (sold_price ms) = None <-> prices_of sold = []).
Proof.
  destruct (analyze_prices_ok sqrtQ days_since active sold total_active total_sold
              total_completed) as (ms & Hms & _ & _ & _ & Ha & Hs).
  exists ms. split; [exact Hms|]. rewrite Ha, Hs.
  split; [apply price_stats_ordered, prices_of_positive|].
  split; [apply price_stats_ordered, prices_of_positive|].
  cbn [low]. split.
  - destruct (prices_of active); cbn; split; congruence.
  - destruct (prices_of sold); cbn; split; congruence.
Qed.

End StatsFacts.

(** ** Days to sell *)

Section DaysFacts.

Import pricing.
Variable days_since : string -> option Z.

(** A listing whose sold date counts towards the average days to sell. *)
Local Abbreviation dated item :=
  (sold_date item <> ""
   /\ exists diff, days_since (sold_date item) = Some diff
                   /\ (0 <= diff <= 180)%Z).

Lemma day_diffs_window (sold : list listing) (x : Q) :
  In x (day_diffs days_since sold) -> 0 <= x /\ x <= 180.
Proof.
  induction sold as [|item tl IH]; cbn [day_diffs]; [intros []|].
  destruct (String.eqb (sold_date item) ""); [exact IH|].
  destruct (days_since (sold_date item)) as [diff|]; [|exact IH].
  destruct ((0 <=? diff) && (diff <=? 180))%Z eqn:E; [|exact IH].
  intros [<- | H]; [|apply IH, H].
  apply andb_true_iff in E. destruct E as [E1 E2].
  apply Z.leb_le in E1, E2.
  split.
  - change 0 with (inject_Z 0). rewrite <- Zle_Qle. exact E1.
  - change 180 with (inject_Z 180). rewrite <- Zle_Qle. exact E2.
Qed.

Lemma day_diffs_nil (sold : list listing) :
  day_diffs days_since sold = [] <-> forall item, In item sold -> ~ dated item.
Proof.
  induction sold as [|item tl IH]; cbn [day_diffs].
  - split; [intros _ i [] | reflexivity].
  - destruct (String.eqb (sold_date item) "") eqn:Ee.
    + apply String.eqb_eq in Ee. rewrite IH. split.
      * intros H i [<- | Hi]; [intros [Hne _]; congruence | apply H, Hi].
      * intros H i Hi. apply H. right. exact Hi.
    + apply String.eqb_neq in Ee.
      destruct (days_since (sold_date item)) as [diff|] eqn:Ed.
      * destruct ((0 <=? diff) && (diff <=? 180))%Z eqn:E.
        -- split; [discriminate|]. intro H. exfalso.
           apply (H item (or_introl eq_refl)). split; [exact Ee|].
           exists diff. split; [exact Ed|].
           apply andb_true_iff in E. destruct E as [E1 E2].
           apply Z.leb_le in E1, E2. lia.
        -- rewrite IH. split.
           ++ intros H i [<- | Hi]; [|apply H, Hi].
              intros [_ (d & Hd & Hw)]. rewrite Ed in Hd. injection Hd as <-.
              apply andb_false_iff in E.
              destruct E as [E | E]; apply Z.leb_gt in E; lia.
           ++ intros H i Hi. apply H. right. exact Hi.
      * rewrite IH. split.
        -- intros H i [<- | Hi]; [|apply H, Hi].
           intros [_ (d & Hd & _)]. congruence.
        -- intros H i Hi. apply H. right. exact Hi.
Qed.

(** X6.  The average days to sell, when reported, lies in 0..180; it is missing
    exactly when no sold listing has a date that parses to an age of 0 to
    180 days. *)
Theorem avg_days_to_sell_window (sold : list listing)
    (total_sold total_completed total_active : Z) :
  let st := _calc_sell_through days_since sold total_sold total_completed
              total_active in
  (forall d, avg_days_to_sell st = Some d -> 0 <= d /\ d <= 180)
  /\ (avg_days_to_sell st = None <-> forall item, In item sold -> ~ dated item).
Proof.
  cbv zeta. unfold _calc_sell_through. cbn [avg_days_to_sell].
  rewrite <- day_diffs_nil.
  destruct (day_diffs days_since sold) as [|x tl] eqn:E.
  - split; [discriminate | split; reflexivity].
  - split; [|split; discriminate].
    intros d H. injection H as <-.
    destruct (mean_bounds (x :: tl) 0 180 ltac:(discriminate)) as [H0 H1].
    { intros y Hy. apply day_diffs_window with (sold := sold). rewrite E. exact Hy. }
    split.
    + apply round1_nonneg, H0.
    + assert (E180 : round1 180 == 180) by (vm_compute; reflexivity).
      rewrite <- E180. apply round1_mono, H1.
Qed.

End DaysFacts.

(** ** Sell-through inside a scan *)

Section ScanPricingFacts.

Import pricing deal_scanner.

Variable sqrtQ : Q -> Q.
Variable days_since : string -> option Z.
Variables search_active_listings search_sold_listings : string -> Z -> fetch.
Variable draw : nat -> string * string.



End ScanPricingFacts.

(** ** The key extracted from an item URL *)

Section ExtractFacts.

Import deal_scanner.














End ExtractFacts.

(** ** What a scan does to the opportunities table *)

Section ScanTableFacts.

Import deal_scanner.

Variable sqrtQ : Q -> Q.
Variable days_since : string -> option Z.
Variables search_active_listings search_sold_listings : string -> Z -> fetch.
Variable draw : nat -> string * string.

(** One call either leaves the table alone and returns nothing, or appends
    the row it builds and returns it. *)
Lemma scanner_add_cases (d : inventory.OpportunityData) (w : world) :
  let opp_id := fst (draw (List.length (calls w))) in
  let now := snd (draw (List.length (calls w))) in
  (inventory.violates (db w) opp_id (inventory.d_ebay_item_id d) = true
   /\ add_opportunity draw d w
      = ({| db := db w; calls := calls w ++ [d] |}, None))
  \/ (inventory.violates (db w) opp_id (inventory.d_ebay_item_id d) = false
      /\ add_opportunity draw d w
         = ({| db := db w ++ [inventory.new_row opp_id now d];
               calls := calls w ++ [d] |},
            Some (inventory.new_row opp_id now d))).
Proof.
  cbv zeta. unfold add_opportunity.
  destruct (draw (List.length (calls w))) as [opp_id now]. cbn [fst snd].
  unfold inventory.add_opportunity.
  destruct (inventory.violates (db w) opp_id (inventory.d_ebay_item_id d)) eqn:E.
  - left. split; reflexivity.
  - right. split; [reflexivity|]. cbn [Z.gtb Z.compare].
    destruct (violates_false _ _ _ E) as [Hid _].
    pose proof (get_opportunity_last (db w) (inventory.new_row opp_id now d) Hid) as Hg.
    cbn [inventory.new_row inventory.id] in Hg. rewrite Hg. reflexivity.
Qed.

Lemma scan_items_appends (wq : WatchQuery) (ds : pricing.DealScore)
    (est_sell : option Q) (items : list listing) (w : world) (n : Z) :
  (pricing.score ds <= 95)%Z ->
  exists added,
    db (fst (scan_items draw wq ds est_sell items w n)) = db w ++ added
    /\ snd (scan_items draw wq ds est_sell items w n)
       = (n + Z.of_nat (List.length added))%Z
    /\ (List.length added
        <= List.length (scan_spec.candidates wq (pricing.score ds)
                          (pricing.verdict ds) est_sell items))%nat
    /\ (inventory.well_keyed (db w) -> inventory.well_keyed (db w ++ added)).
Proof.
  intro Hscore. revert w n.
  induction items as [|item rest IH]; intros w n.
  - exists []. cbn. rewrite app_nil_r. split; [reflexivity|]. split; [lia|]. split; [lia | auto].
  - rewrite (scan_items_cons draw wq ds est_sell item rest w n Hscore).
    cbn [scan_spec.candidates].
    destruct (scan_spec.candidate _ _ _ _ item) as [d|].
    2:{ destruct (IH w n) as (added & H1 & H2 & H3 & H4).
        exists added. auto. }
    destruct (scanner_add_cases d w) as [[Hv Ha] | [Hv Ha]]; rewrite Ha;
      cbv beta iota.
    + destruct (IH {| db := db w; calls := calls w ++ [d] |} n)
        as (added & H1 & H2 & H3 & H4).
      exists added. cbn [db] in *.
      split; [exact H1|]. split; [exact H2|].
      split; [cbn [List.length]; lia | exact H4].
    + set (row := inventory.new_row _ _ d) in *.
      destruct (IH {| db := db w ++ [row]; calls := calls w ++ [d] |} (n + 1)%Z)
        as (added & H1 & H2 & H3 & H4).
      exists (row :: added). cbn [db] in *.
      rewrite <- app_assoc in H1. cbn [app] in H1.
      split; [exact H1|]. split; [rewrite H2; cbn [List.length]; lia|].
      split; [cbn [List.length]; lia|].
      intro Hwk.
      replace (db w ++ row :: added) with ((db w ++ [row]) ++ added)
        by (rewrite <- app_assoc; reflexivity).
      apply H4.
      destruct (violates_false _ _ _ Hv) as [Hid He].
      apply well_keyed_insert; [exact Hwk | exact Hid | exact He].
Qed.


End ScanTableFacts.

(** ** Scanning twice *)

Section RescanFacts.

Import deal_scanner.

Variable sqrtQ : Q -> Q.
Variable days_since : string -> option Z.
Variables search_active_listings search_sold_listings : string -> Z -> fetch.
Variable draw : nat -> string * string.

(** A dict whose item id is already stored. *)
Local Abbreviation stored_in tbl d :=
  (exists r e, In r tbl /\ inventory.d_ebay_item_id d = Some e
               /\ inventory.ebay_item_id r = Some e).

Lemma candidate_keyed (wq : WatchQuery) (qs : Z) (qv : string) (est : option Q)
    (item : listing) (d : inventory.OpportunityData) :
  scan_spec.candidate wq qs qv est item = Some d ->
  inventory.d_ebay_item_id d = Some (_extract_ebay_id (item_url item)).
Proof.
  intro H. apply candidate_spec in H.
  destruct H as (p & es & _ & _ & _ & _ & _ & _ & _ & ->). reflexivity.
Qed.

Lemma fresh_draws_step (d : inventory.OpportunityData) (w : world) :
  fresh_draws draw w -> fresh_draws draw (fst (add_opportunity draw d w)).
Proof.
  intros [Hnew Hdiff].
  destruct (scanner_add_cases draw d w) as [[_ Ha] | [_ Ha]]; rewrite Ha;
    cbn [fst]; split; cbn [db calls]; rewrite ?length_app; cbn [List.length].
  - intros k Hk. apply Hnew. lia.
  - intros j k Hj Hjk. apply Hdiff; lia.
  - intros k Hk. rewrite map_app. cbn [map inventory.new_row inventory.id].
    intro Hin. apply in_app_or in Hin. destruct Hin as [Hin | [Hin | []]].
    + revert Hin. apply Hnew. lia.
    + revert Hin. apply Hdiff; lia.
  - intros j k Hj Hjk. apply Hdiff; lia.
Qed.

(** With a new row id, a call leaves the item id of its dict stored. *)
Lemma add_opportunity_stores (d : inventory.OpportunityData) (w : world) (e : string) :
  fresh_draws draw w ->
  inventory.d_ebay_item_id d = Some e ->
  stored_in (db (fst (add_opportunity draw d w))) d.
Proof.
  intros [Hnew _] He.
  destruct (scanner_add_cases draw d w) as [[Hv Ha] | [Hv Ha]]; rewrite Ha;
    cbn [fst db].
  - unfold inventory.violates in Hv. apply existsb_exists in Hv.
    destruct Hv as (r & Hin & Hor). apply orb_true_iff in Hor.
    destruct Hor as [Hid | Hsame].
    + exfalso. apply String.eqb_eq in Hid.
      apply (Hnew (List.length (calls w)) (Nat.le_refl _)).
      rewrite <- Hid. apply in_map, Hin.
    + exists r, e. split; [exact Hin|]. split; [exact He|].
      rewrite He in Hsame. destruct (inventory.ebay_item_id r) as [x|]; [|discriminate].
      cbn in Hsame. apply String.eqb_eq in Hsame. congruence.
  - eexists. exists e. split; [apply in_or_app; right; left; reflexivity|].
    split; [exact He | exact He].
Qed.

Lemma stored_in_later (d d' : inventory.OpportunityData) (w : world) :
  stored_in (db w) d -> stored_in (db (fst (add_opportunity draw d' w))) d.
Proof.
  intros (r & e & Hin & He & Hr). exists r, e. split; [|split; assumption].
  destruct (scanner_add_cases draw d' w) as [[_ Ha] | [_ Ha]]; rewrite Ha;
    cbn [fst db]; [exact Hin | apply in_or_app; left; exact Hin].
Qed.

(** After the loop every candidate's item id is in the table. *)
Lemma scan_items_stores (wq : WatchQuery) (ds : pricing.DealScore)
    (est_sell : option Q) (items : list listing) (w : world) (n : Z) :
  (pricing.score ds <= 95)%Z ->
  fresh_draws draw w ->
  forall d,
    In d (scan_spec.candidates wq (pricing.score ds) (pricing.verdict ds) est_sell items)
    \/ stored_in (db w) d ->
    stored_in (db (fst (scan_items draw wq ds est_sell items w n))) d.
Proof.
  intro Hscore. revert w n.
  induction items as [|item rest IH]; intros w n Hfresh d Hd.
  - cbn in *. destruct Hd as [[] | Hd]. exact Hd.
  - rewrite (scan_items_cons draw wq ds est_sell item rest w n Hscore).
    cbn [scan_spec.candidates] in Hd.
    destruct (scan_spec.candidate _ _ _ _ item) as [d0|] eqn:Ec;
      [|apply IH; assumption].
    pose proof (fresh_draws_step d0 w Hfresh) as Hfresh'.
    pose proof (add_opportunity_stores d0 w _ Hfresh (candidate_keyed _ _ _ _ _ _ Ec))
      as Hst0.
    pose proof (stored_in_later d d0 w) as Hlater.
    destruct (add_opportunity draw d0 w) as [w' opp]. cbn [fst] in *.
    apply IH; [exact Hfresh'|].
    destruct Hd as [[<- | Hd] | Hd]; [right; exact Hst0 | left; exact Hd | right; auto].
Qed.

(** When every candidate's item id is stored, the loop changes nothing and
    counts nothing. *)
Lemma scan_items_ignored (wq : WatchQuery) (ds : pricing.DealScore)
    (est_sell : option Q) (items : list listing) (w : world) (n : Z) :
  (pricing.score ds <= 95)%Z ->
  (forall d, In d (scan_spec.candidates wq (pricing.score ds) (pricing.verdict ds)
                     est_sell items) -> stored_in (db w) d) ->
  db (fst (scan_items draw wq ds est_sell items w n)) = db w
  /\ snd (scan_items draw wq ds est_sell items w n) = n.
Proof.
  intro Hscore. revert w n.
  induction items as [|item rest IH]; intros w n Hall; [split; reflexivity|].
  rewrite (scan_items_cons draw wq ds est_sell item rest w n Hscore).
  cbn [scan_spec.candidates] in Hall.
  destruct (scan_spec.candidate _ _ _ _ item) as [d0|] eqn:Ec; [|apply IH, Hall].
  destruct (Hall d0 (or_introl eq_refl)) as (r & e & Hin & He & Hr).
  destruct (scanner_add_cases draw d0 w) as [[Hv Ha] | [Hv Ha]].
  - rewrite Ha. cbv beta iota.
    apply (IH {| db := db w; calls := calls w ++ [d0] |} n).
    intros d Hd. apply Hall. right. exact Hd.
  - exfalso. rewrite He in Hv.
    rewrite (violates_stored (db w) _ r e Hin Hr) in Hv. discriminate Hv.
Qed.

(** X10.  Scanning a watch query again against the same search results finds
    nothing new: once a scan has run with new row ids, a second scan
    leaves the opportunities table as it is and reports 0. *)
Theorem rescan_finds_nothing (wq : WatchQuery) (w : world)
    (items : list listing) (total : Z) :
  search_active_listings (query wq) 50 = Fetched items total ->
  fresh_draws draw w ->
  exists w1 n1 w2,
    _scan_one_query sqrtQ days_since search_active_listings search_sold_listings
      draw wq w = Ok (w1, n1)
    /\ _scan_one_query sqrtQ days_since search_active_listings search_sold_listings
         draw wq w1 = Ok (w2, 0%Z)
    /\ db w2 = db w1.
Proof.
  intros Ha Hfresh.
  destruct (or_empty (search_sold_listings (query wq) 50)) as [sold ts] eqn:Hs.
  destruct (analyze_prices_ok sqrtQ days_since items sold total ts ts)
    as (ms & Hms & _).
  pose proof (analyze_prices_score_le_90 sqrtQ days_since _ _ _ _ _ ms Hms) as H90.
  assert (H95 : (pricing.score (pricing.deal_score ms) <= 95)%Z) by lia.
  unfold _scan_one_query. rewrite Ha, Hs.
  destruct items as [|item rest].
  - exists w, 0%Z, w. repeat split.
  - rewrite Hms. cbn [bind].
    set (ds := pricing.deal_score ms) in *.
    set (es := pricing.estimated_sell_price (pricing.recommendation ms)).
    set (run1 := scan_items draw wq ds es (item :: rest) w 0).
    assert (Hstored : forall d,
               In d (scan_spec.candidates wq (pricing.score ds) (pricing.verdict ds)
                       es (item :: rest)) ->
               stored_in (db (fst run1)) d).
    { intros d Hd. apply scan_items_stores; auto. }
    destruct (scan_items_ignored wq ds es (item :: rest) (fst run1) 0 H95 Hstored)
      as [Hdb Hn].
    set (run2 := scan_items draw wq ds es (item :: rest) (fst run1) 0) in *.
    exists (fst run1), (snd run1), (fst run2).
    split; [destruct run1; reflexivity|].
    split; [|exact Hdb].
    change (Ok run2 = Ok (fst run2, 0%Z)).
    rewrite (surjective_pairing run2) at 1. rewrite Hn. reflexivity.
Qed.

End RescanFacts.

(** ** Stopping and restarting the scanner *)

Section RestartFacts.

Import deal_scanner.

(** X12.  While the loop task is still inside its loop, a stop followed at once by
    a start is refused ("already running") and leaves the scanner stopped;
    once the loop has seen the cleared flag and returned, a start succeeds
    and the scanner runs again. *)
Theorem stop_then_start (s : scanner) :
  reachable s ->
  _scanner_task s = Some Looping ->
  _scanner_running s = true ->
  let '(s1, stopped) := stop_scanner s in
  let '(s2, restarted) := start_scanner s1 in
  stopped = true /\ restarted = false
  /\ s2 = s1 /\ is_scanner_running s2 = false
  /\ forall s3, step s2 s3 -> _scanner_task s3 = Some Finished ->
       reachable s3
       /\ snd (start_scanner s3) = true
       /\ is_scanner_running (fst (start_scanner s3)) = true.
Proof.
  intros Hs Ht Hr.
  unfold stop_scanner. rewrite Hr. cbn [negb].
  unfold start_scanner at 1, task_active. cbn [_scanner_task]. rewrite Ht.
  split; [reflexivity|]. split; [reflexivity|]. split; [reflexivity|].
  split; [reflexivity|].
  intros s3 Hstep Hfin.
  assert (Hs1 : reachable {| _scanner_task := Some Looping; _scanner_running := false |}).
  { pose proof (reach_step s _ Hs (step_stop s)) as H.
    unfold stop_scanner in H. rewrite Hr, Ht in H. exact H. }
  split; [exact (reach_step _ _ Hs1 Hstep)|].
  unfold start_scanner, task_active. rewrite Hfin. split; reflexivity.
Qed.

End RestartFacts.

(** ** A scan cycle over the watch table *)

Section CycleFacts.

Import deal_scanner.

Variable sqrtQ : Q -> Q.
Variable days_since : string -> option Z.
Variables search_active_listings search_sold_listings : string -> Z -> fetch.
Variable draw : nat -> string * string.
Variable now : nat -> string.

Local Abbreviation ids t := (map inventory.w_id t).

(** A scan of any watch query returns, and only appends to the table. *)
Lemma scan_one_query_adds (wq : WatchQuery) (w : world) :
  exists w' added,
    _scan_one_query sqrtQ days_since search_active_listings search_sold_listings
      draw wq w = Ok (w', Z.of_nat (List.length added))
    /\ db w' = db w ++ added
    /\ (inventory.well_keyed (db w) -> inventory.well_keyed (db w')).
Proof.
  unfold _scan_one_query.
  destruct (search_active_listings (query wq) 50) as [items total|].
  2:{ exists w, []. rewrite app_nil_r. split; [reflexivity|]. split; auto. }
  destruct (or_empty (search_sold_listings (query wq) 50)) as [sold ts] eqn:Hs.
  destruct (analyze_prices_ok sqrtQ days_since items sold total ts ts)
    as (ms & Hms & _).
  pose proof (analyze_prices_score_le_90 sqrtQ days_since _ _ _ _ _ ms Hms) as H90.
  destruct items as [|item rest].
  - exists w, []. rewrite app_nil_r. split; [reflexivity|]. split; auto.
  - rewrite Hms. cbn [bind].
    destruct (scan_items_appends draw wq (pricing.deal_score ms)
                (pricing.estimated_sell_price (pricing.recommendation ms))
                (item :: rest) w 0 ltac:(lia))
      as (added & H1 & H2 & _ & H4).
    set (run := scan_items draw wq _ _ _ w 0) in *.
    exists (fst run), added.
    split; [rewrite (surjective_pairing run) at 1; rewrite H2; reflexivity|].
    split; [exact H1|]. rewrite H1. exact H4.
Qed.

Lemma mark_watch_scanned_ids (t : inventory.watch_table) (i : string) (n : Z) (time : string) :
  ids (inventory.mark_watch_scanned time i n t) = ids t.
Proof.
  unfold inventory.mark_watch_scanned. rewrite map_map.
  apply map_ext. intro r. destruct (String.eqb (inventory.w_id r) i); reflexivity.
Qed.

Lemma mark_watch_scanned_absent (t : inventory.watch_table) (i : string) (n : Z)
    (time : string) :
  ~ In i (ids t) -> inventory.mark_watch_scanned time i n t = t.
Proof.
  induction t as [|r t IH]; intro H; [reflexivity|].
  cbn in H |- *. destruct (String.eqb (inventory.w_id r) i) eqn:E.
  - apply String.eqb_eq in E. tauto.
  - f_equal. apply IH. tauto.
Qed.

Lemma mark_watch_scanned_total (t : inventory.watch_table) (i : string) (n : Z)
    (time : string) :
  NoDup (ids t) -> In i (ids t) ->
  inventory.total_found (inventory.mark_watch_scanned time i n t)
  = (inventory.total_found t + n)%Z.
Proof.
  induction t as [|r t IH]; intros Hnd Hin; [destruct Hin|].
  cbn [map] in Hnd. inversion Hnd as [|? ? Hr Hnd']; subst.
  cbn [inventory.mark_watch_scanned map inventory.total_found fold_right].
  destruct (String.eqb (inventory.w_id r) i) eqn:E.
  - apply String.eqb_eq in E. subst i.
    fold (inventory.mark_watch_scanned time (inventory.w_id r) n t).
    rewrite (mark_watch_scanned_absent t _ n time Hr).
    cbn [inventory.scanned_row inventory.w_opportunities_found].
    fold (inventory.total_found t). lia.
  - fold (inventory.mark_watch_scanned time i n t).
    fold (inventory.total_found (inventory.mark_watch_scanned time i n t)).
    fold (inventory.total_found t).
    destruct Hin as [Hin | Hin].
    + apply String.eqb_neq in E. congruence.
    + rewrite (IH Hnd' Hin). lia.
Qed.

Lemma insert_by_created_In (r x : inventory.WatchRow) (l : list inventory.WatchRow) :
  In x (inventory.insert_by_created r l) <-> x = r \/ In x l.
Proof.
  induction l as [|y l IH]; cbn.
  - intuition congruence.
  - destruct (String.leb _ _); cbn; [intuition congruence|].
    rewrite IH. intuition congruence.
Qed.

Lemma insert_by_created_NoDup (r : inventory.WatchRow) (l : list inventory.WatchRow) :
  ~ In (inventory.w_id r) (ids l) -> NoDup (ids l) ->
  NoDup (ids (inventory.insert_by_created r l)).
Proof.
  induction l as [|y l IH]; intros Hr Hnd; cbn.
  - constructor; [intros []| constructor].
  - destruct (String.leb _ _); cbn [map].
    + constructor; assumption.
    + cbn [map] in Hr, Hnd. inversion Hnd as [|? ? Hy Hnd']; subst.
      constructor.
      * intro Hin. apply in_map_iff in Hin. destruct Hin as (x & Hx & Hin).
        apply (proj1 (insert_by_created_In _ _ _)) in Hin. destruct Hin as [-> | Hin].
        -- apply Hr. left. symmetry. exact Hx.
        -- apply Hy. rewrite <- Hx. apply in_map. exact Hin.
      * apply IH; [|exact Hnd']. intro Hin. apply Hr. right. exact Hin.
Qed.

Lemma order_by_created_desc_In (x : inventory.WatchRow) (l : list inventory.WatchRow) :
  In x (inventory.order_by_created_desc l) <-> In x l.
Proof.
  induction l as [|y l IH]; cbn; [tauto|].
  fold (inventory.order_by_created_desc l).
  rewrite insert_by_created_In, IH. intuition congruence.
Qed.

Lemma order_by_created_desc_NoDup (l : list inventory.WatchRow) :
  NoDup (ids l) -> NoDup (ids (inventory.order_by_created_desc l)).
Proof.
  induction l as [|y l IH]; intro Hnd; cbn; [constructor|].
  fold (inventory.order_by_created_desc l).
  cbn [map] in Hnd. inversion Hnd as [|? ? Hy Hnd']; subst.
  apply insert_by_created_NoDup; [|auto].
  intro Hin. apply in_map_iff in Hin. destruct Hin as (x & Hx & Hin).
  apply (proj1 (order_by_created_desc_In _ _)) in Hin.
  apply Hy. rewrite <- Hx. apply in_map. exact Hin.
Qed.

Lemma filter_ids_NoDup (p : inventory.WatchRow -> bool) (l : list inventory.WatchRow) :
  NoDup (ids l) -> NoDup (ids (filter p l)).
Proof.
  induction l as [|y l IH]; intro Hnd; cbn; [constructor|].
  cbn [map] in Hnd. inversion Hnd as [|? ? Hy Hnd']; subst.
  destruct (p y); cbn [map]; [|auto].
  constructor; [|auto].
  intro Hin. apply in_map_iff in Hin. destruct Hin as (x & Hx & Hin).
  apply filter_In in Hin. apply Hy. rewrite <- Hx. apply in_map. tauto.
Qed.

(** In a table keyed by id, the ids listed with [enabled_only] are those of
    the enabled rows. *)
Lemma list_watch_queries_enabled (t : inventory.watch_table) (r : inventory.WatchRow) :
  NoDup (ids t) -> In r t ->
  (In (inventory.w_id r) (ids (inventory.list_watch_queries true t))
   <-> inventory.w_enabled r = true).
Proof.
  intros Hnd Hr. unfold inventory.list_watch_queries. split.
  - intro Hin. apply in_map_iff in Hin. destruct Hin as (x & Hx & Hin).
    apply (proj1 (order_by_created_desc_In _ _)) in Hin. apply filter_In in Hin.
    destruct Hin as [Hxt Hen].
    assert (x = r); [|congruence].
    clear Hen. induction t as [|y t IH]; [destruct Hr|].
    cbn [map] in Hnd. inversion Hnd as [|? ? Hy Hnd']; subst.
    destruct Hr as [-> | Hr], Hxt as [-> | Hxt]; auto.
    + exfalso. apply Hy. rewrite <- Hx. apply in_map. exact Hxt.
    + exfalso. apply Hy. rewrite Hx. apply in_map. exact Hr.
  - intro Hen. apply in_map. apply order_by_created_desc_In.
    apply filter_In. tauto.
Qed.

(** The loop over a list of distinct queries, all of them rows of the
    table. *)
Lemma scan_queries_accounts (qs : list inventory.WatchRow) (k : nat) (s : state) :
  NoDup (ids qs) ->
  NoDup (ids (watch_queries s)) ->
  incl (ids qs) (ids (watch_queries s)) ->
  let s' := scan_queries sqrtQ days_since search_active_listings
              search_sold_listings draw now qs k s in
  exists added,
    db (scanned s') = db (scanned s) ++ added
    /\ inventory.total_found (watch_queries s')
       = (inventory.total_found (watch_queries s) + Z.of_nat (List.length added))%Z
    /\ (inventory.well_keyed (db (scanned s)) -> inventory.well_keyed (db (scanned s')))
    /\ List.length (watch_queries s') = List.length (watch_queries s)
    /\ forall i r, nth_error (watch_queries s) i = Some r ->
         exists r', nth_error (watch_queries s') i = Some r'
           /\ (In (inventory.w_id r) (ids qs) ->
               exists j n, (0 <= n)%Z /\ r' = inventory.scanned_row (now j) n r)
           /\ (~ In (inventory.w_id r) (ids qs) -> r' = r).
Proof.
  revert k s. induction qs as [|q qs IH]; intros k s Hq Ht Hincl; cbv zeta.
  - cbn [scan_queries]. exists []. rewrite app_nil_r.
    split; [reflexivity|]. split; [cbn; lia|]. split; [auto|]. split; [reflexivity|].
    intros i r Hr. exists r. split; [exact Hr|]. split; [intros []| reflexivity].
  - cbn [scan_queries].
    destruct (scan_one_query_adds (watch_query_of q) (scanned s))
      as (w1 & added1 & Hrun & Hdb1 & Hwk1).
    rewrite Hrun.
    set (n1 := Z.of_nat (List.length added1)) in *.
    set (t1 := inventory.mark_watch_scanned (now k) (inventory.w_id q) n1 (watch_queries s)).
    set (s1 := {| scanned := w1; watch_queries := t1 |}).
    cbn [map] in Hq. inversion Hq as [|? ? Hqn Hq']; subst.
    assert (Hids1 : ids t1 = ids (watch_queries s))
      by apply mark_watch_scanned_ids.
    assert (Ht1 : NoDup (ids (watch_queries s1))) by (cbn; rewrite Hids1; exact Ht).
    assert (Hincl1 : incl (ids qs) (ids (watch_queries s1))).
    { cbn [watch_queries s1]. rewrite Hids1. intros x Hx. apply Hincl. right. exact Hx. }
    destruct (IH (S k) s1 Hq' Ht1 Hincl1) as (added2 & Hdb2 & Htot2 & Hwk2 & Hlen2 & Hrows2).
    exists (added1 ++ added2).
    split.
    { rewrite Hdb2. cbn [scanned s1]. rewrite Hdb1. symmetry. apply app_assoc. }
    split.
    { rewrite Htot2. cbn [watch_queries s1]. unfold t1.
      rewrite mark_watch_scanned_total;
        [| exact Ht | apply Hincl; left; reflexivity].
      rewrite length_app. unfold n1. lia. }
    split.
    { intro Hwk. apply Hwk2. cbn [scanned s1]. apply Hwk1. exact Hwk. }
    split.
    { rewrite Hlen2. cbn [watch_queries s1]. unfold t1, inventory.mark_watch_scanned.
      apply length_map. }
    intros i r Hr.
    assert (Hr1 : nth_error (watch_queries s1) i
                  = Some (if String.eqb (inventory.w_id r) (inventory.w_id q)
                          then inventory.scanned_row (now k) n1 r else r)).
    { cbn [watch_queries s1]. unfold t1, inventory.mark_watch_scanned.
      rewrite nth_error_map, Hr. reflexivity. }
    destruct (Hrows2 i _ Hr1) as (r' & Hr' & Hin' & Hout').
    exists r'. split; [exact Hr'|].
    destruct (String.eqb (inventory.w_id r) (inventory.w_id q)) eqn:E.
    + apply String.eqb_eq in E.
      assert (Hr'eq : r' = inventory.scanned_row (now k) n1 r).
      { apply Hout'. cbn [inventory.scanned_row inventory.w_id]. rewrite E. exact Hqn. }
      split.
      * intros _. exists k, n1. split; [unfold n1; lia | exact Hr'eq].
      * intro Hno. exfalso. apply Hno. left. symmetry. exact E.
    + apply String.eqb_neq in E. split.
      * intros [Hhd | Htl]; [congruence|]. apply Hin'. exact Htl.
      * intro Hno. apply Hout'. intro Htl. apply Hno. right. exact Htl.
Qed.

(** X11.  One scan cycle appends rows to the opportunities table and leaves the
    watch table with the same rows in the same places, where every enabled
    row has been stamped, its scan counted once and its counter of finds
    raised, and every disabled row is untouched; the counters of finds rise
    in total by exactly the number of rows appended. *)
Theorem run_scan_cycle_accounts (s : state) :
  NoDup (map inventory.w_id (watch_queries s)) ->
  let s' := run_scan_cycle sqrtQ days_since search_active_listings
              search_sold_listings draw now s in
  exists added,
    db (scanned s') = db (scanned s) ++ added
    /\ inventory.total_found (watch_queries s')
       = (inventory.total_found (watch_queries s) + Z.of_nat (List.length added))%Z
    /\ (inventory.well_keyed (db (scanned s)) -> inventory.well_keyed (db (scanned s')))
    /\ List.length (watch_queries s') = List.length (watch_queries s)
    /\ forall i r, nth_error (watch_queries s) i = Some r ->
         exists r', nth_error (watch_queries s') i = Some r'
           /\ (inventory.w_enabled r = true ->
               exists j n, (0 <= n)%Z /\ r' = inventory.scanned_row (now j) n r)
           /\ (inventory.w_enabled r = false -> r' = r).
Proof.
  intros Ht. cbv zeta.
  assert (Hq : NoDup (ids (inventory.list_watch_queries true (watch_queries s)))).
  { unfold inventory.list_watch_queries.
    apply order_by_created_desc_NoDup, filter_ids_NoDup, Ht. }
  assert (Hincl : incl (ids (inventory.list_watch_queries true (watch_queries s)))
                       (ids (watch_queries s))).
  { intros x Hx. apply in_map_iff in Hx. destruct Hx as (r & <- & Hr).
    unfold inventory.list_watch_queries in Hr.
    apply (proj1 (order_by_created_desc_In _ _)) in Hr. apply filter_In in Hr.
    apply in_map. tauto. }
  pose proof (scan_queries_accounts _ 0%nat s Hq Ht Hincl) as H. cbv zeta in H.
  assert (Hsame : run_scan_cycle sqrtQ days_since search_active_listings
                    search_sold_listings draw now s
                  = scan_queries sqrtQ days_since search_active_listings
                      search_sold_listings draw now
                      (inventory.list_watch_queries true (watch_queries s)) 0 s).
  { unfold run_scan_cycle.
    destruct (inventory.list_watch_queries true (watch_queries s)); reflexivity. }
  rewrite Hsame.
  destruct H as (added & H1 & H2 & H3 & H4 & H5).
  exists added. split; [exact H1|]. split; [exact H2|]. split; [exact H3|].
  split; [exact H4|].
  intros i r Hr. destruct (H5 i r Hr) as (r' & Hr' & Hin & Hout).
  exists r'. split; [exact Hr'|].
  pose proof (list_watch_queries_enabled (watch_queries s) r Ht
                (nth_error_In _ _ Hr)) as Hen.
  split.
  - intro E. apply Hin. apply Hen. exact E.
  - intro E. apply Hout. intro Hx. apply (proj1 Hen) in Hx. congruence.
Qed.

End CycleFacts.

(** ** Status changes and deletions in the tables *)

Section InventoryFacts.

Import inventory.

(** The row function of [update_opportunity_status]. *)
Local Abbreviation updated opp_id new_status item :=
  (fun r : Opportunity =>
     if String.eqb (id r) opp_id then
       with_status new_status
         (if match item with
             | Some i => negb (String.eqb i "")
             | None => false
             end
          then item else inventory_item_id r) r
     else r).

Lemma updated_keys (opp_id new_status : string) (item : option string) (r : Opportunity) :
  id (updated opp_id new_status item r) = id r
  /\ ebay_item_id (updated opp_id new_status item r) = ebay_item_id r.
Proof.
  cbv beta. destruct (String.eqb (id r) opp_id); split; reflexivity.
Qed.

Lemma map_keys_violates (f : Opportunity -> Opportunity) (db : table)
    (i : string) (e : option string) :
  (forall r, id (f r) = id r /\ ebay_item_id (f r) = ebay_item_id r) ->
  violates (map f db) i e = violates db i e.
Proof.
  intro Hf. unfold violates. induction db as [|r db IH]; [reflexivity|].
  cbn [map existsb]. destruct (Hf r) as [-> ->]. rewrite IH. reflexivity.
Qed.

Lemma map_keys_rows_with (f : Opportunity -> Opportunity) (db : table) (e : string) :
  (forall r, id (f r) = id r /\ ebay_item_id (f r) = ebay_item_id r) ->
  rows_with (map f db) e = rows_with db e.
Proof.
  intro Hf. unfold rows_with. induction db as [|r db IH]; [reflexivity|].
  cbn [map filter]. destruct (Hf r) as [_ ->].
  destruct (same_ebay_id (ebay_item_id r) (Some e)); cbn [List.length]; rewrite IH;
    reflexivity.
Qed.

Lemma map_keys_ids (f : Opportunity -> Opportunity) (db : table) :
  (forall r, id (f r) = id r /\ ebay_item_id (f r) = ebay_item_id r) ->
  map id (map f db) = map id db.
Proof.
  intro Hf. rewrite map_map. apply map_ext. intro r. apply Hf.
Qed.

Lemma map_keys_get (f : Opportunity -> Opportunity) (db : table) (i : string) :
  (forall r, id (f r) = id r /\ ebay_item_id (f r) = ebay_item_id r) ->
  get_opportunity (map f db) i = option_map f (get_opportunity db i).
Proof.
  intro Hf. unfold get_opportunity. induction db as [|r db IH]; [reflexivity|].
  cbn [map find]. destruct (Hf r) as [-> _].
  destruct (String.eqb (id r) i); [reflexivity | exact IH].
Qed.

Lemma get_opportunity_id (db : table) (i : string) (r : Opportunity) :
  get_opportunity db i = Some r -> id r = i /\ In r db.
Proof.
  unfold get_opportunity. intro H. apply find_some in H.
  destruct H as [Hin E]. apply String.eqb_eq in E. tauto.
Qed.

Lemma get_opportunity_none (db : table) (i : string) :
  get_opportunity db i = None -> ~ In i (map id db).
Proof.
  unfold get_opportunity. intros H Hin. apply in_map_iff in Hin.
  destruct Hin as (r & Hr & Hin).
  pose proof (find_none _ _ H r Hin) as E. cbv beta in E.
  rewrite Hr, String.eqb_refl in E. discriminate.
Qed.

(** X13.  [update_opportunity_status] reads back what it wrote: for an unknown id
    it returns nothing and changes nothing; for a stored one it returns that
    row with the new status, and with the inventory item id replaced only
    when a non-empty one is given.  Ids and eBay item ids of all rows stay
    as they were, so the table's keys remain valid. *)
Theorem update_opportunity_status_reads_back (db : table)
    (opp_id new_status : string) (item : option string) :
  let db' := fst (update_opportunity_status opp_id new_status item db) in
  let res := snd (update_opportunity_status opp_id new_status item db) in
  map id db' = map id db
  /\ map ebay_item_id db' = map ebay_item_id db
  /\ (well_keyed db -> well_keyed db')
  /\ match get_opportunity db opp_id with
     | None => res = None /\ db' = db
     | Some r =>
         exists r',
           res = Some r'
           /\ id r' = opp_id
           /\ status r' = new_status
           /\ inventory_item_id r'
              = match item with
                | Some i => if String.eqb i "" then inventory_item_id r else Some i
                | None => inventory_item_id r
                end
           /\ r' = with_status new_status (inventory_item_id r') r
     end.
Proof.
  cbv zeta. unfold update_opportunity_status. cbn [fst snd].
  pose proof (updated_keys opp_id new_status item) as Hf.
  split; [apply map_keys_ids; exact Hf|].
  split.
  { rewrite map_map. apply map_ext. intro r. apply Hf. }
  split.
  { intros [Hnd Hu]. split.
    - rewrite map_keys_ids; [exact Hnd | exact Hf].
    - intro e. rewrite map_keys_rows_with; [apply Hu | exact Hf]. }
  rewrite map_keys_get by exact Hf.
  destruct (get_opportunity db opp_id) as [r|] eqn:Hg; cbn [option_map].
  - destruct (get_opportunity_id _ _ _ Hg) as [Hid _].
    rewrite Hid, String.eqb_refl.
    eexists. split; [reflexivity|]. split; [exact Hid|]. split; [reflexivity|].
    split; [| reflexivity].
    cbn [with_status inventory_item_id].
    destruct item as [i|]; [destruct (String.eqb i "")|]; reflexivity.
  - split; [reflexivity|].
    pose proof (get_opportunity_none _ _ Hg) as Hno.
    clear Hg Hf. induction db as [|r db IH]; [reflexivity|].
    cbn [map] in Hno |- *. destruct (String.eqb (id r) opp_id) eqn:E.
    + apply String.eqb_eq in E. exfalso. apply Hno. left. exact E.
    + f_equal. apply IH. intro H. apply Hno. right. exact H.
Qed.

(** X14.  Whatever status an opportunity is given afterwards, the eBay item it
    was found for is never inserted again. *)
Theorem updated_item_not_readded (db : table) (opp_id new_status : string)
    (item : option string) (r : Opportunity) (e : string)
    (new_id now : string) (data : OpportunityData) :
  In r db ->
  ebay_item_id r = Some e ->
  d_ebay_item_id data = Some e ->
  add_opportunity new_id now data
    (fst (update_opportunity_status opp_id new_status item db))
  = (fst (update_opportunity_status opp_id new_status item db), None).
Proof.
  intros Hin He Hd. unfold update_opportunity_status. cbn [fst].
  unfold add_opportunity.
  rewrite map_keys_violates by apply updated_keys.
  rewrite Hd, (violates_stored db new_id r e Hin He). reflexivity.
Qed.

Lemma filter_rows_with (p : Opportunity -> bool) (db : table) (e : string) :
  (rows_with (filter p db) e <= rows_with db e)%nat.
Proof.
  unfold rows_with. induction db as [|r db IH]; [cbn; lia|].
  cbn [filter]. destruct (p r); cbn [filter];
    destruct (same_ebay_id (ebay_item_id r) (Some e)); cbn [List.length]; lia.
Qed.

Lemma filter_opportunity_ids (p : Opportunity -> bool) (db : table) :
  NoDup (map id db) -> NoDup (map id (filter p db)).
Proof.
  induction db as [|y l IH]; intro Hnd; cbn; [constructor|].
  cbn [map] in Hnd. inversion Hnd as [|? ? Hy Hnd']; subst.
  destruct (p y); cbn [map]; [|auto].
  constructor; [|auto].
  intro Hin. apply in_map_iff in Hin. destruct Hin as (x & Hx & Hin).
  apply filter_In in Hin. apply Hy. rewrite <- Hx. apply in_map. tauto.
Qed.

Lemma filter_filter_same {A : Type} (p : A -> bool) (l : list A) :
  filter p (filter p l) = filter p l.
Proof.
  induction l as [|x l IH]; [reflexivity|].
  cbn [filter]. destruct (p x) eqn:E; [|exact IH].
  cbn [filter]. rewrite E, IH. reflexivity.
Qed.

Lemma filter_none {A : Type} (p q : A -> bool) (l : list A) :
  (forall x, q x = true -> p x = false) -> filter p (filter q l) = [].
Proof.
  intro H. induction l as [|x l IH]; [reflexivity|].
  cbn [filter]. destruct (q x) eqn:E; [|exact IH].
  cbn [filter]. rewrite (H x E). exact IH.
Qed.

(** X15.  [delete_watch_query] reports whether a watch row had the id, and in
    either case removes every opportunity that refers to it; the other rows
    of both tables stay, and deleting the same id again reports [False] and
    changes nothing. *)
Theorem delete_watch_query_cascade (wq_id : string) (t : watch_table) (db : table) :
  let t' := fst (fst (delete_watch_query wq_id t db)) in
  let db' := snd (fst (delete_watch_query wq_id t db)) in
  let deleted := snd (delete_watch_query wq_id t db) in
  (deleted = true <-> In wq_id (map w_id t))
  /\ (forall r, In r t' <-> In r t /\ w_id r <> wq_id)
  /\ (forall r, In r db' <-> In r db /\ watch_query_id r <> wq_id)
  /\ (well_keyed db -> well_keyed db')
  /\ delete_watch_query wq_id t' db' = (t', db', false).
Proof.
  cbv zeta. unfold delete_watch_query. cbn [fst snd].
  split.
  { rewrite Z.ltb_lt. split.
    - intro Hlen.
      destruct (filter (fun r => String.eqb (w_id r) wq_id) t) as [|r l] eqn:E;
        [cbn in Hlen; lia|].
      assert (Hr : In r (filter (fun r => String.eqb (w_id r) wq_id) t))
        by (rewrite E; left; reflexivity).
      apply filter_In in Hr. destruct Hr as [Hr Hid].
      apply String.eqb_eq in Hid. rewrite <- Hid. apply in_map. exact Hr.
    - intro Hin. apply in_map_iff in Hin. destruct Hin as (r & Hid & Hr).
      assert (Hf : In r (filter (fun r => String.eqb (w_id r) wq_id) t)).
      { apply filter_In. split; [exact Hr|]. apply String.eqb_eq. exact Hid. }
      destruct (filter (fun r => String.eqb (w_id r) wq_id) t); [destruct Hf|].
      cbn [List.length]. lia. }
  split.
  { intro r. rewrite filter_In, negb_true_iff, String.eqb_neq. tauto. }
  split.
  { intro r. rewrite filter_In, negb_true_iff, String.eqb_neq. tauto. }
  split.
  { intros [Hnd Hu]. split.
    - apply filter_opportunity_ids. exact Hnd.
    - intro e. pose proof (filter_rows_with
                 (fun r => negb (String.eqb (watch_query_id r) wq_id)) db e).
      specialize (Hu e). lia. }
  rewrite !filter_filter_same.
  rewrite (filter_none (fun r => String.eqb (w_id r) wq_id)
             (fun r => negb (String.eqb (w_id r) wq_id)) t);
    [reflexivity|].
  intros x Hx. apply negb_true_iff in Hx. exact Hx.
Qed.

End InventoryFacts.

(** ** Which adapters a mode consults *)

Section RoutingFacts.

Import ebay_service.

Variable EBAY_APP_ID : string.
Variables search_active_listings search_sold_listings search_completed_listings
  : string -> Z -> fetch.
Variables scrape_active_listings scrape_sold_listings scrape_completed_listings
  : string -> Z -> fetch.

(** X16.  In mode [scrape], and in mode [auto] without API credentials, the
    result is the scrapers' whatever the API adapters would return; in mode
    [api] it is the API's, or empty under the label "none", whatever the
    scrapers would return; any other mode gives the empty result "none". *)
Theorem search_all_routes (query mode : string) :
  (mode = "scrape" \/ (mode = "auto" /\ _api_keys_configured EBAY_APP_ID = false) ->
   search_all EBAY_APP_ID mode
     search_active_listings search_sold_listings search_completed_listings
     scrape_active_listings scrape_sold_listings scrape_completed_listings query
   = {| active := fst (or_empty (scrape_active_listings query 48));
        sold := fst (or_empty (scrape_sold_listings query 48));
        total_active := snd (or_empty (scrape_active_listings query 48));
        total_sold := snd (or_empty (scrape_sold_listings query 48));
        total_completed := snd (or_empty (scrape_completed_listings query 100));
        source_mode := Some "scrape" |})
  /\ (mode = "api" ->
      search_all EBAY_APP_ID mode
        search_active_listings search_sold_listings search_completed_listings
        scrape_active_listings scrape_sold_listings scrape_completed_listings query
      = if nonempty (fst (or_empty (search_active_listings query 40)))
           || nonempty (fst (or_empty (search_sold_listings query 40)))
        then {| active := fst (or_empty (search_active_listings query 40));
                sold := fst (or_empty (search_sold_listings query 40));
                total_active := snd (or_empty (search_active_listings query 40));
                total_sold := snd (or_empty (search_sold_listings query 40));
                total_completed := snd (or_empty (search_completed_listings query 100));
                source_mode := Some "api" |}
        else {| active := []; sold := []; total_active := 0; total_sold := 0;
                total_completed := 0; source_mode := Some "none" |})
  /\ (mode <> "api" -> mode <> "scrape" -> mode <> "auto" ->
      search_all EBAY_APP_ID mode
        search_active_listings search_sold_listings search_completed_listings
        scrape_active_listings scrape_sold_listings scrape_completed_listings query
      = {| active := []; sold := []; total_active := 0; total_sold := 0;
           total_completed := 0; source_mode := Some "none" |}).
Proof.
  assert (Hscraped :
    forall (r : SearchResult),
      r = ebay_scraper.scrape_all scrape_active_listings scrape_sold_listings
            scrape_completed_listings query ->
      {| active := active r; sold := sold r; total_active := total_active r;
         total_sold := total_sold r; total_completed := total_completed r;
         source_mode := Some "scrape" |}
      = {| active := fst (or_empty (scrape_active_listings query 48));
           sold := fst (or_empty (scrape_sold_listings query 48));
           total_active := snd (or_empty (scrape_active_listings query 48));
           total_sold := snd (or_empty (scrape_sold_listings query 48));
           total_completed := snd (or_empty (scrape_completed_listings query 100));
           source_mode := Some "scrape" |}).
  { intros r ->. unfold ebay_scraper.scrape_all.
    destruct (or_empty (scrape_active_listings query 48)),
             (or_empty (scrape_sold_listings query 48)),
             (or_empty (scrape_completed_listings query 100)).
    reflexivity. }
  split; [|split].
  - intros [-> | [-> Hk]]; unfold search_all.
    + change (String.eqb "scrape" "api") with false.
      change (String.eqb "scrape" "auto") with false.
      change (String.eqb "scrape" "scrape") with true.
      cbn [orb andb]. apply Hscraped. reflexivity.
    + rewrite Hk.
      change (String.eqb "auto" "api") with false.
      change (String.eqb "auto" "auto") with true.
      change (String.eqb "auto" "scrape") with false.
      cbn [orb andb negb]. apply Hscraped. reflexivity.
  - intros ->. unfold search_all.
    change (String.eqb "api" "api") with true.
    change (String.eqb "api" "scrape") with false.
    change (String.eqb "api" "auto") with false.
    cbn [orb andb negb].
    destruct (or_empty (search_active_listings query 40)) as [a ta],
             (or_empty (search_sold_listings query 40)) as [sd ts],
             (or_empty (search_completed_listings query 100)) as [c tc].
    cbn [fst snd]. destruct (nonempty a || nonempty sd); reflexivity.
  - intros Ha Hs Hu. unfold search_all.
    apply String.eqb_neq in Ha, Hs, Hu. rewrite Ha, Hs, Hu. reflexivity.
Qed.

End RoutingFacts.

(** ** Saved settings *)

Section SettingsFacts.

Import settings.

(** X17.  After [save], a key of [_DEFAULTS] reads as the saved value when the
    update has one and as it read before otherwise, and any other key reads
    as [None]; the saved dict holds keys of [_DEFAULTS] only; and a new
    process over the written file reads every key the same way. *)
Theorem save_then_get (settings : dict) (s : store) (key : string) :
  let s1 := snd (save settings s) in
  fst (get key s1)
  = (if contains_key _DEFAULTS key then
       match settings key with
       | Some v => Some v
       | None => fst (get key s)
       end
     else None)
  /\ (fst (save settings s) key <> None -> contains_key _DEFAULTS key = true)
  /\ fst (get key (restarted s1)) = fst (get key s1)
  /\ _FILE s1 = _cache s1.
Proof.
  cbv zeta. unfold save.
  destruct (load s) as [loaded s0] eqn:El. cbn [fst snd].
  assert (Hget : fst (get key s)
                 = match loaded key with Some v => Some v | None => _DEFAULTS key end).
  { unfold get. rewrite El. reflexivity. }
  rewrite Hget.
  unfold get, restarted, load. cbn [_cache _FILE fst snd].
  unfold merge, contains_key.
  split; [|split; [|split]].
  - destruct (_DEFAULTS key) as [dv|] eqn:Ed; [|reflexivity].
    destruct (settings key); [reflexivity|].
    destruct (loaded key); reflexivity.
  - destruct (_DEFAULTS key); [reflexivity | intro H; contradiction].
  - destruct (_DEFAULTS key) as [dv|] eqn:Ed; [|reflexivity].
    destruct (settings key); [reflexivity|].
    destruct (loaded key); reflexivity.
  - reflexivity.
Qed.

End SettingsFacts.

(** ** The dashboard figures *)

Section DashboardFacts.

Import inventory.

Lemma status_exclusive (i : Item) :
  (status_is "unlisted" i = true ->
   status_is "listed" i = false /\ status_is "sold" i = false)
  /\ (status_is "listed" i = true -> status_is "sold" i = false).
Proof.
  unfold status_is. destruct (item_status i) as [x|]; [|split; discriminate].
  split; intro E; apply String.eqb_eq in E; subst x; [split|]; reflexivity.
Qed.

Lemma status_counts (items : list Item) :
  (List.length (filter (status_is "unlisted") items)
   + List.length (filter (status_is "listed") items)
   + List.length (filter (status_is "sold") items)
   <= List.length items)%nat
  /\ ((forall i, In i items ->
         status_is "unlisted" i || status_is "listed" i || status_is "sold" i = true) ->
      (List.length (filter (status_is "unlisted") items)
       + List.length (filter (status_is "listed") items)
       + List.length (filter (status_is "sold") items)
       = List.length items)%nat).
Proof.
  induction items as [|i items [IHle IHeq]]; [split; reflexivity|].
  destruct (status_exclusive i) as [H1 H2].
  cbn [filter]. split.
  - destruct (status_is "unlisted" i) eqn:E1.
    + destruct (H1 eq_refl) as [-> ->]. cbn [List.length]. lia.
    + destruct (status_is "listed" i) eqn:E2.
      * rewrite (H2 eq_refl). cbn [List.length]. lia.
      * destruct (status_is "sold" i); cbn [List.length]; lia.
  - intro Hall.
    assert (Hi := Hall i (or_introl eq_refl)).
    assert (Hrest : forall j, In j items ->
               status_is "unlisted" j || status_is "listed" j || status_is "sold" j = true)
      by (intros j Hj; apply Hall; right; exact Hj).
    specialize (IHeq Hrest).
    destruct (status_is "unlisted" i) eqn:E1.
    + destruct (H1 eq_refl) as [-> ->]. cbn [List.length]. lia.
    + destruct (status_is "listed" i) eqn:E2.
      * rewrite (H2 eq_refl). cbn [List.length]. lia.
      * destruct (status_is "sold" i); [cbn [List.length]; lia | discriminate Hi].
Qed.

Lemma sum_where_bounds (p : Item -> bool) (items : list Item) :
  (forall i v, In i items -> item_purchase_price i = Some v -> 0 <= v) ->
  0 <= sum_where p item_purchase_price items
  /\ sum_where p item_purchase_price items
     <= sum_where (fun _ => true) item_purchase_price items.
Proof.
  unfold sum_where. induction items as [|i items IH]; intro Hpos.
  - cbn. split; apply Qle_refl.
  - assert (Hrest : forall j v, In j items -> item_purchase_price j = Some v -> 0 <= v)
      by (intros j v Hj; apply Hpos; right; exact Hj).
    destruct (IH Hrest) as [H0 Hle].
    assert (Hi : forall v, item_purchase_price i = Some v -> 0 <= v)
      by (intro v; apply Hpos; left; reflexivity).
    cbn [filter fold_right].
    destruct (p i); cbn [fold_right];
      destruct (item_purchase_price i) as [v|]; try specialize (Hi v eq_refl);
      split; lra.
Qed.

Lemma sum_where_none (p : Item -> bool) (column : Item -> option Q)
    (items : list Item) :
  filter p items = [] -> sum_where p column items = 0.
Proof.
  unfold sum_where. intros ->. reflexivity.
Qed.

(** X20.  The dashboard's status counts never add up to more than the number of
    items, and to exactly that number when every item is unlisted, listed
    or sold; with purchase prices that are not negative the unsold
    investment lies between 0 and the total invested; with no sold item,
    revenue, profit and ROI are all 0. *)
Theorem dashboard_stats_consistent (items : list Item) :
  let st := get_dashboard_stats items in
  (0 <= unlisted st /\ 0 <= listed st /\ 0 <= sold_items st)%Z
  /\ (unlisted st + listed st + sold_items st <= total_items st)%Z
  /\ ((forall i, In i items ->
         status_is "unlisted" i || status_is "listed" i || status_is "sold" i = true) ->
      (unlisted st + listed st + sold_items st = total_items st)%Z)
  /\ ((forall i v, In i items -> item_purchase_price i = Some v -> 0 <= v) ->
      0 <= unsold_investment st /\ unsold_investment st <= total_invested st)
  /\ (sold_items st = 0%Z ->
      total_revenue st == 0 /\ total_profit st == 0 /\ total_fees st == 0
      /\ dashboard_roi_percent st == 0).
Proof.
  cbv zeta. unfold get_dashboard_stats.
  cbn [unlisted listed sold_items total_items unsold_investment total_invested
       total_revenue total_profit total_fees dashboard_roi_percent].
  unfold count_where.
  destruct (status_counts items) as [Hle Heq].
  assert (Hall : filter (fun _ : Item => true) items = items).
  { clear. induction items as [|i l IH]; [reflexivity|]. cbn. rewrite IH. reflexivity. }
  rewrite Hall.
  split; [lia|]. split; [lia|].
  split; [intro H; specialize (Heq H); lia|].
  split.
  - intro Hpos.
    destruct (sum_where_bounds
                (fun i => status_is "unlisted" i || status_is "listed" i) items Hpos)
      as [H0 H1].
    split; [apply round2_nonneg, H0 | apply round2_mono, H1].
  - intro Hsold.
    assert (Hnone : filter (status_is "sold") items = []).
    { destruct (filter (status_is "sold") items); [reflexivity | cbn in Hsold; lia]. }
    rewrite !(sum_where_none _ _ _ Hnone).
    split; [vm_compute; reflexivity|]. split; [vm_compute; reflexivity|].
    split; vm_compute; reflexivity.
Qed.

End DashboardFacts.

(** ** Prices read from scraped text *)

Section PriceTextFacts.

Import price_text.

Local Abbreviation is_digit := deal_scanner.is_digit.
Local Abbreviation all_digits := deal_scanner.all_digits.

Lemma digits_value_nonneg (s : string) (acc : Z) :
  (0 <= acc)%Z -> (0 <= digits_value acc s)%Z.
Proof.
  revert acc. induction s as [|c tl IH]; intros acc H; cbn [digits_value]; [exact H|].
  apply IH. lia.
Qed.

Lemma float_nonneg (g : string) (v : Q) : float g = Some v -> 0 <= v.
Proof.
  unfold float.
  destruct (drop_while is_digit g) as [|c frac].
  - destruct (nonempty _); [|discriminate]. intro H. injection H as <-.
    change 0 with (inject_Z 0). rewrite <- Zle_Qle.
    apply digits_value_nonneg. lia.
  - destruct (_ && _); [|discriminate]. intro H. injection H as <-.
    apply Qle_shift_div_l.
    + change 0 with (inject_Z 0). rewrite <- Zlt_Qlt. apply Z.pow_pos_nonneg; lia.
    + rewrite Qmult_0_l. change 0 with (inject_Z 0). rewrite <- Zle_Qle.
      apply digits_value_nonneg. lia.
Qed.

Lemma all_chars_take_while (p q : Ascii.ascii -> bool) (s : string) :
  all_chars p s = true -> all_chars p (take_while q s) = true.
Proof.
  induction s as [|c tl IH]; [reflexivity|]. cbn. intro H.
  apply andb_true_iff in H. destruct H as [Hc Htl].
  destruct (q c); [|reflexivity]. cbn. rewrite Hc. apply IH, Htl.
Qed.

Lemma all_chars_drop_while (p q : Ascii.ascii -> bool) (s : string) :
  all_chars p s = true -> all_chars p (drop_while q s) = true.
Proof.
  induction s as [|c tl IH]; [reflexivity|]. cbn [drop_while]. intro H.
  destruct (q c); [|exact H].
  cbn in H. apply andb_true_iff in H. apply IH, H.
Qed.

Lemma all_chars_remove_commas (p : Ascii.ascii -> bool) (s : string) :
  all_chars p s = true -> all_chars p (remove_commas s) = true.
Proof.
  induction s as [|c tl IH]; [reflexivity|]. cbn. intro H.
  apply andb_true_iff in H. destruct H as [Hc Htl].
  destruct (Ascii.eqb c ","); [apply IH, Htl|]. cbn. rewrite Hc. apply IH, Htl.
Qed.

Lemma search_dollar_chars (p : Ascii.ascii -> bool) (s g : string) :
  all_chars p s = true -> search_dollar s = Some g -> all_chars p g = true.
Proof.
  induction s as [|c tl IH]; [discriminate|]. cbn [search_dollar all_chars].
  intros H Hg. apply andb_true_iff in H. destruct H as [_ Htl].
  destruct (Ascii.eqb c "$"); [|apply IH; assumption].
  destruct (take_while is_num (drop_while is_space tl)) as [|x xs] eqn:E;
    [apply IH; assumption|].
  injection Hg as <-. rewrite <- E.
  apply all_chars_take_while, all_chars_drop_while, Htl.
Qed.

Lemma search_number_chars (p : Ascii.ascii -> bool) (s g : string) :
  all_chars p s = true -> search_number s = Some g -> all_chars p g = true.
Proof.
  induction s as [|c tl IH]; [discriminate|]. cbn [search_number].
  intros H Hg. destruct (is_num c).
  - assert (Eg : g = take_while is_num (String c tl)) by congruence.
    rewrite Eg. apply all_chars_take_while, H.
  - cbn in H. apply andb_true_iff in H. apply IH; tauto.
Qed.

(** [float] raises on a string without a digit. *)
Lemma float_without_digit (g : string) :
  all_chars (fun c => negb (is_digit c)) g = true -> float g = None.
Proof.
  intro H. unfold float. destruct g as [|c tl]; [reflexivity|].
  cbn in H. apply andb_true_iff in H. destruct H as [Hc Htl].
  apply negb_true_iff in Hc. cbn [take_while drop_while]. rewrite Hc.
  cbn [nonempty orb].
  destruct tl as [|d tl']; [rewrite !andb_false_r; reflexivity|].
  cbn in Htl. apply andb_true_iff in Htl. destruct Htl as [Hd _].
  apply negb_true_iff in Hd. cbn [deal_scanner.all_digits]. rewrite Hd.
  cbn [andb]. rewrite andb_false_r. reflexivity.
Qed.

(** X18.  A parsed price is never negative, and text without a digit yields no
    price. *)
Theorem parse_price_sign (text : string) :
  (forall v, _parse_price text = Some v -> 0 <= v)
  /\ (all_chars (fun c => negb (deal_scanner.is_digit c)) text = true ->
      _parse_price text = None).
Proof.
  unfold _parse_price. destruct (negb (nonempty text)); [split; [discriminate | reflexivity]|].
  split.
  - intro v.
    assert (Hfb : match search_number (remove_commas text) with
                  | Some g => float g
                  | None => None
                  end = Some v -> 0 <= v).
    { destruct (search_number _) as [g|]; [apply float_nonneg | discriminate]. }
    destruct (search_dollar _) as [g|]; [|exact Hfb].
    destruct (float g) as [x|] eqn:E; [|exact Hfb].
    intro H. injection H as <-. exact (float_nonneg g x E).
  - intro H. apply all_chars_remove_commas in H.
    assert (Hfb : match search_number (remove_commas text) with
                  | Some g => float g
                  | None => None
                  end = None).
    { destruct (search_number _) as [g|] eqn:E; [|reflexivity].
      apply float_without_digit. exact (search_number_chars _ _ g H E). }
    destruct (search_dollar _) as [g|] eqn:E; [|exact Hfb].
    rewrite (float_without_digit g (search_dollar_chars _ _ g H E)). exact Hfb.
Qed.











End PriceTextFacts.

(** ** The facts above at concrete inputs *)

Lemma recommendation_roi_values_witness :
  ~ 100 == 0
  /\ all_positive [90; 110; 100]
  /\ exists rec roi,
       pricing._calculate_recommendation Qsqrt (Some 100) [90; 110; 100]
         sample_sell_through = Ok rec
       /\ pricing.roi_percent rec = Some roi
       /\ roi == 64.7.
Proof.
  assert (Hr : ~ 100 == 0) by (intro H; discriminate H).
  assert (Hp : all_positive [90; 110; 100]) by (repeat constructor).
  split; [exact Hr|]. split; [exact Hp|].
  destruct (recommendation_roi_values Qsqrt 100 [90; 110; 100] sample_sell_through Hr Hp)
    as (rec & roi & Hrec & Hroi & _ & Hpos).
  exists rec, roi. split; [exact Hrec|]. split; [exact Hroi|].
  assert (Hs : pricing.spread_warning rec = None).
  { vm_compute in Hrec. apply Ok_inj in Hrec. subst rec. reflexivity. }
  specialize (Hpos eq_refl). cbv zeta in Hpos. rewrite Hs in Hpos. exact Hpos.
Defined.





Lemma draw_numbered_fresh : fresh_draws draw_numbered empty_world.
Proof.
  split.
  - intros k _ [].
  - intros j k _ Hlt Heq. unfold draw_numbered in Heq. cbn [fst] in Heq.
    apply (f_equal list_ascii_of_string) in Heq.
    rewrite !list_ascii_of_string_of_list_ascii in Heq.
    apply (f_equal (@List.length _)) in Heq.
    rewrite !repeat_length in Heq. lia.
Qed.

Lemma rescan_finds_nothing_witness :
  returning camera_active (deal_scanner.query camera_query) 50%Z
  = Fetched camera_active 5
  /\ fresh_draws draw_numbered empty_world
  /\ exists w1 n1 w2,
       deal_scanner._scan_one_query Qsqrt days_unparsed
         (returning camera_active) (returning camera_sold) draw_numbered
         camera_query empty_world = Ok (w1, n1)
       /\ deal_scanner._scan_one_query Qsqrt days_unparsed
            (returning camera_active) (returning camera_sold) draw_numbered
            camera_query w1 = Ok (w2, 0%Z)
       /\ deal_scanner.db w2 = deal_scanner.db w1.
Proof.
  split; [reflexivity|]. split; [exact draw_numbered_fresh|].
  exact (rescan_finds_nothing Qsqrt days_unparsed
           (returning camera_active) (returning camera_sold) draw_numbered
           camera_query empty_world camera_active 5 eq_refl draw_numbered_fresh).
Defined.

Lemma looping_reachable : deal_scanner.reachable looping.
Proof.
  apply (deal_scanner.reach_step
           (fst (deal_scanner.start_scanner deal_scanner.initial))).
  - apply (deal_scanner.reach_step deal_scanner.initial).
    + exact deal_scanner.reach_initial.
    + apply deal_scanner.step_start.
  - apply deal_scanner.step_loop_enter. reflexivity.
Qed.

Lemma stop_then_start_witness :
  deal_scanner.reachable looping
  /\ deal_scanner._scanner_task looping = Some deal_scanner.Looping
  /\ deal_scanner._scanner_running looping = true
  /\ snd (deal_scanner.stop_scanner looping) = true
  /\ snd (deal_scanner.start_scanner (fst (deal_scanner.stop_scanner looping))) = false
  /\ deal_scanner.is_scanner_running
       (fst (deal_scanner.start_scanner (fst (deal_scanner.stop_scanner looping))))
     = false.
Proof.
  split; [exact looping_reachable|]. split; [reflexivity|]. split; [reflexivity|].
  pose proof (stop_then_start looping looping_reachable eq_refl eq_refl) as H.
  cbn in H. destruct H as (Hstop & Hstart & _ & Hrun & _).
  split; [exact Hstop|]. split; [exact Hstart | exact Hrun].
Defined.

Lemma run_scan_cycle_accounts_witness :
  NoDup (map inventory.w_id (deal_scanner.watch_queries camera_state))
  /\ exists added,
       deal_scanner.db
         (deal_scanner.scanned
            (deal_scanner.run_scan_cycle Qsqrt days_unparsed
               (returning camera_active) (returning camera_sold) draw_numbered
               clock_still camera_state))
       = added
       /\ inventory.total_found
            (deal_scanner.watch_queries
               (deal_scanner.run_scan_cycle Qsqrt days_unparsed
                  (returning camera_active) (returning camera_sold) draw_numbered
                  clock_still camera_state))
          = Z.of_nat (List.length added).
Proof.
  assert (Hnd : NoDup (map inventory.w_id (deal_scanner.watch_queries camera_state))).
  { cbn. constructor; [intros [] | constructor]. }
  split; [exact Hnd|].
  destruct (run_scan_cycle_accounts Qsqrt days_unparsed
              (returning camera_active) (returning camera_sold) draw_numbered
              clock_still camera_state Hnd)
    as (added & Hdb & Htotal & _).
  exists added. split; [exact Hdb | exact Htotal].
Defined.

Lemma updated_item_not_readded_witness :
  let row := inventory.new_row "a1" "2026-01-01" (sample_opportunity "1001") in
  In row [row]
  /\ inventory.ebay_item_id row = Some "1001"
  /\ inventory.d_ebay_item_id (sample_opportunity "1001") = Some "1001"
  /\ inventory.add_opportunity "b2" "2026-01-03" (sample_opportunity "1001")
       (fst (inventory.update_opportunity_status "a1" "dismissed" None [row]))
     = (fst (inventory.update_opportunity_status "a1" "dismissed" None [row]), None).
Proof.
  cbv zeta. split; [left; reflexivity|]. split; [reflexivity|]. split; [reflexivity|].
  apply (updated_item_not_readded
           [inventory.new_row "a1" "2026-01-01" (sample_opportunity "1001")]
           "a1" "dismissed" None
           (inventory.new_row "a1" "2026-01-01" (sample_opportunity "1001"))
           "1001" "b2" "2026-01-03" (sample_opportunity "1001"));
    [left; reflexivity | reflexivity | reflexivity].
Defined.

Lemma search_all_routes_witness :
  let lamp := sample "lamp" 12 "https://www.ebay.com/itm/1" in
  ("scrape" = "scrape"
   \/ ("scrape" = "auto" /\ ebay_service._api_keys_configured "app-id" = false))
  /\ ebay_service.search_all "app-id" "scrape"
       (returning [lamp]) failing failing (returning [lamp]) failing failing "lamp"
     = {| active := [lamp]; sold := []; total_active := 1; total_sold := 0;
          total_completed := 0; source_mode := Some "scrape" |}.
Proof.
  cbv zeta. split; [left; reflexivity|].
  exact (proj1 (search_all_routes "app-id"
                  (returning [sample "lamp" 12 "https://www.ebay.com/itm/1"])
                  failing failing
                  (returning [sample "lamp" 12 "https://www.ebay.com/itm/1"])
                  failing failing "lamp" "scrape")
               (or_introl eq_refl)).
Defined.

Lemma stored_row_well_keyed : inventory.well_keyed [stored_row].
Proof.
  split.
  - cbn. constructor; [intros [] | constructor].
  - intro e. unfold inventory.rows_with. cbn [filter].
    destruct (inventory.same_ebay_id _ _); cbn; lia.
Qed.

Lemma analyze_prices_no_data_iff_witness :
  (forall i p, In i ([sample "lamp" 0 ""] ++ []) -> price i = Some p -> p <= 0)
  /\ exists ms,
       pricing.analyze_prices Qsqrt days_unparsed [sample "lamp" 0 ""] [] 1 0 0 = Ok ms
       /\ pricing.deal_score ms = pricing.no_data
       /\ pricing.confidence (pricing.recommendation ms) = "low".
Proof.
  assert (Hno : forall i p, In i ([sample "lamp" 0 ""] ++ []) ->
                            price i = Some p -> p <= 0).
  { intros i p [<- | []] Hp. injection Hp as <-. discriminate. }
  split; [exact Hno|].
  destruct (analyze_prices_no_data_iff Qsqrt days_unparsed [sample "lamp" 0 ""] [] 1 0 0)
    as (ms & Hms & _ & _ & H).
  exists ms. split; [exact Hms|].
  destruct (H Hno) as (Hd & Hc & _). split; [exact Hd | exact Hc].
Defined.

Lemma recommendation_below_sell_price_witness :
  exists ms e m p,
    pricing.analyze_prices Qsqrt days_unparsed camera_active camera_sold 5 12 12 = Ok ms
    /\ pricing.estimated_sell_price (pricing.recommendation ms) = Some e
    /\ pricing.max_buy_price (pricing.recommendation ms) = Some m
    /\ pricing.estimated_profit (pricing.recommendation ms) = Some p
    /\ m <= e /\ p <= e.
Proof.
  destruct (recommendation_below_sell_price Qsqrt days_unparsed camera_active
              camera_sold 5 12 12) as (ms & Hms & H).
  assert (He : exists e, pricing.estimated_sell_price (pricing.recommendation ms) = Some e).
  { pose proof Hms as Hc. vm_compute in Hc. apply Ok_inj in Hc. rewrite <- Hc.
    eexists. reflexivity. }
  destruct He as (e & He).
  destruct (H e He) as (m & p & Hm & Hp & _ & Hme & _ & Hpe).
  exists ms, e, m, p.
  split; [exact Hms|]. split; [exact He|]. split; [exact Hm|]. split; [exact Hp|].
  split; [exact Hme | exact Hpe].
Defined.

Lemma deal_score_range_witness :
  (0 <= 12)%Z
  /\ exists ms,
       pricing.analyze_prices Qsqrt days_unparsed camera_active camera_sold 5 12 12 = Ok ms
       /\ (0 <= pricing.score (pricing.deal_score ms))%Z
       /\ (pricing.score (pricing.deal_score ms) <= 90)%Z.
Proof.
  assert (H12 : (0 <= 12)%Z) by discriminate.
  split; [exact H12|].
  destruct (deal_score_range Qsqrt days_unparsed camera_active camera_sold 5 12 12)
    as (ms & Hms & H90 & H0).
  exists ms. split; [exact Hms|]. split; [exact (proj1 (H0 H12)) | exact H90].
Defined.

Lemma avg_days_to_sell_window_witness :
  exists d,
    pricing.avg_days_to_sell (pricing._calc_sell_through days_three [sold_dated] 1 1 5)
    = Some d
    /\ 0 <= d /\ d <= 180.
Proof.
  eexists. split; [reflexivity|].
  apply (proj1 (avg_days_to_sell_window days_three [sold_dated] 1 1 5)).
  reflexivity.
Defined.

Lemma update_opportunity_status_reads_back_witness :
  inventory.well_keyed [stored_row]
  /\ inventory.well_keyed
       (fst (inventory.update_opportunity_status "a1" "dismissed" None [stored_row]))
  /\ exists r,
       snd (inventory.update_opportunity_status "a1" "dismissed" None [stored_row])
       = Some r
       /\ inventory.status r = "dismissed".
Proof.
  split; [exact stored_row_well_keyed|].
  destruct (update_opportunity_status_reads_back [stored_row] "a1" "dismissed" None)
    as (_ & _ & Hwk & Hres).
  split; [exact (Hwk stored_row_well_keyed)|].
  cbn in Hres. destruct Hres as (r & Hr & _ & Hs & _).
  exists r. split; [exact Hr | exact Hs].
Defined.

Lemma delete_watch_query_cascade_witness :
  inventory.well_keyed [stored_row]
  /\ snd (inventory.delete_watch_query "wq1" [camera_row] [stored_row]) = true
  /\ inventory.well_keyed
       (snd (fst (inventory.delete_watch_query "wq1" [camera_row] [stored_row])))
  /\ ~ In stored_row
         (snd (fst (inventory.delete_watch_query "wq1" [camera_row] [stored_row]))).
Proof.
  split; [exact stored_row_well_keyed|].
  destruct (delete_watch_query_cascade "wq1" [camera_row] [stored_row])
    as (Hdel & _ & Hdb & Hwk & _).
  split; [apply Hdel; left; reflexivity|].
  split; [exact (Hwk stored_row_well_keyed)|].
  intro Hin. apply Hdb in Hin. destruct Hin as [_ Hne]. apply Hne. reflexivity.
Defined.

Lemma save_then_get_witness :
  let s := settings.mkStore None None in
  fst (settings.save to_scrape s) "ebay_mode" <> None
  /\ fst (settings.get "ebay_mode" (snd (settings.save to_scrape s)))
     = Some (settings.JString "scrape")
  /\ settings.contains_key settings._DEFAULTS "ebay_mode" = true
  /\ fst (settings.get "ebay_mode" (settings.restarted (snd (settings.save to_scrape s))))
     = Some (settings.JString "scrape").
Proof.
  cbv zeta.
  assert (Hs : fst (settings.save to_scrape (settings.mkStore None None)) "ebay_mode"
               <> None) by discriminate.
  split; [exact Hs|].
  destruct (save_then_get to_scrape (settings.mkStore None None) "ebay_mode")
    as (Hget & Hkey & Hre & _).
  split; [rewrite Hget; reflexivity|].
  split; [exact (Hkey Hs)|].
  rewrite Hre, Hget. reflexivity.
Defined.

Lemma parse_price_sign_witness :
  exists v, price_text._parse_price "$1,234.56" = Some v /\ 0 <= v.
Proof.
  eexists. split; [reflexivity|].
  apply (proj1 (parse_price_sign "$1,234.56")). reflexivity.
Defined.


Lemma dashboard_stats_consistent_witness :
  let lamp :=
    inventory.mkItem "i1" "lamp" None None (Some 12) None None None (Some "listed")
      (Some 30) None None None None None None None None None None
      "2026-01-01" "2026-01-01" in
  (forall i, In i [lamp] ->
     inventory.status_is "unlisted" i || inventory.status_is "listed" i
     || inventory.status_is "sold" i = true)
  /\ (forall i v, In i [lamp] -> inventory.item_purchase_price i = Some v -> 0 <= v)
  /\ inventory.sold_items (inventory.get_dashboard_stats [lamp]) = 0%Z
  /\ (inventory.unlisted (inventory.get_dashboard_stats [lamp])
      + inventory.listed (inventory.get_dashboard_stats [lamp])
      + inventory.sold_items (inventory.get_dashboard_stats [lamp])
      = inventory.total_items (inventory.get_dashboard_stats [lamp]))%Z
  /\ inventory.unsold_investment (inventory.get_dashboard_stats [lamp])
     <= inventory.total_invested (inventory.get_dashboard_stats [lamp])
  /\ inventory.dashboard_roi_percent (inventory.get_dashboard_stats [lamp]) == 0.
Proof.
  intro lamp.
  assert (H1 : forall i, In i [lamp] ->
            inventory.status_is "unlisted" i || inventory.status_is "listed" i
            || inventory.status_is "sold" i = true)
    by (intros i [<- | []]; reflexivity).
  assert (H2 : forall i v, In i [lamp] ->
            inventory.item_purchase_price i = Some v -> 0 <= v).
  { intros i v [<- | []] Hv. injection Hv as <-. discriminate. }
  split; [exact H1|]. split; [exact H2|]. split; [reflexivity|].
  destruct (dashboard_stats_consistent [lamp]) as (_ & _ & Hsum & Hinv & Hsold).
  split; [exact (Hsum H1)|]. split; [exact (proj2 (Hinv H2))|].
  exact (proj2 (proj2 (proj2 (Hsold eq_refl)))).
Defined.
